(** * XLM (mindnlp/models/xlm/xlm.py): a shallow embedding

    The Python module is transcribed function by function: [get_masks],
    [find_pruneable_heads_and_indices], [prune_linear_layer],
    [apply_chunking_to_forward], [MultiHeadAttention] ([__init__],
    [prune_heads], [construct]), [XLMModel] ([_prune_heads],
    [construct]), [TransformerFFN] and [XLMPredLayer].

    - Tensors are nested lists, outermost axis first.  Integer and boolean
      tensors hold [Z]; floating tensors hold values of an abstract scalar
      type supplied by a [Runtime] instance, which stands for the numerical
      kernels of the framework (sums and products, softmax, layer
      normalisation, activation, dropout).  Shapes are read off the lists,
      so a tensor with an empty axis carries no extent for the axes inside
      it.
    - A Python exception is an [Err] result.  A method that mutates its
      object ([prune_heads]) or the key/value cache ([construct]) is a
      function from the state before the call to the state after it and
      the outcome, so that the state left behind by a call that raises is
      there too.
    - The source is a port of a PyTorch model and keeps some of its tensor
      idiom.  Every call is read with the meaning it has in MindSpore, the
      framework the module imports: [Tensor.size] is a property (the number
      of elements), so that [t.size(1)] and [t.size()] raise a [TypeError];
      the second positional parameter of [ops.ones] is the dtype, so that
      [ops.ones(n, m)] raises a [TypeError]; [t.clone().detach()] is not
      available; [mindspore.numpy.arange] refuses an empty range.
      [repeat] is read as tiling.  [view] and [expand_as] are transcribed
      with their checks; [weights * head_mask] and the product with the
      values broadcast along the axis of the heads; the other operations
      on two tensors ask for equal shapes.

    The definitions come first, the properties follow. *)

From Stdlib Require Import ZArith QArith Lia.
From stdpp Require Import base tactics option list gmap sorting.

Local Open Scope Z_scope.

(** ** Exceptions and the result monad *)

(** The payload of a [ValueError]: for those [apply_chunking_to_forward]
    raises, the numbers the message interpolates; [FromFramework] for one
    that a function of the framework raises with a message of its own. *)
Inductive value_error :=
| WrongNumberOfTensors (expected given : nat)
    (* "forward_chunk_fn expects {expected} arguments, but only {given}
       input tensors are given" *)
| NotSameShape (tensor_shape found : nat)
    (* "All input tenors have to be of the same shape: {tensor_shape},
       found shape {found}" *)
| NotMultipleOfChunk (dimension : nat) (chunk_size : Z)
    (* "The dimension to be chunked {dimension} has to be a multiple of
       the chunk size {chunk_size}" *)
| FromFramework.

Inductive exn :=
| AssertionError
| IndexError
| KeyError
| ZeroDivisionError
| AttributeError
| TypeError
| ValueError (msg : value_error)
| TensorError. (* raised inside a tensor kernel: shapes that do not fit,
                  an index out of range *)

Inductive res (X : Type) :=
| Ok (x : X)
| Err (e : exn).
Arguments Ok {X} x.
Arguments Err {X} e.

Definition rbind {X Y} (f : X → res Y) (m : res X) : res Y :=
  match m with
  | Ok x => f x
  | Err e => Err e
  end.

(** stdpp's monad notation [x ← m; k] is used for [res]. *)
#[global] Instance res_ret : MRet res := @Ok.
#[global] Instance res_bind : MBind res := @rbind.

Definition assert (b : bool) : res unit :=
  if b then Ok tt else Err AssertionError.

Fixpoint rmap {X Y} (f : X → res Y) (l : list X) : res (list Y) :=
  match l with
  | [] => Ok []
  | x :: l' => y ← f x; ys ← rmap f l'; Ok (y :: ys)
  end.

(** ** Integer and boolean tensors *)

(** A boolean tensor stores [1] for [True] and [0] for [False], the values
    [mask == 0] and [mask.to(dtype)] see. *)
Definition b2z : bool → Z := Z.b2z.

Definition arange (n : nat) : list Z := seqZ 0 (Z.of_nat n).

(** [mindspore.numpy.arange(n)]: the range from 0; an empty range is
    refused with a [ValueError]. *)
Definition np_arange (n : nat) : res (list Z) :=
  if bool_decide (n = 0%nat) then Err (ValueError FromFramework) else Ok (arange n).

(** [t.size(...)]: [Tensor.size] is a property, the number of elements of
    the tensor, and calling that integer raises a [TypeError] whatever the
    tensor and the arguments are. *)
Definition call_size {X Y} (t : X) : res Y := Err TypeError.

(** [t.clone().detach()]: the chain is not available on the tensors of
    the framework (there is no method [detach]), whatever the tensor. *)
Definition clone_detach {X} (t : X) : res X := Err AttributeError.

(** [t.max()] of a one-dimensional tensor; the reduction of an empty
    tensor is refused by the kernel. *)
Definition tensor_max (t : list Z) : res Z :=
  match t with
  | [] => Err TensorError
  | x :: t' => Ok (foldl Z.max x t')
  end.

Inductive attn_mask :=
| Mask2 (m : list (list Z))          (* (bs, klen) *)
| Mask3 (m : list (list (list Z))).  (* (bs, klen, klen) *)

(** [m.shape == (bs, slen)] for a two-dimensional tensor and
    [m.shape == (bs, slen, klen)] for a three-dimensional one. *)
Definition has_shape2 {X} (m : list (list X)) (bs slen : nat) : bool :=
  bool_decide (length m = bs) && forallb (λ row, bool_decide (length row = slen)) m.
Definition has_shape3 {X} (m : list (list (list X))) (bs slen klen : nat) : bool :=
  bool_decide (length m = bs) && forallb (λ plane, has_shape2 plane slen klen) m.

Definition mask_has_shape3 (m : attn_mask) (bs slen klen : nat) : bool :=
  match m with
  | Mask2 _ => false
  | Mask3 m => has_shape3 m bs slen klen
  end.

(** ** get_masks *)

Definition get_masks (slen : nat) (lengths : list Z) (causal : bool)
    (padding_mask : option (list (list Z))) : res (list (list Z) * attn_mask) :=
  alen ← np_arange slen;
  mask ← match padding_mask with
         | Some pm => Ok pm
         | None =>
             mx ← tensor_max lengths;
             _ ← assert (bool_decide (mx ≤ Z.of_nat slen));
             (* alen < lengths[:, None] *)
             Ok (map (λ len, map (λ t, b2z (t <? len)) alen) lengths)
         end;
  (* attention mask is the same as mask, or triangular inferior attention (causal) *)
  let bs := length lengths in
  let attn_mask :=
    if causal then
      (* alen[None, None, :].repeat(bs, slen, 1) <= alen[None, :, None] *)
      Mask3 (map (λ tile, zip_with (λ row i, map (λ j, b2z (j <=? i)) row) tile alen)
                 (replicate bs (replicate slen alen)))
    else Mask2 mask in
  (* sanity check *)
  _ ← assert (has_shape2 mask bs slen);
  _ ← assert (negb causal || mask_has_shape3 attn_mask bs slen slen);
  Ok (mask, attn_mask).

(** Entry [(b, t)] of a two-dimensional and [(b, i, j)] of a
    three-dimensional tensor. *)
Definition at2 {X} (m : list (list X)) (b t : nat) : option X :=
  row ← m !! b; row !! t.
Definition at3 {X} (m : list (list (list X))) (b i j : nat) : option X :=
  plane ← m !! b; row ← plane !! i; row !! j.


(** ** The numerical runtime *)

(** The scalar type of floating tensors and the kernels the module calls.
    Nothing is assumed about them: every statement below holds for each
    instance. *)
Class Runtime (A : Type) := {
  fzero : A;
  fadd : A → A → A;
  fmul : A → A → A;
  of_int : Z → A;                (* t.to(dtype) of an integer or boolean entry *)
  div_sqrt : A → Z → A;          (* x / math.sqrt(n) *)
  finfo_min : A;                 (* np.finfo(dtype).min *)
  ops_softmax : list A → list A; (* ops.softmax over the last axis *)
  gelu : A → A;
  relu : A → A;
  layer_norm : list A → list A → A → list A → list A;
                                 (* gamma, beta, epsilon, one vector *)
  ops_dropout : A → list A → list A;
                                 (* ops.dropout with rate p: one draw, along the last axis *)
  ops_cross_entropy : list (list A) → list Z → A
                                 (* ops.cross_entropy, mean reduction *)
}.

(** ** Three-dimensional tensors: shape, chunk, cat *)

(** Axis [d] of a tensor of rank [rank], negative axes counted from the end. *)
Definition norm_axis (rank d : Z) : res nat :=
  if bool_decide (0 ≤ d < rank) then Ok (Z.to_nat d)
  else if bool_decide (- rank ≤ d < 0) then Ok (Z.to_nat (d + rank))
  else Err IndexError.

(** Elements [lo, lo + n) of a list: [l[lo : lo + n]]. *)
Definition slice {X} (lo n : nat) (l : list X) : list X := take n (drop lo l).

Section tensor3.
Context {X : Type}.

Definition shape3 (t : list (list (list X))) : nat * nat * nat :=
  (length t, length (hd [] t), length (hd [] (hd [] t))).

Definition dim_size3 (t : list (list (list X))) (d : Z) : res nat :=
  a ← norm_axis 3 d;
  let '(n0, n1, n2) := shape3 t in
  Ok (match a with O => n0 | 1%nat => n1 | _ => n2 end).

(** [t] restricted to [lo, lo + n) along axis [a]. *)
Definition slice3 (a lo n : nat) (t : list (list (list X))) : list (list (list X)) :=
  match a with
  | O => slice lo n t
  | 1%nat => map (slice lo n) t
  | _ => map (map (slice lo n)) t
  end.

(** [t.chunk(chunks, dim=d)]: pieces of [ceil(len / chunks)] entries, the
    last one possibly shorter; [chunks] empty pieces for an empty axis;
    refused unless [chunks > 0]. *)
Definition chunk3 (t : list (list (list X))) (chunks : Z) (d : Z)
    : res (list (list (list (list X)))) :=
  a ← norm_axis 3 d;
  len ← dim_size3 t d;
  if bool_decide (chunks ≤ 0) then Err TensorError else
  let split_size := Z.to_nat ((Z.of_nat len + chunks - 1) / chunks) in
  let pieces := if bool_decide (split_size = 0%nat) then Z.to_nat chunks
                else Nat.div (len + split_size - 1) split_size in
  Ok (map (λ k, slice3 a (k * split_size) split_size t) (seq 0 pieces)).

(** Shapes that [cat] along axis [a] accepts next to each other. *)
Definition cat_compatible (a : nat) (s1 s2 : nat * nat * nat) : bool :=
  let '(b1, l1, d1) := s1 in
  let '(b2, l2, d2) := s2 in
  match a with
  | O => bool_decide (l1 = l2) && bool_decide (d1 = d2)
  | 1%nat => bool_decide (b1 = b2) && bool_decide (d1 = d2)
  | _ => bool_decide (b1 = b2) && bool_decide (l1 = l2)
  end.

Definition cat_pair (a : nat) (t1 t2 : list (list (list X))) : list (list (list X)) :=
  match a with
  | O => t1 ++ t2
  | 1%nat => zip_with app t1 t2
  | _ => zip_with (zip_with app) t1 t2
  end.

(** [ops.cat(ts, axis=d)]: refused for an empty sequence and for shapes
    that differ off the axis. *)
Definition cat3 (ts : list (list (list (list X)))) (d : Z) : res (list (list (list X))) :=
  a ← norm_axis 3 d;
  match ts with
  | [] => Err TensorError
  | t0 :: ts' =>
      if forallb (λ t, cat_compatible a (shape3 t0) (shape3 t)) ts'
      then Ok (foldl (cat_pair a) t0 ts')
      else Err TensorError
  end.
End tensor3.

(** ** apply_chunking_to_forward *)

(** What the function needs from its tensors. *)
Class Chunkable (T : Type) := {
  dim_size : T → Z → res nat;          (* t.shape[d] *)
  chunk : T → Z → Z → res (list T);    (* t.chunk(chunks, dim=d) *)
  cat : list T → Z → res T             (* ops.cat(ts, axis=d) *)
}.

#[global] Instance tensor3_chunkable {X} : Chunkable (list (list (list X))) :=
  {| dim_size := dim_size3; chunk := chunk3; cat := cat3 |}.

(** A callable with the number of parameters [inspect.signature] reports. *)
Record callable (T : Type) := Callable {
  num_parameters : nat;
  call : list T → res T
}.
Arguments Callable {T} _ _.
Arguments num_parameters {T} _.
Arguments call {T} _ _.

(** [zip] over the unpacked lists: the tuples of entries at the same
    index, as many as the shortest list has. *)
Fixpoint zip_star {X} (ls : list (list X)) : list (list X) :=
  match ls with
  | [] => []
  | [l] => map (λ x, [x]) l
  | l :: ls' => zip_with cons l (zip_star ls')
  end.

Section chunking.
Context {T : Type} `{Chunkable T}.

Definition check_same_shape (chunk_dim : Z) (tensor_shape : nat) (input_tensor : T)
    : res unit :=
  s ← dim_size input_tensor chunk_dim;
  if bool_decide (s ≠ tensor_shape)
  then Err (ValueError (NotSameShape tensor_shape s))
  else Ok tt.

Definition apply_chunking_to_forward (forward_fn : callable T)
    (chunk_size : Z) (chunk_dim : Z) (input_tensors : list T) : res T :=
  _ ← assert (bool_decide (0 < length input_tensors)%nat);
  let num_args_in_forward_chunk_fn := num_parameters forward_fn in
  if bool_decide (num_args_in_forward_chunk_fn ≠ length input_tensors) then
    Err (ValueError (WrongNumberOfTensors num_args_in_forward_chunk_fn
                                          (length input_tensors)))
  else if bool_decide (0 < chunk_size) then
    match input_tensors with
    | [] => Err IndexError
    | first :: _ =>
        tensor_shape ← dim_size first chunk_dim;
        _ ← rmap (check_same_shape chunk_dim tensor_shape) input_tensors;
        if bool_decide (Z.of_nat tensor_shape `mod` chunk_size ≠ 0) then
          Err (ValueError (NotMultipleOfChunk tensor_shape chunk_size))
        else
          let num_chunks := Z.of_nat tensor_shape `div` chunk_size in
          (* chunk input tensor into tuples *)
          input_tensors_chunks ←
            rmap (λ input_tensor, chunk input_tensor num_chunks chunk_dim) input_tensors;
          (* apply forward fn to every tuple *)
          output_chunks ← rmap (call forward_fn) (zip_star input_tensors_chunks);
          (* concatenate output at same dimension *)
          cat output_chunks chunk_dim
    end
  else call forward_fn input_tensors.
End chunking.

(** ** nn.Dense *)

Record Dense (A : Type) := MkDense {
  in_channels : nat;
  out_channels : nat;
  weight : list (list A);    (* (out_channels, in_channels) *)
  bias : option (list A)     (* (out_channels,) *)
}.
Arguments MkDense {A} _ _ _ _.
Arguments in_channels {A} _.
Arguments out_channels {A} _.
Arguments weight {A} _.
Arguments bias {A} _.

Section dense.
Context {A : Type} `{Runtime A}.

Definition dot (u v : list A) : A := foldl fadd fzero (zip_with fmul u v).

(** The layer on one vector of the last axis: [W x + b]. *)
Definition dense_vec (layer : Dense A) (x : list A) : res (list A) :=
  if bool_decide (length x ≠ in_channels layer) then Err TensorError else
  let y := map (λ row, dot row x) (weight layer) in
  match bias layer with
  | None => Ok y
  | Some b =>
      if bool_decide (length b ≠ length y) then Err TensorError
      else Ok (zip_with fadd y b)
  end.

(** The layer on a tensor (bs, len, in_channels). *)
Definition dense (layer : Dense A) (x : list (list (list A))) : res (list (list (list A))) :=
  rmap (rmap (dense_vec layer)) x.
End dense.

(** ** TransformerFFN *)

Record TransformerFFN (A : Type) := MkFFN {
  ffn_dropout : A;
  lin1 : Dense A;
  lin2 : Dense A;
  gelu_activation : bool;
  chunk_size_feed_forward : Z;
  ffn_training : bool
}.
Arguments MkFFN {A} _ _ _ _ _ _.
Arguments ffn_dropout {A} _.
Arguments lin1 {A} _.
Arguments lin2 {A} _.
Arguments gelu_activation {A} _.
Arguments chunk_size_feed_forward {A} _.
Arguments ffn_training {A} _.

(** [self.seq_len_dim = 1], assigned once by [__init__]. *)
Definition seq_len_dim : Z := 1.

Section ffn.
Context {A : Type} `{Runtime A}.

Definition act (self : TransformerFFN A) (x : list (list (list A))) : list (list (list A)) :=
  map (map (map (if gelu_activation self then gelu else relu))) x.

Definition ff_chunk (self : TransformerFFN A) (input : list (list (list A)))
    : res (list (list (list A))) :=
  x ← dense (lin1 self) input;
  let x := act self x in
  x ← dense (lin2 self) x;
  let x := if ffn_training self then map (map (ops_dropout (ffn_dropout self))) x else x in
  Ok x.

(** The bound method [self.ff_chunk] has the one parameter [input]. *)
Definition ff_chunk_fn (self : TransformerFFN A) : callable (list (list (list A))) :=
  Callable 1 (λ args, match args with
                      | [input] => ff_chunk self input
                      | _ => Err AssertionError
                      end).

Definition ffn_construct (self : TransformerFFN A) (input : list (list (list A)))
    : res (list (list (list A))) :=
  apply_chunking_to_forward (ff_chunk_fn self) (chunk_size_feed_forward self)
                            seq_len_dim [input].
End ffn.


(** ** State and exceptions *)

(** A method that mutates an object of type [S] and may raise: it yields
    the object as the call leaves it, together with the value returned or
    the exception raised. *)
Definition stx (S X : Type) : Type := S → S * res X.

Definition stx_ret {S X} (x : X) : stx S X := λ s, (s, Ok x).
Definition stx_bind {S X Y} (f : X → stx S Y) (m : stx S X) : stx S Y :=
  λ s, match m s with
       | (s', Ok x) => f x s'
       | (s', Err e) => (s', Err e)
       end.
Definition get {S} : stx S S := λ s, (s, Ok s).
Definition modify {S} (f : S → S) : stx S unit := λ s, (f s, Ok tt).
Definition lift {S X} (r : res X) : stx S X := λ s, (s, r).

#[global] Instance stx_mret {S} : MRet (stx S) := @stx_ret S.
#[global] Instance stx_mbind {S} : MBind (stx S) := @stx_bind S.

(** [a // b] on Python integers. *)
Definition floordiv (a b : Z) : res Z :=
  if bool_decide (b = 0) then Err ZeroDivisionError else Ok (a `div` b).

(** ** find_pruneable_heads_and_indices and prune_linear_layer *)

(** The positions of a boolean vector that hold [True], counted from [from]. *)
Fixpoint true_positions (from : nat) (mask : list bool) : list nat :=
  match mask with
  | [] => []
  | b :: mask' => (if b then [from] else []) ++ true_positions (S from) mask'
  end.

(** One turn of the loop over [heads]: [mask[head] = 0] after the shift. *)
Definition zero_head_row (head_size : Z) (already_pruned_heads : gset Z)
    (mask : list (list Z)) (head : Z) : res (list (list Z)) :=
  (* Compute how many pruned heads are before the head and move the index accordingly *)
  let head := head - Z.of_nat (size (filter (λ h, h < head) already_pruned_heads)) in
  i ← norm_axis (Z.of_nat (length mask)) head;
  Ok (<[i := replicate (Z.to_nat head_size) 0]> mask).

(** [mindspore.ops.ones(shape, dtype)] with an integer where the dtype is
    expected, as line 61 calls it: the second positional parameter of
    [ops.ones] is the dtype, an integer is not one, and the call raises a
    [TypeError]; no tensor is built. *)
Definition ops_ones_int_dtype (shape dtype : Z) : res (list (list Z)) := Err TypeError.

Definition find_pruneable_heads_and_indices (heads : list Z) (n_heads head_size : Z)
    (already_pruned_heads : gset Z) : res (gset Z * list nat) :=
  mask ← ops_ones_int_dtype n_heads head_size;
  (* Convert to set and remove already pruned heads *)
  let heads : gset Z := list_to_set heads ∖ already_pruned_heads in
  mask ← foldl (λ acc head, mask ← acc; zero_head_row head_size already_pruned_heads mask head)
               (Ok mask) (elements heads);
  let mask := map (λ x, bool_decide (x = 1)) (concat mask) in
  let index := true_positions 0 mask in
  Ok (heads, index).

(** [t.index_select(0, index)] and [t[index]]: the gather kernel refuses
    an entry of [index] that is not below the extent of the axis. *)
Definition index_select {X} (t : list X) (index : list nat) : res (list X) :=
  rmap (λ i, match t !! i with
             | Some x => Ok x
             | None => Err TensorError
             end) index.

Section prune_linear_layer.
Context {A : Type}.

Definition prune_linear_layer (layer : Dense A) (index : list nat) (dim : nat)
    : res (Dense A) :=
  W ← match dim with
      | O => index_select (weight layer) index
      | 1%nat => rmap (λ row, index_select row index) (weight layer)
      | _ => Err TensorError
      end ≫= clone_detach;
  b ← match bias layer with
      | None => Ok None
      | Some bias =>
          if bool_decide (dim = 1%nat) then b ← clone_detach bias; Ok (Some b)
          else b ← index_select bias index ≫= clone_detach; Ok (Some b)
      end;
  (* new_size = list(layer.weight.size()) *)
  new_size ← call_size (weight layer);
  let new_size : list nat := <[dim := length index]> new_size in
  let new_in := default O (new_size !! 1%nat) in
  let new_out := default O (new_size !! 0%nat) in
  (* new_layer = nn.Dense(new_size[1], new_size[0]), then copy_ of W and b
     into parameters of shape (new_out, new_in) and (new_out,) *)
  _ ← (if has_shape2 W new_out new_in then Ok tt else Err TensorError);
  _ ← match b with
      | Some b => if bool_decide (length b = new_out) then Ok tt else Err TensorError
      | None => Ok tt
      end;
  Ok (MkDense new_in new_out W b).
End prune_linear_layer.

(** ** MultiHeadAttention *)

Record MultiHeadAttention (A : Type) := MkMHA {
  layer_id : nat;
  dim : Z;
  n_heads : Z;
  mha_dropout : A;
  q_lin : Dense A;
  k_lin : Dense A;
  v_lin : Dense A;
  out_lin : Dense A;
  pruned_heads : gset Z;
  mha_training : bool
}.
Arguments MkMHA {A} _ _ _ _ _ _ _ _ _ _.
Arguments layer_id {A} _.
Arguments dim {A} _.
Arguments n_heads {A} _.
Arguments mha_dropout {A} _.
Arguments q_lin {A} _.
Arguments k_lin {A} _.
Arguments v_lin {A} _.
Arguments out_lin {A} _.
Arguments pruned_heads {A} _.
Arguments mha_training {A} _.

Section prune_heads.
Context {A : Type}.
Local Abbreviation MHA := (MultiHeadAttention A).

Definition set_q_lin (l : Dense A) (s : MHA) : MHA :=
  MkMHA (layer_id s) (dim s) (n_heads s) (mha_dropout s) l (k_lin s) (v_lin s)
        (out_lin s) (pruned_heads s) (mha_training s).
Definition set_k_lin (l : Dense A) (s : MHA) : MHA :=
  MkMHA (layer_id s) (dim s) (n_heads s) (mha_dropout s) (q_lin s) l (v_lin s)
        (out_lin s) (pruned_heads s) (mha_training s).
Definition set_v_lin (l : Dense A) (s : MHA) : MHA :=
  MkMHA (layer_id s) (dim s) (n_heads s) (mha_dropout s) (q_lin s) (k_lin s) l
        (out_lin s) (pruned_heads s) (mha_training s).
Definition set_out_lin (l : Dense A) (s : MHA) : MHA :=
  MkMHA (layer_id s) (dim s) (n_heads s) (mha_dropout s) (q_lin s) (k_lin s) (v_lin s)
        l (pruned_heads s) (mha_training s).
Definition set_n_heads (n : Z) (s : MHA) : MHA :=
  MkMHA (layer_id s) (dim s) n (mha_dropout s) (q_lin s) (k_lin s) (v_lin s)
        (out_lin s) (pruned_heads s) (mha_training s).
Definition set_dim (d : Z) (s : MHA) : MHA :=
  MkMHA (layer_id s) d (n_heads s) (mha_dropout s) (q_lin s) (k_lin s) (v_lin s)
        (out_lin s) (pruned_heads s) (mha_training s).
Definition set_pruned_heads (p : gset Z) (s : MHA) : MHA :=
  MkMHA (layer_id s) (dim s) (n_heads s) (mha_dropout s) (q_lin s) (k_lin s) (v_lin s)
        (out_lin s) p (mha_training s).

Definition prune_heads (heads : list Z) : stx MHA unit :=
  self ← get;
  attention_head_size ← lift (floordiv (dim self) (n_heads self));
  if bool_decide (length heads = 0%nat) then mret tt else
  '(heads, index) ← lift (find_pruneable_heads_and_indices
                            heads (n_heads self) attention_head_size (pruned_heads self));
  (* Prune linear layers *)
  l ← lift (prune_linear_layer (q_lin self) index 0); _ ← modify (set_q_lin l);
  l ← lift (prune_linear_layer (k_lin self) index 0); _ ← modify (set_k_lin l);
  l ← lift (prune_linear_layer (v_lin self) index 0); _ ← modify (set_v_lin l);
  l ← lift (prune_linear_layer (out_lin self) index 1); _ ← modify (set_out_lin l);
  (* Update hyper params *)
  _ ← modify (λ self, set_n_heads (n_heads self - Z.of_nat (size heads)) self);
  _ ← modify (λ self, set_dim (attention_head_size * n_heads self) self);
  modify (λ self, set_pruned_heads (pruned_heads self ∪ heads) self).
End prune_heads.

(** The key/value cache: the dictionary with the entry ["slen"] (a length,
    so a natural number) and one entry [(k, v)] per layer identifier.  The
    caller's cache argument is [None] or such a dictionary, shared with
    the callee. *)
Record Cache (A : Type) := MkCache {
  cache_slen : option nat;
  cache_layers : gmap nat (list (list (list (list A))) * list (list (list (list A))))
}.
Arguments MkCache {A} _ _.
Arguments cache_slen {A} _.
Arguments cache_layers {A} _.

(** [cache["slen"]] *)
Definition cache_get_slen {A} (cache : Cache A) : res nat :=
  match cache_slen cache with
  | Some n => Ok n
  | None => Err KeyError
  end.

(** [cache[layer_id] = (k, v)], when there is a cache. *)
Definition cache_set_layer {A} (layer_id : nat)
    (kv : list (list (list (list A))) * list (list (list (list A))))
    (cache : option (Cache A)) : option (Cache A) :=
  match cache with
  | Some c => Some (MkCache (cache_slen c) (<[layer_id := kv]> (cache_layers c)))
  | None => None
  end.

(** ** Tensor helpers of the attention block *)

(** Both operands entry by entry; the lengths must agree. *)
Definition zip_strict {X Y W} (f : X → Y → res W) (l1 : list X) (l2 : list Y)
    : res (list W) :=
  if bool_decide (length l1 ≠ length l2) then Err TensorError
  else rmap (λ p, f p.1 p.2) (zip l1 l2).

(** Both operands entry by entry along an axis on which they broadcast:
    the extents agree, or one of them is one. *)
Definition zip_broadcast {X Y W} (f : X → Y → res W) (l1 : list X) (l2 : list Y)
    : res (list W) :=
  if bool_decide (length l1 = length l2) then rmap (λ p, f p.1 p.2) (zip l1 l2)
  else match l1, l2 with
       | [x], _ => rmap (f x) l2
       | _, [y] => rmap (λ x, f x y) l1
       | _, _ => Err TensorError
       end.

(** Consecutive groups of [w] entries. *)
Definition group {X} (w : nat) (l : list X) : list (list X) :=
  map (λ k, slice (k * w) w l) (seq 0 (Nat.div (length l) w)).

(** [t.expand(n, ...)] on one axis: an axis of extent one is repeated. *)
Definition expand {X} (n : nat) (l : list X) : res (list X) :=
  if bool_decide (length l = n) then Ok l
  else match l with
       | [x] => Ok (replicate n x)
       | _ => Err TensorError
       end.

Definition mask_entries (mask : attn_mask) : list Z :=
  match mask with
  | Mask2 m => concat m
  | Mask3 m => concat (concat m)
  end.

Section attention.
Context {A : Type} `{Runtime A}.
Local Abbreviation T3 := (list (list (list A))).
Local Abbreviation T4 := (list (list (list (list A)))).
Local Abbreviation B4 := (list (list (list (list bool)))).

(** [x.view(bs, -1, n_heads, dim_per_head).transpose(0, 2, 1, 3)] *)
Definition shape (bs : nat) (n_heads dim_per_head : Z) (x : T3) : res T4 :=
  if bool_decide (n_heads ≤ 0 ∨ dim_per_head ≤ 0 ∨ bs = 0%nat) then Err TensorError else
  let h := Z.to_nat n_heads in
  let d := Z.to_nat dim_per_head in
  let flat := concat (concat x) in
  if bool_decide (Nat.modulo (length flat) (bs * h * d) ≠ 0%nat) then Err TensorError else
  let len := Nat.div (length flat) (bs * h * d) in
  let viewed :=  (* (bs, len, h, d) *)
    map (λ b, map (group d) (group (h * d) (slice (b * (len * h * d)) (len * h * d) flat)))
        (seq 0 bs) in
  Ok (map (λ sample, map (λ head, omap (λ position, position !! head) sample) (seq 0 h))
          viewed).

(** [x.transpose(0, 2, 1, 3).view(bs, -1, n_heads * dim_per_head)] *)
Definition unshape (bs : nat) (n_heads dim_per_head : Z) (x : T4) : res T3 :=
  let transposed :=  (* (bs, len, h, d) *)
    map (λ sample, map (λ l, omap (λ head, head !! l) sample)
                       (seq 0 (length (hd [] sample)))) x in
  let flat := concat (concat (concat transposed)) in
  let w := Z.to_nat (n_heads * dim_per_head) in
  if bool_decide (n_heads * dim_per_head ≤ 0 ∨ bs = 0%nat) then Err TensorError else
  if bool_decide (Nat.modulo (length flat) (bs * w) ≠ 0%nat) then Err TensorError else
  let len := Nat.div (length flat) (bs * w) in
  Ok (map (λ b, group w (slice (b * (len * w)) (len * w) flat)) (seq 0 bs)).

(** [ops.cat([a, b], axis=2)] on (bs, n_heads, len, dim_per_head). *)
Definition cat_axis2 (a b : T4) : res T4 :=
  zip_strict (λ sa sb, zip_strict (λ ha hb, Ok (ha ++ hb)) sa sb) a b.

(** [matmul(q, k.transpose(0, 1, 3, 2)) / math.sqrt(dim_per_head)], for
    equal batch and head extents. *)
Definition scaled_scores (q k : T4) (dim_per_head : Z) : res T4 :=
  zip_strict (λ qs ks,
    zip_strict (λ qh kh,
      rmap (λ qv, rmap (λ kv,
              if bool_decide (length qv ≠ length kv) then Err TensorError
              else Ok (div_sqrt (dot qv kv) dim_per_head)) kh) qh) qs ks) q k.

(** [matmul(weights, v)]: (bs, h, qlen, klen) by (bs, h, klen, d); the
    axes of the heads broadcast. *)
Definition weighted_values (weights v : T4) (dim_per_head : Z) : res T4 :=
  zip_strict (λ ws vs,
    zip_broadcast (λ wh vh,
      rmap (λ w,
              if bool_decide (length w ≠ length vh) then Err TensorError
              else Ok (map (λ c, dot w (omap (λ vj, vj !! c) vh))
                           (seq 0 (Z.to_nat dim_per_head)))) wh) ws vs) weights v.

(** [(mask == 0).view(mask_reshape)], without the axis of extent one that
    stands for the heads: (bs, qlen or 1, klen). *)
Definition view_mask (mask : attn_mask) (bs qlen klen : nat)
    : res (list (list (list bool))) :=
  let rows := match mask with Mask3 _ => qlen | Mask2 _ => 1%nat end in
  let flat := map (λ x, bool_decide (x = 0)) (mask_entries mask) in
  if bool_decide (length flat ≠ (bs * rows * klen)%nat) then Err TensorError else
  Ok (map (λ b, map (λ r, slice ((b * rows + r) * klen) klen flat) (seq 0 rows))
          (seq 0 bs)).

(** [.expand_as(scores)] *)
Definition expand_as (m : list (list (list bool))) (scores : T4) : res B4 :=
  m ← expand (length scores) m;
  rmap (λ p : list (list bool) * list (list (list A)),
          rmap (λ sh : list (list A),
                  rows ← expand (length sh) p.1;
                  rmap (λ q : list bool * list A, expand (length q.2) q.1) (zip rows sh))
               p.2)
       (zip m scores).

(** [scores.masked_fill(mask, value)]: a new tensor; [scores] itself is
    left as it is. *)
Definition masked_fill (scores : T4) (mask : B4) (value : A) : T4 :=
  zip_with (zip_with (zip_with (zip_with (λ s (m : bool), if m then value else s))))
           scores mask.

(** Lines 329 to 369 of [construct]: everything up to the call of
    [ops.softmax].  Returns the tensor bound to [scores] at that point,
    the expanded boolean mask ([True] where the attention mask is 0) and
    the values [v]. *)
Definition construct_scores (self : MultiHeadAttention A) (input : T3) (mask : attn_mask)
    (kv : option T3) : stx (option (Cache A)) (T4 * B4 * T4 * Z) :=
  cache ← get;
  (* Input is (bs, qlen, dim) *)
  (* Mask is (bs, klen) (non-causal) or (bs, klen, klen) *)
  let '(bs, qlen, _) := shape3 input in
  klen ← lift (match kv with
               | None => match cache with
                         | None => Ok qlen
                         | Some c => slen ← cache_get_slen c; Ok (slen + qlen)%nat
                         end
               | Some kv => call_size kv  (* kv.size(1) *)
               end);
  let n_heads := n_heads self in
  dim_per_head ← lift (floordiv (dim self) n_heads);
  let shape x := shape bs n_heads dim_per_head x in
  q ← lift (x ← dense (q_lin self) input; shape x);
  let cached := c ← cache; cache_layers c !! layer_id self in
  '(k, v) ← lift (match kv, cached with
                  | None, None =>
                      k ← dense (k_lin self) input ≫= shape;
                      v ← dense (v_lin self) input ≫= shape;
                      Ok (k, v)
                  | None, Some (k_, v_) =>
                      k ← dense (k_lin self) input ≫= shape;
                      v ← dense (v_lin self) input ≫= shape;
                      k ← cat_axis2 k_ k;
                      v ← cat_axis2 v_ v;
                      Ok (k, v)
                  | Some kv, None =>
                      k ← dense (k_lin self) kv ≫= shape;
                      v ← dense (v_lin self) kv ≫= shape;
                      Ok (k, v)
                  | Some _, Some (k_, v_) => Ok (k_, v_)
                  end);
  _ ← modify (cache_set_layer (layer_id self) (k, v));
  scores ← lift (scaled_scores q k dim_per_head);
  mask ← lift (view_mask mask bs qlen klen ≫= λ m, expand_as m scores);
  let _ := masked_fill scores mask finfo_min in
  mret (scores, mask, v, dim_per_head).

(** [construct]: the context and, on request, the attention weights. *)
Definition mha_construct (self : MultiHeadAttention A) (input : T3) (mask : attn_mask)
    (kv : option T3) (head_mask : option (list A)) (output_attentions : bool)
    : stx (option (Cache A)) (T3 * option T4) :=
  '(scores, _, v, dim_per_head) ← construct_scores self input mask kv;
  let weights := map (map (map ops_softmax)) scores in
  let weights := if mha_training self
                 then map (map (map (ops_dropout (mha_dropout self)))) weights
                 else weights in
  (* Mask heads if we want to: the head mask is (1, heads, 1, 1) *)
  weights ← lift (match head_mask with
                  | None => Ok weights
                  | Some head_mask =>
                      rmap (λ ws, zip_broadcast (λ wh m, Ok (map (map (λ w, fmul w m)) wh))
                                                ws head_mask) weights
                  end);
  context ← lift (weighted_values weights v dim_per_head);
  context ← lift (unshape (length input) (n_heads self) dim_per_head context);
  out ← lift (dense (out_lin self) context);
  mret (out, if output_attentions then Some weights else None).
End attention.

(** A runtime on the integers: exact sums and products; the other kernels
    are stand-ins.  It serves to run the model on inputs where the result
    does not depend on what those kernels compute. *)
Definition int_runtime : Runtime Z :=
  {| fzero := 0; fadd := Z.add; fmul := Z.mul; of_int := id;
     div_sqrt := λ x n, x `div` Z.sqrt n;
     finfo_min := - 2 ^ 127;
     ops_softmax := id; gelu := id; relu := Z.max 0;
     layer_norm := λ _ _ _ x, x;
     ops_dropout := λ _ x, x;
     ops_cross_entropy := λ _ _, 0 |}.

(** ** XLMModel *)

Record LayerNorm (A : Type) := MkLayerNorm {
  ln_gamma : list A;
  ln_beta : list A;
  ln_epsilon : A
}.
Arguments MkLayerNorm {A} _ _ _.
Arguments ln_gamma {A} _.
Arguments ln_beta {A} _.
Arguments ln_epsilon {A} _.

(** The head mask argument: one entry per head, or one row per layer. *)
Inductive head_mask_arg (A : Type) :=
| HeadMask1 (m : list A)
| HeadMask2 (m : list (list A)).
Arguments HeadMask1 {A} m.
Arguments HeadMask2 {A} m.

Record XLMModel (A : Type) := MkXLMModel {
  causal : bool;
  n_langs : Z;
  use_lang_emb : bool;
  pad_index : Z;
  n_layers : nat;
  xlm_dropout : A;
  xlm_training : bool;
  position_embeddings : list (list A);        (* (max_position_embeddings, dim) *)
  lang_embeddings : option (list (list A));   (* set when n_langs > 1 and use_lang_emb *)
  embeddings : list (list A);                 (* (n_words, dim) *)
  layer_norm_emb : LayerNorm A;
  attentions : list (MultiHeadAttention A);
  layer_norm1 : list (LayerNorm A);
  ffns : list (TransformerFFN A);
  layer_norm2 : list (LayerNorm A);
  position_ids : list (list Z);               (* (1, max_position_embeddings) *)
  config_output_attentions : bool;
  config_output_hidden_states : bool
}.
Arguments MkXLMModel {A} _ _ _ _ _ _ _ _ _ _ _ _ _ _ _ _ _ _.
Arguments causal {A} _.
Arguments n_langs {A} _.
Arguments use_lang_emb {A} _.
Arguments pad_index {A} _.
Arguments n_layers {A} _.
Arguments xlm_dropout {A} _.
Arguments xlm_training {A} _.
Arguments position_embeddings {A} _.
Arguments lang_embeddings {A} _.
Arguments embeddings {A} _.
Arguments layer_norm_emb {A} _.
Arguments attentions {A} _.
Arguments layer_norm1 {A} _.
Arguments ffns {A} _.
Arguments layer_norm2 {A} _.
Arguments position_ids {A} _.
Arguments config_output_attentions {A} _.
Arguments config_output_hidden_states {A} _.

(** The arguments of [XLMModel.construct] other than the cache. *)
Record construct_args (A : Type) := MkArgs {
  arg_input_ids : option (list (list Z));
  arg_attention_mask : option (list (list Z));
  arg_langs : option (list (list Z));
  arg_token_type_ids : option (list (list Z));
  arg_position_ids : option (list (list Z));
  arg_lengths : option (list Z);
  arg_head_mask : option (head_mask_arg A);
  arg_inputs_embeds : option (list (list (list A)));
  arg_output_attentions : option bool;
  arg_output_hidden_states : option bool
}.
Arguments MkArgs {A} _ _ _ _ _ _ _ _ _ _.
Arguments arg_input_ids {A} _.
Arguments arg_attention_mask {A} _.
Arguments arg_langs {A} _.
Arguments arg_token_type_ids {A} _.
Arguments arg_position_ids {A} _.
Arguments arg_lengths {A} _.
Arguments arg_head_mask {A} _.
Arguments arg_inputs_embeds {A} _.
Arguments arg_output_attentions {A} _.
Arguments arg_output_hidden_states {A} _.

(** [l[start:]] *)
Definition slice_from {X} (start : Z) (l : list X) : list X :=
  if bool_decide (start < 0)
  then drop (Z.to_nat (Z.max 0 (Z.of_nat (length l) + start))) l
  else drop (Z.to_nat start) l.

(** [attn_mask[:, start:]] *)
Definition mask_slice_from (start : Z) (m : attn_mask) : attn_mask :=
  match m with
  | Mask2 m => Mask2 (map (slice_from start) m)
  | Mask3 m => Mask3 (map (slice_from start) m)
  end.

(** [t[i]] for [i] in [range(...)] *)
Definition item {X} (l : list X) (i : nat) : res X :=
  match l !! i with
  | Some x => Ok x
  | None => Err IndexError
  end.

Fixpoint stx_foldl {S X Y} (f : X → Y → stx S X) (x : X) (l : list Y) : stx S X :=
  match l with
  | [] => mret x
  | y :: l' => x' ← f x y; stx_foldl f x' l'
  end.

Section xlm_model.
Context {A : Type} `{Runtime A}.
Local Abbreviation T3 := (list (list (list A))).
Local Abbreviation T4 := (list (list (list (list A)))).

(** An [nn.Embedding] with table [table] on a tensor of indices; the
    gather kernel refuses an index that is not a row of the table. *)
Definition embedding (table : list (list A)) (ids : list (list Z)) : res T3 :=
  rmap (rmap (λ id, match table !! Z.to_nat id with
                    | Some row => if bool_decide (id < 0) then Err TensorError else Ok row
                    | None => Err TensorError
                    end)) ids.

Definition layer_norm_apply (ln : LayerNorm A) (t : T3) : T3 :=
  map (map (layer_norm (ln_gamma ln) (ln_beta ln) (ln_epsilon ln))) t.

(** [a + b] on tensors of one shape. *)
Definition add3 (a b : T3) : res T3 :=
  zip_strict (zip_strict (zip_strict (λ x y, Ok (fadd x y)))) a b.

(** [p.expand_as(t)] on the batch and the sequence axis. *)
Definition expand_as3 (p t : T3) : res T3 :=
  p ← expand (length t) p;
  rmap (λ q : list (list A) * list (list A), expand (length q.2) q.1) (zip p t).

(** [tensor *= mask.unsqueeze(-1).to(tensor.dtype)] *)
Definition mul_mask (tensor : T3) (mask : list (list Z)) : res T3 :=
  m ← expand (length tensor) mask;
  rmap (λ p : list (list A) * list Z,
          row ← expand (length p.1) p.2;
          Ok (zip_with (λ vec x, map (λ a, fmul a (of_int x)) vec) p.1 row))
       (zip tensor m).

(** [get_head_mask] with [_convert_head_mask_to_5d]: the list indexed by
    the layer, each entry [None] or the factors of the heads. *)
Definition get_head_mask (head_mask : option (head_mask_arg A)) (num_hidden_layers : nat)
    : list (option (list A)) :=
  match head_mask with
  | Some (HeadMask1 m) => replicate num_hidden_layers (Some m)
  | Some (HeadMask2 m) => map Some m
  | None => replicate num_hidden_layers None
  end.

(** One turn of the loop over the layers. *)
Definition layer_step (self : XLMModel A) (mask : list (list Z)) (attn_mask : attn_mask)
    (head_mask : list (option (list A))) (output_hidden_states output_attentions : bool)
    (acc : T3 * list T3 * list T4) (i : nat) : stx (option (Cache A)) (T3 * list T3 * list T4) :=
  let '(tensor, hidden_states, all_attentions) := acc in
  let hidden_states := if output_hidden_states then hidden_states ++ [tensor]
                       else hidden_states in
  (* self attention *)
  attention ← lift (item (attentions self) i);
  head_mask_i ← lift (item head_mask i);
  attn_outputs ← mha_construct attention tensor attn_mask None head_mask_i output_attentions;
  let attn := attn_outputs.1 in
  let all_attentions := match attn_outputs.2 with
                        | Some weights => all_attentions ++ [weights]
                        | None => all_attentions
                        end in
  let attn := if xlm_training self then map (map (ops_dropout (xlm_dropout self))) attn
              else attn in
  tensor ← lift (add3 tensor attn);
  ln1 ← lift (item (layer_norm1 self) i);
  let tensor := layer_norm_apply ln1 tensor in
  (* FFN *)
  ffn ← lift (item (ffns self) i);
  y ← lift (ffn_construct ffn tensor);
  tensor ← lift (add3 tensor y);
  ln2 ← lift (item (layer_norm2 self) i);
  let tensor := layer_norm_apply ln2 tensor in
  tensor ← lift (mul_mask tensor mask);
  mret (tensor, hidden_states, all_attentions).

Definition xlm_construct (self : XLMModel A) (args : construct_args A)
    : stx (option (Cache A)) (T3 * option (list T3) * option (list T4)) :=
  cache ← get;
  let input_ids := arg_input_ids args in
  let output_attentions :=
    default (config_output_attentions self) (arg_output_attentions args) in
  let output_hidden_states :=
    default (config_output_hidden_states self) (arg_output_hidden_states args) in
  '(bs, slen) ← lift (match input_ids, arg_inputs_embeds args with
                      | Some ids, _ => Ok (length ids, length (hd [] ids))
                      | None, Some e => Ok (length e, length (hd [] e))
                      | None, None => Err AttributeError
                      end);
  let lengths :=
    match arg_lengths args, input_ids with
    | Some lengths, _ => lengths
    | None, Some ids =>
        map (λ row, Z.of_nat (length (filter (λ x, x ≠ pad_index self) row))) ids
    | None, None => replicate bs (Z.of_nat slen)
    end in
  (* check inputs *)
  _ ← lift (assert (bool_decide (length lengths = bs)));
  _ ← lift (mx ← tensor_max lengths; assert (bool_decide (mx ≤ Z.of_nat slen)));
  (* generate masks *)
  '(mask, attn_mask) ← lift (get_masks slen lengths (causal self) (arg_attention_mask args));
  (* position_ids *)
  position_ids ← lift (match arg_position_ids args with
                       | None => Ok (map (take slen) (position_ids self))
                       | Some p =>
                           (* assert position_ids.size() == (bs, slen) *)
                           size ← call_size p;
                           _ ← assert (bool_decide (size = (bs, slen)));
                           Ok p
                       end);
  (* langs *)
  _ ← lift (match arg_langs args with
            | Some langs =>
                (* assert langs.size() == (bs, slen) *)
                size ← call_size langs;
                assert (bool_decide (size = (bs, slen)))
            | None => Ok tt
            end);
  let langs := arg_langs args in
  (* Prepare head mask if needed *)
  let head_mask := get_head_mask (arg_head_mask args) (n_layers self) in
  (* do not recompute cached elements *)
  '(input_ids, position_ids, langs, mask, attn_mask) ←
    lift (match cache, input_ids with
          | Some c, Some ids =>
              cached ← cache_get_slen c;
              let _slen := Z.of_nat slen - Z.of_nat cached in
              Ok (Some (map (slice_from (- _slen)) ids),
                  map (slice_from (- _slen)) position_ids,
                  (λ l, map (slice_from (- _slen)) l) <$> langs,
                  map (slice_from (- _slen)) mask,
                  mask_slice_from (- _slen) attn_mask)
          | _, _ => Ok (input_ids, position_ids, langs, mask, attn_mask)
          end);
  (* embeddings *)
  inputs_embeds ← lift (match arg_inputs_embeds args, input_ids with
                        | Some e, _ => Ok e
                        | None, Some ids => embedding (embeddings self) ids
                        | None, None => Err AttributeError
                        end);
  tensor ← lift (p ← embedding (position_embeddings self) position_ids;
                 p ← expand_as3 p inputs_embeds;
                 add3 inputs_embeds p);
  tensor ← lift (match langs with
                 | Some langs =>
                     if use_lang_emb self && bool_decide (1 < n_langs self) then
                       match lang_embeddings self with
                       | Some table => e ← embedding table langs; add3 tensor e
                       | None => Err AttributeError
                       end
                     else Ok tensor
                 | None => Ok tensor
                 end);
  tensor ← lift (match arg_token_type_ids args with
                 | Some token_type_ids =>
                     e ← embedding (embeddings self) token_type_ids; add3 tensor e
                 | None => Ok tensor
                 end);
  let tensor := layer_norm_apply (layer_norm_emb self) tensor in
  let tensor := if xlm_training self then map (map (ops_dropout (xlm_dropout self))) tensor
                else tensor in
  tensor ← lift (mul_mask tensor mask);
  (* transformer layers *)
  '(tensor, hidden_states, all_attentions) ←
    stx_foldl (layer_step self mask attn_mask head_mask output_hidden_states output_attentions)
              (tensor, [], []) (seq 0 (n_layers self));
  (* Add last hidden state *)
  let hidden_states := if output_hidden_states then hidden_states ++ [tensor]
                       else hidden_states in
  (* update cache length *)
  cache ← get;
  _ ← match cache with
      | Some c =>
          (* cache["slen"] += tensor.size(1) *)
          cached ← lift (cache_get_slen c);
          added ← lift (call_size tensor);
          modify (λ _, Some (MkCache (Some (cached + added)%nat) (cache_layers c)))
      | None => mret tt
      end;
  mret (tensor,
        if output_hidden_states then Some hidden_states else None,
        if output_attentions then Some all_attentions else None).
End xlm_model.

(** ** XLMPredLayer *)

Record XLMConfig := MkXLMConfig {
  cfg_asm : bool;
  cfg_n_words : Z;
  cfg_pad_index : Z;
  cfg_emb_dim : Z
}.

Record XLMPredLayer (A : Type) := MkXLMPredLayer {
  asm : bool;
  pred_n_words : Z;
  pred_pad_index : Z;
  proj : option (Dense A)    (* [None]: the attribute was never assigned *)
}.
Arguments MkXLMPredLayer {A} _ _ _ _.
Arguments asm {A} _.
Arguments pred_n_words {A} _.
Arguments pred_pad_index {A} _.
Arguments proj {A} _.

Inductive pred_output (A : Type) :=
| Loss (loss : A)
| Scores (scores : list (list (list A))).
Arguments Loss {A} loss.
Arguments Scores {A} scores.

Section pred_layer.
Context {A : Type} `{Runtime A}.

(** [__init__]; [fresh_proj] is the [nn.Dense(dim, config.n_words)] the
    constructor would build. *)
Definition pred_layer_init (config : XLMConfig) (fresh_proj : Dense A) : XLMPredLayer A :=
  MkXLMPredLayer (cfg_asm config) (cfg_n_words config) (cfg_pad_index config)
                 (if negb (cfg_asm config)  (* config.asm is False *)
                  then Some fresh_proj
                  else None).

(** Compute the loss, and optionally the scores. *)
Definition pred_construct (self : XLMPredLayer A) (x : list (list (list A)))
    (y : option (list (list Z))) : res (list (pred_output A)) :=
  let outputs := [] in
  if negb (asm self) then  (* self.asm is False *)
    match proj self with
    | None => Err AttributeError
    | Some proj =>
        scores ← dense proj x;
        let outputs := Scores scores :: outputs in
        match y with
        | Some y =>
            (* scores.view(-1, self.n_words) and y.view(-1) *)
            let flat := concat (concat scores) in
            let n_words := Z.to_nat (pred_n_words self) in
            if bool_decide (pred_n_words self ≤ 0
                            ∨ Nat.modulo (length flat) n_words ≠ 0%nat)
            then Err TensorError else
            let rows := group n_words flat in
            if bool_decide (length rows ≠ length (concat y)) then Err TensorError else
            let loss := ops_cross_entropy rows (concat y) in
            Ok (Loss loss :: outputs)
        | None => Ok outputs
        end
    end
  else
    (* self.proj.log_prob(x): no attribute [proj]; an [nn.Dense] would
       have no attribute [log_prob] either *)
    match proj self with
    | None => Err AttributeError
    | Some _ => Err AttributeError
    end.
End pred_layer.

(** ** Well-formedness *)

(** Every row along the first axis is as long as the first one: the extent
    of the second axis is the same for the whole batch. *)
Definition uniform_rows {X} (t : list (list X)) : bool :=
  forallb (λ row, bool_decide (length row = length (hd [] t))) t.

(** ** Position-wise forward functions *)

(** A forward function that treats every vector of the last axis on its
    own: it accepts a tensor when [okv] accepts each vector and then maps
    [g] over the vectors. *)
Definition pointwise {A} (fn : list (list (list A)) → res (list (list (list A))))
    (okv : list A → bool) (g : list A → list A) : Prop :=
  ∀ t, fn t = if forallb (forallb okv) t then Ok (map (map g) t) else Err TensorError.


Section ffn_spec.
Context {A : Type} `{Runtime A}.

(** What [dense_vec] accepts and what it then computes. *)
Definition dense_ok (layer : Dense A) (x : list A) : bool :=
  bool_decide (length x = in_channels layer) &&
  match bias layer with
  | None => true
  | Some b => bool_decide (length b = length (weight layer))
  end.

Definition dense_out (layer : Dense A) (x : list A) : list A :=
  let y := map (λ row, dot row x) (weight layer) in
  match bias layer with
  | None => y
  | Some b => zip_with fadd y b
  end.

Definition actf (self : TransformerFFN A) : A → A :=
  if gelu_activation self then gelu else relu.

(** The same for [ff_chunk] in evaluation mode. *)
Definition ff_ok (self : TransformerFFN A) (x : list A) : bool :=
  dense_ok (lin1 self) x && dense_ok (lin2 self) (map (actf self) (dense_out (lin1 self) x)).

Definition ff_out (self : TransformerFFN A) (x : list A) : list A :=
  dense_out (lin2 self) (map (actf self) (dense_out (lin1 self) x)).
End ffn_spec.

(** ** The lower-triangular tensor of the causal mask *)

(** The value [get_masks] builds for [attn_mask] when [causal] holds. *)
Definition causal_tensor (bs slen : nat) : list (list (list Z)) :=
  map (λ tile, zip_with (λ row i, map (λ j, b2z (j <=? i)) row) tile (arange slen))
      (replicate bs (replicate slen (arange slen))).

(** ** Head pruning and the shapes of a layer *)

(** The state in which a call leaves the object. *)
Definition exec {S X} (m : stx S X) (s : S) : S := (m s).1.

(** The slot a requested head occupies among the heads still present: its
    index moved left by the number of already pruned heads below it. *)
Definition shifted (already_pruned_heads : gset Z) (head : Z) : Z :=
  head - Z.of_nat (size (filter (λ h, h < head) already_pruned_heads)).

(** A layer with [din] inputs and [dout] outputs. *)
Definition dense_shape {A} (layer : Dense A) (din dout : nat) : Prop :=
  in_channels layer = din ∧ out_channels layer = dout ∧
  has_shape2 (weight layer) dout din = true ∧
  ∀ b, bias layer = Some b → length b = dout.

(** The shapes an attention layer keeps: [dim = n_heads * head_size], the
    query, key and value projections map [din] inputs to [dim] units, the
    output projection maps [dim] units to [dout] outputs. *)
Record attn_shapes {A} (head_size din dout : nat) (s : MultiHeadAttention A) : Prop := {
  shapes_n_heads : 0 ≤ n_heads s;
  shapes_dim : dim s = n_heads s * Z.of_nat head_size;
  shapes_q : dense_shape (q_lin s) din (Z.to_nat (dim s));
  shapes_k : dense_shape (k_lin s) din (Z.to_nat (dim s));
  shapes_v : dense_shape (v_lin s) din (Z.to_nat (dim s));
  shapes_out : dense_shape (out_lin s) (Z.to_nat (dim s)) dout
}.

(** The invariant of a layer built with [heads0] heads: the pruned heads
    are heads of the layer, and the others are the heads still present. *)
Record attn_wf {A} (heads0 head_size din dout : nat) (s : MultiHeadAttention A) : Prop := {
  wf_shapes : attn_shapes head_size din dout s;
  wf_pruned : ∀ p, p ∈ pruned_heads s → 0 ≤ p < Z.of_nat heads0;
  wf_n_heads : n_heads s = Z.of_nat heads0 - Z.of_nat (size (pruned_heads s))
}.

(** ** Small concrete objects *)

(** A layer with three heads of two units each on six inputs; entry
    [(i, j)] of every projection is [10 i + j], the bias of unit [i] is
    [i]. *)
Definition demo_dense : Dense Z :=
  MkDense 6 6
    (map (λ i, map (λ j, 10 * i + j) (seqZ 0 6)) (seqZ 0 6))
    (Some (seqZ 0 6)).

Definition demo_attention : MultiHeadAttention Z :=
  MkMHA 0 6 3 0 demo_dense demo_dense demo_dense demo_dense ∅ false.

(** A layer with one head of one unit and identity projections. *)
Definition unit_dense : Dense Z := MkDense 1 1 [[1]] (Some [0]).

Definition unit_attention (layer_id : nat) : MultiHeadAttention Z :=
  MkMHA layer_id 1 1 0 unit_dense unit_dense unit_dense unit_dense ∅ false.

(** The length counter of the cache argument: [None] without a cache,
    [Some None] for a dictionary without the entry ["slen"]. *)
Definition counter {A} (cache : option (Cache A)) : option (option nat) :=
  cache_slen <$> cache.

(** A model of width one over a vocabulary of four words: word [w] embeds
    to [w], position [t] to [t]; [layers] identical layers with identity
    projections. *)
Definition unit_layer_norm : LayerNorm Z := MkLayerNorm [1] [0] 0.

Definition unit_ffn : TransformerFFN Z := MkFFN 0 unit_dense unit_dense false 0 false.

Definition unit_model (causal : bool) (layers : nat) : XLMModel Z :=
  MkXLMModel causal 1 false 0 layers 0 false
    [[0]; [1]; [2]; [3]] None [[0]; [1]; [2]; [3]] unit_layer_norm
    (map unit_attention (seq 0 layers))
    (replicate layers unit_layer_norm) (replicate layers unit_ffn)
    (replicate layers unit_layer_norm)
    [[0; 1; 2; 3]] false false.

(** A call with [input_ids] alone. *)
Definition ids_only {A} (input_ids : list (list Z)) : construct_args A :=
  MkArgs (Some input_ids) None None None None None None None None None.

(** ** Exact evaluation on rationals *)

(** A runtime on [option Q]: [Some q] is the real number the kernels
    compute in exact arithmetic, [None] stands for a value that is not a
    rational number this runtime can name.  Sums, products and the ReLU are
    exact; a square root is taken of squares of rationals only; the softmax
    is taken of rows whose scores are all equal (the uniform row); the GELU
    at 0 only; dropout and the cross entropy are never exact.  [None]
    propagates, so a result [Some q] was computed exactly throughout. *)
Definition exact2 (f : Q → Q → Q) (a b : option Q) : option Q :=
  match a, b with
  | Some x, Some y => Some (Qred (f x y))
  | _, _ => None
  end.

Definition exact_sqrt (q : Q) : option Q :=
  let q := Qred q in
  let n := Qnum q in
  let d := Z.pos (Qden q) in
  if (0 <=? n) && (Z.sqrt n * Z.sqrt n =? n) && (Z.sqrt d * Z.sqrt d =? d)
  then Some (Qmake (Z.sqrt n) (Z.to_pos (Z.sqrt d)))
  else None.

Definition exact_div (a : option Q) (b : option Q) : option Q :=
  match a, b with
  | Some x, Some y => if Qeq_bool y 0 then None else Some (Qred (Qdiv x y))
  | _, _ => None
  end.

Definition exact_sum (l : list Q) : Q := Qred (foldl Qplus 0%Q l).

(** All entries, when each of them is exact. *)
Definition all_exact (l : list (option Q)) : option (list Q) :=
  foldr (λ x acc, match x, acc with
                  | Some q, Some qs => Some (q :: qs)
                  | _, _ => None
                  end) (Some []) l.

Definition exact_softmax (row : list (option Q)) : list (option Q) :=
  match all_exact row with
  | Some (x :: xs) =>
      if forallb (Qeq_bool x) xs
      then map (λ _, Some (Qmake 1 (Pos.of_nat (length row)))) row
      else map (λ _, None) row
  | _ => map (λ _, None) row
  end.

(** [(x - mean) / sqrt(var + epsilon) * gamma + beta] with the mean and the
    (biased) variance of [x]. *)
Definition exact_layer_norm (gamma beta : list (option Q)) (epsilon : option Q)
    (x : list (option Q)) : list (option Q) :=
  match all_exact x, epsilon with
  | Some xs, Some eps =>
      let n := inject_Z (Z.of_nat (length xs)) in
      let mean := Qred (Qdiv (exact_sum xs) n) in
      let var := Qred (Qdiv (exact_sum (map (λ q, Qmult (Qminus q mean) (Qminus q mean)) xs)) n) in
      let std := exact_sqrt (Qplus var eps) in
      zip_with (λ xi gb, exact2 Qplus (exact2 Qmult (exact_div (Some (Qminus xi mean)) std)
                                                     gb.1) gb.2)
               xs (zip gamma beta)
  | _, _ => map (λ _, None) x
  end.

Definition exact_runtime : Runtime (option Q) :=
  {| fzero := Some 0%Q;
     fadd := exact2 Qplus;
     fmul := exact2 Qmult;
     of_int := λ z, Some (inject_Z z);
     div_sqrt := λ x n, exact_div x (exact_sqrt (inject_Z n));
     finfo_min := Some (inject_Z (- (2 ^ 128 - 2 ^ 104)));
     ops_softmax := exact_softmax;
     gelu := λ x, match x with
                  | Some q => if Qeq_bool q 0 then Some 0%Q else None
                  | None => None
                  end;
     relu := λ x, match x with
                  | Some q => Some (if Qle_bool 0 q then q else 0%Q)
                  | None => None
                  end;
     layer_norm := exact_layer_norm;
     ops_dropout := λ _ x, map (λ _, None) x;
     ops_cross_entropy := λ _ _, None |}.

(** Vectors and matrices with integer entries. *)
Definition qvec (l : list Z) : list (option Q) := map (λ z, Some (inject_Z z)) l.
Definition qmat (m : list (list Z)) : list (list (option Q)) := map qvec m.

(** A causal model of width 2 with two heads and two layers, normalisation
    epsilon 0.  Word 1 embeds to (1, 0), word 2 to (0, 1), word 0 is the
    padding; the position embeddings are zero.  In both layers the query
    projection is zero, so that every score is 0 and every softmax row is
    uniform, the key and value projections are the identity and the
    feed-forward sublayer has zero weights; the output projection is the
    identity in layer 0 and minus twice the identity in layer 1. *)
Definition scaled_identity (c : Z) : Dense (option Q) :=
  MkDense 2 2 (qmat [[c; 0]; [0; c]]) (Some (qvec [0; 0])).

Definition two_layer_attention (layer_id : nat) (c : Z) : MultiHeadAttention (option Q) :=
  MkMHA layer_id 2 2 (Some 0%Q)
        (scaled_identity 0) (scaled_identity 1) (scaled_identity 1) (scaled_identity c)
        ∅ false.

Definition zero_ffn : TransformerFFN (option Q) :=
  MkFFN (Some 0%Q)
        (MkDense 2 8 (qmat (replicate 8 [0; 0])) (Some (qvec (replicate 8 0))))
        (MkDense 8 2 (qmat (replicate 2 (replicate 8 0))) (Some (qvec [0; 0])))
        true 0 false.

Definition plain_layer_norm : LayerNorm (option Q) :=
  MkLayerNorm (qvec [1; 1]) (qvec [0; 0]) (Some 0%Q).

Definition two_layer_model : XLMModel (option Q) :=
  MkXLMModel true 1 false 0 2 (Some 0%Q) false
    (qmat [[0; 0]; [0; 0]]) None (qmat [[0; 0]; [1; 0]; [0; 1]])
    (MkLayerNorm (qvec [2; 2]) (qvec [0; 3]) (Some 0%Q))
    [two_layer_attention 0 1; two_layer_attention 1 (-2)]
    [plain_layer_norm; plain_layer_norm] [zero_ffn; zero_ffn]
    [plain_layer_norm; plain_layer_norm]
    [[0; 1]] false false.

(** ** MultiHeadAttention.__init__ *)

(** [a % b] on Python integers: the remainder has the sign of [b]. *)
Definition pymod (a b : Z) : res Z :=
  if bool_decide (b = 0) then Err ZeroDivisionError else Ok (a `mod` b).

Section mha_init.
Context {A : Type}.

(** [__init__].  The state is the class attribute [NEW_ID], the counter
    that all attention layers of the process share; [fresh] are the four
    [nn.Dense(dim, dim)] the constructor would build, in the order
    [q_lin], [k_lin], [v_lin], [out_lin], and [training] is the flag the
    base class sets. *)
Definition mha_init (n_heads dim : Z) (attention_dropout : A)
    (fresh : Dense A * Dense A * Dense A * Dense A) (training : bool)
    : stx nat (MultiHeadAttention A) :=
  layer_id ← get;
  _ ← modify S;  (* next(MultiHeadAttention.NEW_ID) *)
  r ← lift (pymod dim n_heads);
  _ ← lift (assert (bool_decide (r = 0)));
  let '(q_lin, k_lin, v_lin, out_lin) := fresh in
  mret (MkMHA layer_id dim n_heads attention_dropout q_lin k_lin v_lin out_lin ∅ training).
End mha_init.

(** ** XLMModel._prune_heads *)

Section xlm_prune_heads.
Context {A : Type}.

Definition set_attentions (l : list (MultiHeadAttention A)) (s : XLMModel A) : XLMModel A :=
  MkXLMModel (causal s) (n_langs s) (use_lang_emb s) (pad_index s) (n_layers s)
             (xlm_dropout s) (xlm_training s) (position_embeddings s) (lang_embeddings s)
             (embeddings s) (layer_norm_emb s) l (layer_norm1 s) (ffns s) (layer_norm2 s)
             (position_ids s) (config_output_attentions s) (config_output_hidden_states s).

(** [self.attentions[layer].prune_heads(heads)]: the layer is the object
    the list holds, so what [prune_heads] does to it is seen in the list,
    also when the call raises. *)
Definition prune_layer (layer : Z) (heads : list Z) : stx (XLMModel A) unit :=
  self ← get;
  i ← lift (norm_axis (Z.of_nat (length (attentions self))) layer);
  attention ← lift (item (attentions self) i);
  let '(attention, r) := prune_heads heads attention in
  _ ← modify (set_attentions (<[i := attention]> (attentions self)));
  lift r.

(** [heads_to_prune] is the dictionary as the list of its items, in the
    order of iteration. *)
Definition _prune_heads (heads_to_prune : list (Z * list Z)) : stx (XLMModel A) unit :=
  stx_foldl (λ _ entry, prune_layer entry.1 entry.2) tt heads_to_prune.
End xlm_prune_heads.

(** ** The length counter of the cache *)

(** A computation that leaves the length counter of the cache as it found
    it, whatever its outcome. *)
Definition keeps_counter {A X} (m : stx (option (Cache A)) X) : Prop :=
  ∀ cache cache' r, m cache = (cache', r) → counter cache' = counter cache.

(** ** The positions of the output of the attention block *)

(** How many times [construct] returns each position of its input: once,
    unless the layer has a single head and the head mask has several
    factors; the product [weights * head_mask] then broadcasts the one
    head to as many heads as there are factors, and [unshape], which
    views the context with the width of one head, lays them out as
    positions. *)
Definition head_copies {A} (self : MultiHeadAttention A) (head_mask : option (list A))
    : nat :=
  match head_mask with
  | Some m => if bool_decide (n_heads self = 1) then length m else 1%nat
  | None => 1%nat
  end.
(** * Properties *)

(** ** The result monad *)

Lemma rbind_ok {X Y} (m : res X) (f : X → res Y) y :
  m ≫= f = Ok y → ∃ x, m = Ok x ∧ f x = Ok y.
Proof. destruct m; simpl; [eauto | discriminate]. Qed.

(** ** State and exceptions: inversion *)

Lemma stx_bind_ok {S X Y} (m : stx S X) (f : X → stx S Y) s s' y :
  (m ≫= f) s = (s', Ok y) → ∃ x s1, m s = (s1, Ok x) ∧ f x s1 = (s', Ok y).
Proof.
  unfold mbind, stx_mbind, stx_bind. destruct (m s) as [s1 [x|e]]; [eauto | done].
Qed.

Lemma lift_ok {S X} (r : res X) (s s' : S) x : lift r s = (s', Ok x) → s' = s ∧ r = Ok x.
Proof. unfold lift. by intros [= -> ->]. Qed.

Lemma mret_ok {S X} (x x' : X) (s s' : S) :
  (mret x : stx S X) s = (s', Ok x') → s' = s ∧ x' = x.
Proof. unfold mret, stx_mret, stx_ret. by intros [= -> ->]. Qed.

(** ** get_masks *)

Lemma length_arange n : length (arange n) = n.
Proof. unfold arange. rewrite length_seqZ. lia. Qed.

Lemma lookup_arange n (t : nat) : (t < n)%nat → arange n !! t = Some (Z.of_nat t).
Proof.
  intros Ht. unfold arange. rewrite lookup_seqZ_lt by lia. done.
Qed.

Lemma has_shape2_map {X Y} (f : X → list Y) (l : list X) n :
  (∀ x, length (f x) = n) → has_shape2 (map f l) (length l) n = true.
Proof.
  intros Hf. unfold has_shape2. rewrite length_map, bool_decide_true by done.
  simpl. apply forallb_forall. intros row [x [<- _]]%in_map_iff.
  by rewrite bool_decide_true.
Qed.

Lemma causal_tensor_shape bs slen : has_shape3 (causal_tensor bs slen) bs slen slen = true.
Proof.
  unfold has_shape3, causal_tensor.
  rewrite length_map, length_replicate, bool_decide_true by done. simpl.
  apply forallb_forall. intros plane [tile [<- Htile]]%in_map_iff.
  apply list_elem_of_In, elem_of_replicate in Htile as [-> _].
  unfold has_shape2.
  rewrite length_zip_with, length_replicate, length_arange, Nat.min_id.
  rewrite bool_decide_true by done. simpl.
  apply forallb_forall. intros row Hrow.
  apply list_elem_of_In, elem_of_lookup_zip_with in Hrow as (k & r & i & -> & Hr & _).
  apply lookup_replicate in Hr as [-> _].
  by rewrite length_map, length_arange, bool_decide_true.
Qed.

Lemma causal_tensor_lookup bs slen (b i j : nat) :
  (b < bs)%nat → (i < slen)%nat → (j < slen)%nat →
  at3 (causal_tensor bs slen) b i j = Some (b2z (Z.of_nat j <=? Z.of_nat i)).
Proof.
  intros Hb Hi Hj. unfold at3, causal_tensor.
  rewrite list_lookup_fmap, lookup_replicate_2 by done. simpl.
  rewrite lookup_zip_with, lookup_replicate_2 by done. simpl.
  rewrite lookup_arange by done. simpl.
  by rewrite list_lookup_fmap, lookup_arange.
Qed.

Lemma np_arange_pos n : (0 < n)%nat → np_arange n = Ok (arange n).
Proof. intros Hn. unfold np_arange. rewrite bool_decide_false; [done | lia]. Qed.

Lemma get_masks_empty_range lengths causal padding_mask :
  get_masks 0 lengths causal padding_mask = Err (ValueError FromFramework).
Proof. done. Qed.

Lemma get_masks_no_padding slen lengths causal mx :
  (0 < slen)%nat →
  tensor_max lengths = Ok mx → mx ≤ Z.of_nat slen →
  get_masks slen lengths causal None
  = Ok (map (λ len, map (λ t, b2z (t <? len)) (arange slen)) lengths,
        if causal then Mask3 (causal_tensor (length lengths) slen)
        else Mask2 (map (λ len, map (λ t, b2z (t <? len)) (arange slen)) lengths)).
Proof.
  intros Hpos Hmx Hle. unfold get_masks. rewrite np_arange_pos, Hmx by done. simpl.
  rewrite bool_decide_true by done. simpl.
  rewrite has_shape2_map by (intros; by rewrite length_map, length_arange). simpl.
  destruct causal; simpl; [|done].
  fold (causal_tensor (length lengths) slen).
  by rewrite causal_tensor_shape.
Qed.

(** C4.  Without an external padding mask, for a sequence length of at
    least one and with [max(lengths) <= slen], [get_masks] returns a
    padding mask with one row per sequence whose entry [(b, t)] is true
    exactly when [t < lengths[b]]; for lengths [3, 5] and [slen = 5] the
    rows are [T,T,T,F,F] and [T,T,T,T,T].  (A sequence length of zero is
    refused by [mindspore.numpy.arange] before any mask is built.) *)
Theorem get_masks_padding_mask (slen : nat) (lengths : list Z) (causal : bool) (mx : Z) :
  (0 < slen)%nat →
  tensor_max lengths = Ok mx → mx ≤ Z.of_nat slen →
  ∃ mask attn,
    get_masks slen lengths causal None = Ok (mask, attn) ∧
    length mask = length lengths ∧
    (∀ (b t : nat) len, lengths !! b = Some len → (t < slen)%nat →
       at2 mask b t = Some (b2z (bool_decide (Z.of_nat t < len)))) ∧
    ∃ attn', get_masks 5 [3; 5] causal None
             = Ok ([[1; 1; 1; 0; 0]; [1; 1; 1; 1; 1]], attn').
Proof.
  intros Hpos Hmx Hle. eexists _, _. split; [by eapply get_masks_no_padding|].
  split; [by rewrite length_map|]. split.
  - intros b t len Hb Ht. unfold at2.
    rewrite list_lookup_fmap, Hb. simpl.
    rewrite list_lookup_fmap, lookup_arange by done. simpl.
    do 2 f_equal. destruct (Z.ltb_spec (Z.of_nat t) len).
    + by rewrite bool_decide_true.
    + rewrite bool_decide_false; [done | lia].
  - eexists. erewrite (get_masks_no_padding 5 [3; 5] causal 5); [done | lia | done | lia].
Qed.

Lemma get_masks_padding_mask_witness :
  (0 < 5)%nat ∧ tensor_max [3; 5] = Ok 5 ∧ 5 ≤ Z.of_nat 5 ∧
  ∃ mask attn,
    get_masks 5 [3; 5] false None = Ok (mask, attn) ∧
    length mask = 2%nat ∧
    (∀ (b t : nat) len, [3; 5] !! b = Some len → (t < 5)%nat →
       at2 mask b t = Some (b2z (bool_decide (Z.of_nat t < len)))) ∧
    ∃ attn', get_masks 5 [3; 5] false None
             = Ok ([[1; 1; 1; 0; 0]; [1; 1; 1; 1; 1]], attn').
Proof.
  split; [lia|]. split; [reflexivity|]. split; [lia|].
  apply (get_masks_padding_mask 5 [3; 5] false 5); [lia | reflexivity | lia].
Defined.

(** C2 as stated fails: with [lengths = [1]] and [slen = 2] the causal
    attention mask lets position 1 attend to position 1, which is padding
    (the padding mask is false there), so the entry is not
    [(j <= i) and valid(b, j)]. *)
Lemma get_masks_causal_not_padding_aware :
  ∃ mask attn,
    get_masks 2 [1] true None = Ok (mask, Mask3 attn) ∧
    at2 mask 0 1 = Some 0 ∧
    at3 attn 0 1 1 = Some 1 ∧
    at3 attn 0 1 1 ≠ Some (b2z ((1 <=? 1) && bool_decide (at2 mask 0 1 = Some 1))).
Proof. eexists _, _. repeat split. discriminate. Qed.

(** C2, amended.  With the causal flag set and a sequence length of at
    least one, the attention mask returned by [get_masks] is the lower
    triangle alone, the same for every sequence of the batch: entry
    [(b, i, j)] is true exactly when [j <= i], whether or not [j] is a
    padding position of sequence [b]. *)
Theorem get_masks_causal_lower_triangular (slen : nat) (lengths : list Z) (mx : Z) :
  (0 < slen)%nat →
  tensor_max lengths = Ok mx → mx ≤ Z.of_nat slen →
  ∃ mask attn,
    get_masks slen lengths true None = Ok (mask, Mask3 attn) ∧
    ∀ b i j : nat, (b < length lengths)%nat → (i < slen)%nat → (j < slen)%nat →
      at3 attn b i j = Some (b2z (bool_decide (j ≤ i)%nat)).
Proof.
  intros Hpos Hmx Hle. eexists _, _.
  split; [exact (get_masks_no_padding slen lengths true mx Hpos Hmx Hle)|].
  intros b i j Hb Hi Hj. rewrite causal_tensor_lookup by done. do 2 f_equal.
  destruct (Z.leb_spec (Z.of_nat j) (Z.of_nat i)).
  - rewrite bool_decide_true; [done | lia].
  - rewrite bool_decide_false; [done | lia].
Qed.

Lemma get_masks_causal_lower_triangular_witness :
  (0 < 3)%nat ∧ tensor_max [1; 3] = Ok 3 ∧ 3 ≤ Z.of_nat 3 ∧
  ∃ mask attn,
    get_masks 3 [1; 3] true None = Ok (mask, Mask3 attn) ∧
    ∀ b i j : nat, (b < 2)%nat → (i < 3)%nat → (j < 3)%nat →
      at3 attn b i j = Some (b2z (bool_decide (j ≤ i)%nat)).
Proof.
  split; [lia|]. split; [reflexivity|]. split; [lia|].
  apply (get_masks_causal_lower_triangular 3 [1; 3] 3); [lia | reflexivity | lia].
Defined.

(** ** apply_chunking_to_forward and the feed-forward sublayer *)

(** With a positive chunk size, a first tensor whose chunked axis is not a
    multiple of it makes [apply_chunking_to_forward] raise, whatever the
    forward function and the tensor type. *)
Lemma apply_chunking_not_multiple {T} `{Chunkable T} (forward_fn : callable T)
    (chunk_size chunk_dim : Z) (first : T) (rest : list T) (len : nat) :
  0 < chunk_size →
  dim_size first chunk_dim = Ok len →
  Z.of_nat len `mod` chunk_size ≠ 0 →
  ∃ e, apply_chunking_to_forward forward_fn chunk_size chunk_dim (first :: rest) = Err e.
Proof.
  intros Hcs Hlen Hmod. unfold apply_chunking_to_forward. simpl.
  case_bool_decide; [eauto|].
  rewrite bool_decide_true by done. rewrite Hlen. simpl.
  destruct (check_same_shape chunk_dim len first ≫= _) as [xs|e] eqn:Hcheck; simpl; [|eauto].
  rewrite bool_decide_true by done. eauto.
Qed.

(** C8.  When the configured chunk size is positive and the length of the
    sequence axis of the input is not a multiple of it, the feed-forward
    sublayer raises the [ValueError] that names the length and the chunk
    size; no tensor is returned. *)
Theorem ffn_construct_not_multiple {A} `{Runtime A} (self : TransformerFFN A)
    (input : list (list (list A))) :
  0 < chunk_size_feed_forward self →
  Z.of_nat (length (hd [] input)) `mod` chunk_size_feed_forward self ≠ 0 →
  ffn_construct self input
  = Err (ValueError (NotMultipleOfChunk (length (hd [] input))
                                        (chunk_size_feed_forward self))).
Proof.
  intros Hcs Hmod. unfold ffn_construct, apply_chunking_to_forward. simpl.
  rewrite bool_decide_true by done.
  unfold check_same_shape. simpl.
  rewrite (bool_decide_false (length (hd [] input) ≠ length (hd [] input)))
    by (intros Hne; by apply Hne).
  simpl. by rewrite bool_decide_true.
Qed.

Lemma ffn_construct_not_multiple_witness :
  let self : TransformerFFN Z :=
    MkFFN 0 (MkDense 1 1 [[1]] (Some [0])) (MkDense 1 1 [[1]] (Some [0])) false 2 false in
  0 < chunk_size_feed_forward self ∧
  Z.of_nat 3 `mod` chunk_size_feed_forward self ≠ 0 ∧
  @ffn_construct Z int_runtime self [[[1]; [2]; [3]]]
  = Err (ValueError (NotMultipleOfChunk 3 2)).
Proof.
  intros self. split; [reflexivity|]. split; [discriminate|].
  apply (@ffn_construct_not_multiple Z int_runtime self [[[1]; [2]; [3]]]);
    [reflexivity | discriminate].
Defined.

Lemma rmap_closed {X Y} (f : X → res Y) (ok : X → bool) (g : X → Y) e0 l :
  (∀ x, f x = if ok x then Ok (g x) else Err e0) →
  rmap f l = if forallb ok l then Ok (map g l) else Err e0.
Proof.
  intros Hf. induction l as [|x l IH]; simpl; [done|].
  rewrite Hf, IH. destruct (ok x); simpl; [|done]. by destruct (forallb ok l).
Qed.

Lemma forallb_map {X Y} (p : Y → bool) (f : X → Y) l :
  forallb p (map f l) = forallb (λ x, p (f x)) l.
Proof. induction l as [|x l IH]; simpl; [done | by rewrite IH]. Qed.

Lemma forallb_andb {X} (p q : X → bool) l :
  forallb (λ x, p x && q x) l = forallb p l && forallb q l.
Proof.
  induction l as [|x l IH]; simpl; [done|]. rewrite IH.
  destruct (p x), (q x), (forallb p l); simpl; done.
Qed.

Lemma forallb_ext_in {X} (p q : X → bool) l :
  (∀ x, In x l → p x = q x) → forallb p l = forallb q l.
Proof.
  induction l as [|x l IH]; simpl; intros Hpq; [done|].
  rewrite Hpq by auto. by rewrite IH by auto.
Qed.

Lemma forallb_swap {X Y} (p : X → Y → bool) (l1 : list X) (l2 : list Y) :
  forallb (λ x, forallb (p x) l2) l1 = forallb (λ y, forallb (λ x, p x y) l1) l2.
Proof.
  induction l1 as [|x l1 IH]; simpl.
  - induction l2 as [|y l2 IH2]; simpl; [done | by rewrite <- IH2].
  - rewrite IH. by rewrite forallb_andb.
Qed.

Lemma forallb_seq_shift (f : nat → bool) n :
  forallb f (seq 1 n) = forallb (λ k, f (S k)) (seq 0 n).
Proof. by rewrite <- seq_shift, forallb_map. Qed.

Lemma slice_succ {X} (c k : nat) (l : list X) :
  slice (S k * c) c l = slice (k * c) c (drop c l).
Proof. unfold slice. by rewrite drop_drop. Qed.

Lemma forallb_slices {X} (p : X → bool) (c n : nat) (l : list X) :
  length l = (n * c)%nat →
  forallb (λ k, forallb p (slice (k * c) c l)) (seq 0 n) = forallb p l.
Proof.
  revert l. induction n as [|n IH]; intros l Hl; simpl.
  - by destruct l.
  - rewrite forallb_seq_shift.
    rewrite (forallb_ext_in _ (λ k, forallb p (slice (k * c) c (drop c l)))).
    2:{ intros k _. by rewrite slice_succ. }
    rewrite IH by (rewrite length_drop; lia).
    unfold slice. simpl. rewrite drop_0.
    rewrite <- (take_drop c l) at 3. by rewrite forallb_app.
Qed.

Lemma chunk3_even {X} (t : list (list (list X))) (n c : nat) :
  (0 < n)%nat → (0 < c)%nat → length (hd [] t) = (n * c)%nat →
  chunk3 t (Z.of_nat n) 1 = Ok (map (λ k, map (slice (k * c) c) t) (seq 0 n)).
Proof.
  intros Hn Hc Hlen. unfold chunk3. simpl. rewrite Hlen.
  rewrite bool_decide_false by lia.
  assert (Hsplit : Z.to_nat ((Z.of_nat (n * c) + Z.of_nat n - 1) `div` Z.of_nat n) = c).
  { rewrite <- (Z.div_unique_pos _ (Z.of_nat n) (Z.of_nat c) (Z.of_nat n - 1)); lia. }
  rewrite Hsplit. rewrite bool_decide_false by lia.
  assert (Hpieces : Nat.div (n * c + c - 1) c = n).
  { symmetry. apply (Nat.div_unique _ _ _ (c - 1)); lia. }
  by rewrite Hpieces.
Qed.

Lemma zip_with_map_same {X Y1 Y2 W} (f : Y1 → Y2 → W) (g1 : X → Y1) (g2 : X → Y2) l :
  zip_with f (map g1 l) (map g2 l) = map (λ x, f (g1 x) (g2 x)) l.
Proof. induction l as [|x l IH]; simpl; [done | by rewrite IH]. Qed.

Lemma foldl_cat_slices {X Y} (g : list X → list Y) (c : nat) (t : list (list (list X)))
    (m : nat) :
  foldl (cat_pair 1) (map (λ row, map g (slice 0 c row)) t)
        (map (λ k, map (λ row, map g (slice (k * c) c row)) t) (seq 1 m))
  = map (λ row, map g (take (S m * c) row)) t.
Proof.
  induction m as [|m IH].
  - simpl. unfold slice. apply map_ext. intros row. by rewrite drop_0, Nat.add_0_r.
  - rewrite seq_S, map_app, foldl_app, IH. simpl.
    rewrite zip_with_map_same. apply map_ext. intros row.
    unfold slice. rewrite <- map_app. f_equal.
    rewrite take_take_drop. f_equal. lia.
Qed.

Lemma rmap_map {X Y W} (f : Y → res W) (h : X → Y) l :
  rmap f (map h l) = rmap (λ x, f (h x)) l.
Proof. induction l as [|x l IH]; simpl; [done | by rewrite IH]. Qed.

Lemma rmap_ext {X Y} (f g : X → res Y) l :
  (∀ x, f x = g x) → rmap f l = rmap g l.
Proof. intros Hfg. induction l as [|x l IH]; simpl; [done | by rewrite Hfg, IH]. Qed.

Lemma uniform_rows_length {X} (t : list (list X)) row :
  uniform_rows t = true → In row t → length row = length (hd [] t).
Proof.
  unfold uniform_rows. rewrite forallb_forall. intros Hall Hin.
  eapply bool_decide_eq_true_1, Hall; done.
Qed.

Lemma chunking_pointwise {A} (forward_fn : callable (list (list (list A)))) fn okv g
    (dout : nat) (cs : Z) (t : list (list (list A))) :
  num_parameters forward_fn = 1%nat →
  (∀ t, call forward_fn [t] = fn t) →
  pointwise fn okv g →
  (∀ v, okv v = true → length (g v) = dout) →
  0 < cs → (0 < length (hd [] t))%nat → Z.of_nat (length (hd [] t)) `mod` cs = 0 →
  uniform_rows t = true →
  apply_chunking_to_forward forward_fn cs 1 [t] = fn t.
Proof.
  intros Hnum Hcall Hpw Hdout Hcs Hpos Hmod Huni.
  set (L := length (hd [] t)) in *.
  set (c := Z.to_nat cs).
  set (n := Z.to_nat (Z.of_nat L `div` cs)).
  assert (HL : L = (n * c)%nat).
  { apply Z.div_exact in Hmod; [|lia]. subst n c.
    assert (0 ≤ Z.of_nat L `div` cs) by (apply Z.div_pos; lia). nia. }
  assert (Hc : (0 < c)%nat) by (subst c; lia).
  assert (Hn : (0 < n)%nat) by (destruct n; [simpl in HL; lia | lia]).
  unfold apply_chunking_to_forward. simpl. rewrite Hnum. simpl.
  rewrite bool_decide_true by done.
  unfold check_same_shape. simpl. fold L.
  rewrite (bool_decide_false (L ≠ L)) by (intros Hne; by apply Hne). simpl.
  rewrite bool_decide_false by (intros Hne; by apply Hne).
  replace (Z.of_nat L `div` cs) with (Z.of_nat n)
    by (subst n; rewrite Z2Nat.id; [done | apply Z.div_pos; lia]).
  rewrite (chunk3_even t n c) by done. simpl.
  rewrite rmap_map. rewrite (rmap_ext _ fn) by apply Hcall.
  rewrite rmap_map.
  rewrite (rmap_closed _ (λ k, forallb (forallb okv) (map (slice (k * c) c) t))
             (λ k, map (map g) (map (slice (k * c) c) t)) TensorError)
    by (intros k; apply Hpw).
  (* every position lies in one chunk *)
  assert (Hcover : forallb (λ k, forallb (forallb okv) (map (slice (k * c) c) t)) (seq 0 n)
                   = forallb (forallb okv) t).
  { rewrite (forallb_ext_in _ (λ k, forallb (λ row, forallb okv (slice (k * c) c row)) t))
      by (intros k _; apply forallb_map).
    rewrite forallb_swap. apply forallb_ext_in. intros row Hrow.
    apply forallb_slices. rewrite (uniform_rows_length t row) by done. done. }
  rewrite Hcover, Hpw.
  destruct (forallb (forallb okv) t) eqn:Hok; simpl; [|done].
  assert (Hdim : ∀ k, (k < n)%nat →
            shape3 (map (map g) (map (slice (k * c) c) t)) = (length t, c, dout)).
  { intros k Hk. unfold shape3. rewrite !length_map.
    destruct t as [|r0 t']; [unfold L in Hpos; simpl in Hpos; lia|]. simpl in *.
    apply andb_prop in Hok as [Hr0 _].
    assert (Hlen : length (slice (k * c) c r0) = c).
    { unfold slice. rewrite length_take, length_drop.
      assert (k * c + c ≤ n * c)%nat by nia. unfold L in HL. simpl in HL. lia. }
    rewrite length_map, Hlen.
    destruct (slice (k * c) c r0) as [|v r] eqn:Hs; [simpl in Hlen; lia|]. simpl.
    do 2 f_equal. apply Hdout.
    assert (Hin : In v r0).
    { assert (Hv : v ∈ slice (k * c) c r0) by (rewrite Hs; left).
      unfold slice in Hv. apply subseteq_take, subseteq_drop in Hv.
      by apply list_elem_of_In. }
    rewrite forallb_forall in Hr0. by apply Hr0. }
  destruct n as [|m]; [lia|].
  unfold cat3. rewrite <- cons_seq. cbn [map].
  change (norm_axis 3 1) with (Ok (X:=nat) 1%nat). cbn [mbind res_bind rbind].
  rewrite (proj2 (forallb_forall _ _)).
  2:{ intros p [k [<- Hk%in_seq]]%in_map_iff.
      rewrite (Hdim 0%nat), (Hdim k) by lia. simpl.
      by rewrite !bool_decide_true. }
  f_equal.
  rewrite (map_ext (λ k, map (map g) (map (slice (k * c) c) t))
                   (λ k, map (λ row, map g (slice (k * c) c row)) t))
    by (intros; by rewrite map_map).
  rewrite map_map. rewrite foldl_cat_slices. rewrite <- map_map with (g := map g).
  f_equal. rewrite <- (map_id t) at 2. apply map_ext_in. intros row Hrow.
  apply take_ge. rewrite (uniform_rows_length t row) by done. fold L. lia.
Qed.

Section ffn_pointwise.
Context {A : Type} `{Runtime A}.

Lemma dense_vec_closed layer x :
  dense_vec layer x = if dense_ok layer x then Ok (dense_out layer x) else Err TensorError.
Proof.
  unfold dense_vec, dense_ok, dense_out.
  case_bool_decide as Hx; simpl.
  - rewrite bool_decide_false by (intros Heq; by apply Hx). done.
  - rewrite bool_decide_true by (destruct (decide (length x = in_channels layer)); done).
    simpl. destruct (bias layer) as [b|]; [|done].
    rewrite length_map. case_bool_decide as Hb.
    + rewrite bool_decide_false by done. done.
    + rewrite bool_decide_true; [done|].
      destruct (decide (length b = length (weight layer))); done.
Qed.

Lemma dense_out_length layer x :
  dense_ok layer x = true → length (dense_out layer x) = length (weight layer).
Proof.
  unfold dense_ok, dense_out. intros [_ Hb]%andb_prop.
  destruct (bias layer) as [b|]; [|by rewrite length_map].
  apply bool_decide_eq_true_1 in Hb.
  rewrite length_zip_with, length_map. lia.
Qed.

Lemma dense_closed layer t :
  dense layer t = if forallb (forallb (dense_ok layer)) t
                  then Ok (map (map (dense_out layer)) t) else Err TensorError.
Proof.
  unfold dense. apply rmap_closed. intros row.
  apply rmap_closed. apply dense_vec_closed.
Qed.

Lemma ff_chunk_pointwise self :
  ffn_training self = false → pointwise (ff_chunk self) (ff_ok self) (ff_out self).
Proof.
  intros Heval t. unfold ff_chunk. rewrite Heval, dense_closed.
  unfold ff_ok.
  rewrite (forallb_ext_in
     (forallb (λ x, dense_ok (lin1 self) x
                    && dense_ok (lin2 self) (map (actf self) (dense_out (lin1 self) x))))
     (λ row, forallb (dense_ok (lin1 self)) row
     && forallb (λ x, dense_ok (lin2 self) (map (actf self) (dense_out (lin1 self) x))) row))
    by (intros; apply (forallb_andb (dense_ok (lin1 self))
          (λ x, dense_ok (lin2 self) (map (actf self) (dense_out (lin1 self) x))))).
  rewrite (forallb_andb (forallb (dense_ok (lin1 self)))).
  destruct (forallb (forallb (dense_ok (lin1 self))) t); simpl; [|done].
  rewrite dense_closed. unfold act. fold (actf self).
  rewrite !forallb_map.
  rewrite (forallb_ext_in _ (λ row, forallb
     (λ x, dense_ok (lin2 self) (map (actf self) (dense_out (lin1 self) x))) row)).
  2:{ intros row _. by rewrite !forallb_map. }
  destruct (forallb _ t); simpl; [|done].
  f_equal. rewrite !map_map. apply map_ext. intros row.
  rewrite !map_map. done.
Qed.

Lemma ff_out_length self x :
  ff_ok self x = true → length (ff_out self x) = length (weight (lin2 self)).
Proof. intros [_ H2]%andb_prop. by apply dense_out_length. Qed.
End ffn_pointwise.

(** C5.  On the code the claim fails on an empty sequence axis.  Every
    positive chunk size divides the length 0; the input is then to be cut
    into zero chunks, which [chunk] refuses (and there would be nothing
    for [cat] to concatenate), while the unchunked forward function
    returns the empty output.  No test of the function sets this case
    apart: the refusal falls out of [chunk(0)], against the docstring (the
    function yields the same result as applying the forward function
    directly) and against what the path for a chunk size of zero does on
    the same input. *)
Theorem ffn_chunking_refuses_empty_sequence :
  let self : TransformerFFN Z :=
    MkFFN 0 (MkDense 1 1 [[1]] (Some [0])) (MkDense 1 1 [[1]] (Some [0])) false 1 false in
  0 < chunk_size_feed_forward self ∧
  Z.of_nat (length (hd [] ([[]] : list (list (list Z))))) `mod` chunk_size_feed_forward self = 0 ∧
  @ffn_construct Z int_runtime self [[]] = Err TensorError ∧
  @ff_chunk Z int_runtime self [[]] = Ok [[]] ∧
  @ffn_construct Z int_runtime
     (MkFFN 0 (lin1 self) (lin2 self) false 0 false) [[]] = Ok [[]].
Proof. repeat split. Qed.

(** X4.  In evaluation mode, for a positive chunk size that evenly divides
    the length of a non-empty sequence axis, the chunked feed-forward
    sublayer returns exactly what the unchunked forward function
    [ff_chunk] returns on the whole input (the same tensor, or the same
    exception when the input does not fit the layer). *)
Theorem ffn_chunked_equals_unchunked {A} `{Runtime A} (self : TransformerFFN A)
    (input : list (list (list A))) :
  ffn_training self = false →
  0 < chunk_size_feed_forward self →
  (0 < length (hd [] input))%nat →
  Z.of_nat (length (hd [] input)) `mod` chunk_size_feed_forward self = 0 →
  uniform_rows input = true →
  ffn_construct self input = ff_chunk self input.
Proof.
  intros Heval Hcs Hpos Hmod Huni. unfold ffn_construct.
  apply (chunking_pointwise (ff_chunk_fn self) (ff_chunk self) (ff_ok self) (ff_out self)
           (length (weight (lin2 self)))); try done.
  - by apply ff_chunk_pointwise.
  - apply ff_out_length.
Qed.

Lemma ffn_chunked_equals_unchunked_witness :
  let self : TransformerFFN Z :=
    MkFFN 0 (MkDense 2 1 [[1; 2]] (Some [5])) (MkDense 1 2 [[1]; [-1]] (Some [0; 0]))
          false 2 false in
  let input : list (list (list Z)) :=
    [[[1; 2]; [3; 4]; [5; 6]; [7; 8]]; [[0; 1]; [1; 0]; [2; 2]; [-9; 1]]] in
  ffn_training self = false ∧
  0 < chunk_size_feed_forward self ∧
  (0 < length (hd [] input))%nat ∧
  Z.of_nat (length (hd [] input)) `mod` chunk_size_feed_forward self = 0 ∧
  uniform_rows input = true ∧
  @ffn_construct Z int_runtime self input = @ff_chunk Z int_runtime self input ∧
  @ffn_construct Z int_runtime self input
  = Ok [[[10; -10]; [16; -16]; [22; -22]; [28; -28]]; [[7; -7]; [6; -6]; [11; -11]; [0; 0]]].
Proof.
  intros self input.
  assert (Heq : @ffn_construct Z int_runtime self input = @ff_chunk Z int_runtime self input).
  { apply (@ffn_chunked_equals_unchunked Z int_runtime self input);
      [reflexivity | reflexivity | simpl; lia | reflexivity | reflexivity]. }
  split; [reflexivity|]. split; [reflexivity|]. split; [simpl; lia|].
  split; [reflexivity|]. split; [reflexivity|]. split; [exact Heq | reflexivity].
Defined.

(** ** Head pruning *)

Lemma has_shape2_spec {X} (m : list (list X)) bs slen :
  has_shape2 m bs slen = true ↔ length m = bs ∧ ∀ row, row ∈ m → length row = slen.
Proof.
  unfold has_shape2. rewrite andb_true_iff, bool_decide_eq_true, forallb_forall.
  split; intros [H1 H2]; (split; [done|]); intros row Hrow.
  - apply list_elem_of_In, H2, bool_decide_eq_true in Hrow. done.
  - apply bool_decide_eq_true, H2, list_elem_of_In. done.
Qed.

Lemma norm_axis_cases n d : norm_axis n d = Err IndexError ∨ ∃ r, norm_axis n d = Ok r.
Proof. unfold norm_axis. repeat case_bool_decide; eauto. Qed.

Lemma norm_axis_lt n d r : norm_axis (Z.of_nat n) d = Ok r → (r < n)%nat.
Proof.
  unfold norm_axis. repeat case_bool_decide; intros [= <-]; lia.
Qed.

(** The call of [ops.ones] on the first line of
    [find_pruneable_heads_and_indices] raises, whatever the arguments. *)
Lemma find_pruneable_raises heads n_heads head_size already_pruned_heads :
  find_pruneable_heads_and_indices heads n_heads head_size already_pruned_heads
  = Err TypeError.
Proof. done. Qed.

Section prune_heads_outcome.
Context {A : Type}.

Lemma attention_head_size_eq hs din dout (s : MultiHeadAttention A) :
  attn_shapes hs din dout s → n_heads s ≠ 0 →
  floordiv (dim s) (n_heads s) = Ok (Z.of_nat hs).
Proof.
  intros [Hn Hdim _ _ _ _] Hne. unfold floordiv.
  rewrite bool_decide_false by done. by rewrite Hdim, Z.mul_comm, Z.div_mul.
Qed.

(** What a call of [prune_heads] does, case by case: the division by
    [n_heads] comes first, then the test for the empty list, then the call
    of [find_pruneable_heads_and_indices].  No case reaches an
    assignment. *)
Lemma prune_heads_outcome (s : MultiHeadAttention A) (heads : list Z) :
  prune_heads heads s
  = (s, if bool_decide (n_heads s = 0) then Err ZeroDivisionError
        else if bool_decide (length heads = 0%nat) then Ok tt
        else Err TypeError).
Proof.
  unfold prune_heads, floordiv.
  unfold mbind at 1 2, stx_mbind, stx_bind at 1 2, get, lift.
  case_bool_decide; [done|].
  case_bool_decide; [done|].
  unfold mbind, stx_mbind, stx_bind, lift. by rewrite find_pruneable_raises.
Qed.
End prune_heads_outcome.

(** C6.  On the code the claim fails.  For every layer with heads and every
    non-empty list of head indices, fresh or not, [prune_heads] raises the
    [TypeError] of line 61 ([ops.ones(n_heads, head_size)] takes
    [head_size] for the dtype) inside [find_pruneable_heads_and_indices]
    and leaves the layer as it was: no index is remapped, no projection is
    sliced, [n_heads] does not decrease and nothing joins
    [pruned_heads]. *)
Theorem prune_heads_fresh_raises {A} (s : MultiHeadAttention A) (heads : list Z) :
  n_heads s ≠ 0 →
  heads ≠ [] →
  prune_heads heads s = (s, Err TypeError).
Proof.
  intros Hn Hne. rewrite prune_heads_outcome.
  rewrite bool_decide_false by done.
  rewrite bool_decide_false; [done|]. by destruct heads.
Qed.

Lemma demo_dense_shape : dense_shape demo_dense 6 6.
Proof.
  split; [reflexivity|]. split; [reflexivity|]. split; [reflexivity|].
  intros b [= <-]. reflexivity.
Defined.

Lemma prune_heads_fresh_raises_witness :
  n_heads demo_attention ≠ 0 ∧
  [1] ≠ ([] : list Z) ∧
  prune_heads [1] demo_attention = (demo_attention, Err TypeError) ∧
  n_heads (exec (prune_heads [1]) demo_attention) = 3 ∧
  pruned_heads (exec (prune_heads [1]) demo_attention) = ∅.
Proof.
  assert (Hn : n_heads demo_attention ≠ 0) by (simpl; lia).
  assert (Hne : [1] ≠ ([] : list Z)) by discriminate.
  pose proof (prune_heads_fresh_raises demo_attention [1] Hn Hne) as Hrun.
  split; [exact Hn|]. split; [exact Hne|].
  split; [exact Hrun|]. unfold exec. rewrite Hrun. split; reflexivity.
Defined.


(** ** XLMPredLayer *)

Lemma pred_construct_returns {A} `{Runtime A} (self : XLMPredLayer A)
    (x : list (list (list A))) (y : option (list (list Z))) outputs :
  pred_construct self x y = Ok outputs →
  asm self = false ∧
  ((y = None ∧ ∃ scores, outputs = [Scores scores])
   ∨ (y ≠ None ∧ ∃ loss scores, outputs = [Loss loss; Scores scores])).
Proof.
  unfold pred_construct. destruct (asm self); simpl.
  { by destruct (proj self). }
  destruct (proj self) as [p|]; [|done].
  destruct (dense p x) as [scores|e]; simpl; [|done].
  destruct y as [y|].
  - repeat case_bool_decide; try done. intros [= <-]. split; [done|].
    right. split; [done|]. eauto.
  - intros [= <-]. split; [done|]. left. split; [done|]. eauto.
Qed.

(** C10.  A prediction layer built from a configuration with [asm] true has
    no attribute [proj], and every call of [construct] on it fails with an
    [AttributeError]; whenever [construct] of any prediction layer returns,
    the layer has [asm] false and the result is [(scores,)] without labels
    and [(loss, scores)] with labels. *)
Theorem pred_layer_asm_unimplemented {A} `{Runtime A} (config : XLMConfig)
    (fresh_proj : Dense A) :
  cfg_asm config = true →
  proj (pred_layer_init config fresh_proj) = None ∧
  (∀ x y, pred_construct (pred_layer_init config fresh_proj) x y = Err AttributeError) ∧
  (∀ (self : XLMPredLayer A) x y outputs,
     pred_construct self x y = Ok outputs →
     asm self = false ∧
     ((y = None ∧ ∃ scores, outputs = [Scores scores])
      ∨ (y ≠ None ∧ ∃ loss scores, outputs = [Loss loss; Scores scores]))).
Proof.
  intros Hasm. unfold pred_layer_init, pred_construct. rewrite Hasm. simpl.
  split; [done|]. split; [done|]. apply pred_construct_returns.
Qed.

Lemma pred_layer_asm_unimplemented_witness :
  let config := MkXLMConfig true 2 0 1 in
  let fresh_proj : Dense Z := MkDense 1 2 [[1]; [2]] (Some [0; 0]) in
  cfg_asm config = true ∧
  @pred_construct Z int_runtime (pred_layer_init config fresh_proj) [[[3]]] (Some [[1]])
  = Err AttributeError ∧
  @pred_construct Z int_runtime (pred_layer_init (MkXLMConfig false 2 0 1) fresh_proj)
                  [[[3]]] None
  = Ok [Scores [[[3; 6]]]] ∧
  @pred_construct Z int_runtime (pred_layer_init (MkXLMConfig false 2 0 1) fresh_proj)
                  [[[3]]] (Some [[1]])
  = Ok [Loss 0; Scores [[[3; 6]]]].
Proof.
  intros config fresh_proj. split; [reflexivity|]. split; [|split; reflexivity].
  apply (@pred_layer_asm_unimplemented Z int_runtime config fresh_proj). reflexivity.
Defined.
(** ** MultiHeadAttention.construct *)

(** The tensor bound to [scores] when [ops.softmax] is called does not
    depend on the attention mask: two calls that differ in the mask alone
    and both get as far as the softmax pass it the same scores, and leave
    the same cache. *)
Lemma construct_scores_ignores_mask {A} `{Runtime A} (self : MultiHeadAttention A)
    input (mask1 mask2 : attn_mask) kv cache cache1 cache2 scores1 scores2 m1 m2 v1 v2 d1 d2 :
  construct_scores self input mask1 kv cache = (cache1, Ok (scores1, m1, v1, d1)) →
  construct_scores self input mask2 kv cache = (cache2, Ok (scores2, m2, v2, d2)) →
  scores1 = scores2 ∧ v1 = v2 ∧ cache1 = cache2.
Proof.
  unfold construct_scores.
  unfold mbind, stx_mbind, stx_bind, get, lift, modify, mret, stx_mret, stx_ret.
  destruct (shape3 input) as [[bs qlen] d0].
  repeat (case_match; simplify_eq; try done).
  all: intros; by simplify_eq.
Qed.

(** The whole attention block ignores the mask in the same way: two calls
    that differ in the mask alone and both return give the same result. *)
Lemma mha_construct_ignores_mask {A} `{Runtime A} (self : MultiHeadAttention A)
    input (mask1 mask2 : attn_mask) kv head_mask oa cache cache1 cache2 out1 out2 :
  mha_construct self input mask1 kv head_mask oa cache = (cache1, Ok out1) →
  mha_construct self input mask2 kv head_mask oa cache = (cache2, Ok out2) →
  out1 = out2 ∧ cache1 = cache2.
Proof.
  unfold mha_construct. intros H1 H2.
  apply stx_bind_ok in H1 as ([[[scores1 m1] v1] d1] & c1 & Hs1 & H1).
  apply stx_bind_ok in H2 as ([[[scores2 m2] v2] d2] & c2 & Hs2 & H2).
  destruct (construct_scores_ignores_mask _ _ _ _ _ _ _ _ _ _ _ _ _ _ _ _ Hs1 Hs2)
    as (-> & -> & ->).
  assert (d1 = d2) as ->.
  { revert Hs1 Hs2. unfold construct_scores.
    unfold mbind, stx_mbind, stx_bind, get, lift, modify, mret, stx_mret, stx_ret.
    destruct (shape3 input) as [[bs qlen] d0].
    repeat (case_match; simplify_eq; try done).
    all: intros; by simplify_eq. }
  rewrite H1 in H2. by injection H2 as <- <-.
Qed.

(** C1.  A call with a causal mask on a sequence of two positions: entry
    [(0, 1)] of the mask is 0, so the expanded boolean mask is true there,
    but the tensor [scores] that goes on to the softmax still holds the raw
    score 2 at that position; the tensor with [finfo_min] there is the
    value of [masked_fill], which the code does not keep, and the attention
    weights are the softmax of the unmasked scores.  In exact arithmetic,
    with a zero query projection, the masked key receives the attention
    weight 1/2. *)
Theorem construct_softmax_input_not_masked :
  let input : list (list (list Z)) := [[[1]; [2]]] in
  let mask := Mask3 [[[1; 0]; [1; 1]]] in
  let scores : list (list (list (list Z))) := [[[[1; 2]; [2; 4]]]] in
  let masked := [[[[false; true]; [false; false]]]] in
  let half : option Q := Some (Qmake 1 2) in
  @construct_scores Z int_runtime (unit_attention 0) input mask None None
  = (None, Ok (scores, masked, [[[[1]; [2]]]], 1)) ∧
  @masked_fill Z scores masked (@finfo_min Z int_runtime)
  = [[[[1; @finfo_min Z int_runtime]; [2; 4]]]] ∧
  @masked_fill Z scores masked (@finfo_min Z int_runtime) ≠ scores ∧
  (∃ out,
    (@mha_construct Z int_runtime (unit_attention 0) input mask None None true None).2
    = Ok (out, Some (map (map (map (@ops_softmax Z int_runtime))) scores))) ∧
  (@mha_construct (option Q) exact_runtime (two_layer_attention 0 1)
     [[qvec [2; 1]; qvec [-2; 5]]] mask None None true None).2
  = Ok ([[qvec [0; 3]; qvec [0; 3]]],
        Some [[[[half; half]; [half; half]]; [[half; half]; [half; half]]]]).
Proof.
  intros input mask scores masked half.
  split; [reflexivity|]. split; [reflexivity|]. split; [discriminate|].
  split; [eexists; reflexivity|]. vm_compute. reflexivity.
Qed.

(** ** XLMModel.construct and the cache *)

(** ** Shapes along the batch and the sequence axis *)

Lemma rmap_length {X Y} (f : X → res Y) l ys : rmap f l = Ok ys → length ys = length l.
Proof.
  revert ys. induction l as [|x l IH]; intros ys; simpl; [by intros [= <-]|].
  intros (y & Hy & (ys' & Hys & [= <-])%rbind_ok)%rbind_ok. simpl. by rewrite (IH ys').
Qed.

Lemma rmap_Forall2 {X Y} (f : X → res Y) l ys :
  rmap f l = Ok ys → Forall2 (λ x y, f x = Ok y) l ys.
Proof.
  revert ys. induction l as [|x l IH]; intros ys; simpl; [intros [= <-]; constructor|].
  intros (y & Hy & (ys' & Hys & [= <-])%rbind_ok)%rbind_ok. constructor; [done | by apply IH].
Qed.

Lemma Forall2_row_lengths {X Y} (xs : list (list X)) (ys : list (list Y)) :
  Forall2 (λ x y, length y = length x) xs ys → map length ys = map length xs.
Proof. induction 1 as [|x y xs ys Hxy _ IH]; simpl; [done | by rewrite Hxy, IH]. Qed.

Lemma zip_strict_ok {X Y W} (f : X → Y → res W) l1 l2 ws :
  zip_strict f l1 l2 = Ok ws →
  length l1 = length l2 ∧ Forall2 (λ p w, f p.1 p.2 = Ok w) (zip l1 l2) ws.
Proof.
  unfold zip_strict. case_bool_decide as Hlen; [done|].
  intros Hr%rmap_Forall2. split; [|done].
  destruct (decide (length l1 = length l2)); [done | by destruct Hlen].
Qed.

Lemma zip_strict_length {X Y W} (f : X → Y → res W) l1 l2 ws :
  zip_strict f l1 l2 = Ok ws → length ws = length l1.
Proof.
  intros [Hlen Hall]%zip_strict_ok. apply Forall2_length in Hall.
  rewrite length_zip in Hall. lia.
Qed.

Lemma zip_strict_rows {X Y W} (f : list X → list Y → res (list W))
    (l1 : list (list X)) (l2 : list (list Y)) ws :
  (∀ a b w, f a b = Ok w → length w = length a) →
  zip_strict f l1 l2 = Ok ws → map length ws = map length l1.
Proof.
  intros Hf [Hlen Hall]%zip_strict_ok.
  apply Forall2_row_lengths.
  revert l2 ws Hlen Hall. induction l1 as [|a l1 IH]; intros [|b l2] ws Hlen Hall;
    simpl in *; try lia.
  - inversion Hall. constructor.
  - inversion Hall as [|? w ? ws' Hw Hrest]; subst. constructor.
    + by eapply Hf.
    + apply (IH l2); [lia | done].
Qed.

Section row_lengths.
Context {A : Type} `{Runtime A}.

Lemma add3_rows (a b t : list (list (list A))) :
  add3 a b = Ok t → map length t = map length a.
Proof.
  unfold add3. apply zip_strict_rows. intros r1 r2 w. apply zip_strict_length.
Qed.

Lemma expand_length {X} n (l l' : list X) : expand n l = Ok l' → length l' = n.
Proof.
  unfold expand. case_bool_decide; [by intros [= <-]|].
  destruct l as [|x [|? ?]]; try done. intros [= <-]. apply length_replicate.
Qed.

Lemma mul_mask_rows (tensor : list (list (list A))) mask t :
  mul_mask tensor mask = Ok t → map length t = map length tensor.
Proof.
  unfold mul_mask. intros (m & Hm%expand_length & Hr%rmap_Forall2)%rbind_ok.
  apply Forall2_row_lengths.
  revert m t Hm Hr. induction tensor as [|row tensor IH]; intros [|mr m] t Hm Hr;
    simpl in *; try lia.
  - inversion Hr. constructor.
  - inversion Hr as [|? w ? t' Hw Hrest]; subst. constructor.
    + simpl in Hw. apply rbind_ok in Hw as (row' & Hrow'%expand_length & [= <-]).
      rewrite length_zip_with. lia.
    + apply (IH m); [lia | done].
Qed.

Lemma layer_norm_apply_rows ln (t : list (list (list A))) :
  map length (layer_norm_apply ln t) = map length t.
Proof.
  unfold layer_norm_apply. rewrite map_map. apply map_ext. intros row. apply length_map.
Qed.

Lemma map_map_rows {X Y} (f : X → Y) (t : list (list X)) :
  map length (map (map f) t) = map length t.
Proof. rewrite map_map. apply map_ext. intros row. apply length_map. Qed.

Lemma embedding_rows table ids (t : list (list (list A))) :
  embedding table ids = Ok t → map length t = map length ids.
Proof.
  unfold embedding. intros Hr%rmap_Forall2. apply Forall2_row_lengths.
  eapply Forall2_impl; [exact Hr|]. simpl. intros row v Hv. by apply rmap_length in Hv.
Qed.
End row_lengths.
Section cache_counter.
Context {A : Type} `{Runtime A}.

Lemma cache_set_layer_counter (id : nat) kv (cache : option (Cache A)) :
  counter (cache_set_layer id kv cache) = counter cache.
Proof. by destruct cache. Qed.

(** The attention block writes its keys and values into the cache and
    leaves the length counter alone, also when it raises. *)
Lemma construct_scores_counter (self : MultiHeadAttention A) input mask kv cache cache' r :
  construct_scores self input mask kv cache = (cache', r) → counter cache' = counter cache.
Proof.
  unfold construct_scores.
  unfold mbind, stx_mbind, stx_bind, get, lift, modify, mret, stx_mret, stx_ret.
  destruct (shape3 input) as [[bs qlen] d0].
  repeat (case_match; simplify_eq; try done).
  all: intros; simplify_eq; try done; apply cache_set_layer_counter.
Qed.

Lemma mha_construct_counter (self : MultiHeadAttention A) input mask kv head_mask oa
    cache cache' r :
  mha_construct self input mask kv head_mask oa cache = (cache', r) →
  counter cache' = counter cache.
Proof.
  unfold mha_construct. unfold mbind at 1, stx_mbind, stx_bind at 1.
  destruct (construct_scores self input mask kv cache) as [c1 [[[[scores m] v] d]|e]] eqn:Hs.
  - apply construct_scores_counter in Hs. rewrite <- Hs.
    unfold mbind, stx_mbind, stx_bind, lift, mret, stx_mret, stx_ret.
    repeat (case_match; simplify_eq; try done).
    all: intros; by simplify_eq.
  - apply construct_scores_counter in Hs. by intros [= <- _].
Qed.

Lemma layer_step_inv (self : XLMModel A) mask attn_mask head_mask ohs oa
    (acc : list (list (list A)) * list (list (list (list A)))
           * list (list (list (list (list A))))) i cache cache' r :
  layer_step self mask attn_mask head_mask ohs oa acc i cache = (cache', r) →
  counter cache' = counter cache ∧
  ∀ acc', r = Ok acc' → map length acc'.1.1 = map length acc.1.1.
Proof.
  unfold layer_step. destruct acc as [[tensor hs] atts].
  unfold mbind at 1 2, stx_mbind, stx_bind at 1 2. unfold lift at 1 2.
  destruct (item (attentions self) i) as [att|e]; [|by intros [= <- <-]].
  destruct (item head_mask i) as [hm|e]; [|by intros [= <- <-]].
  unfold mbind at 1, stx_mbind, stx_bind at 1.
  destruct (mha_construct att tensor attn_mask None hm oa cache) as [c1 [out|e]] eqn:Hatt;
    apply mha_construct_counter in Hatt; [|by intros [= <- <-]].
  rewrite <- Hatt.
  unfold mbind, stx_mbind, stx_bind, lift, mret, stx_mret, stx_ret.
  destruct (add3 tensor _) as [t1|e] eqn:H1; [|by intros [= <- <-]].
  destruct (item (layer_norm1 self) i) as [ln1|e]; [|by intros [= <- <-]].
  destruct (item (ffns self) i) as [ffn|e]; [|by intros [= <- <-]].
  destruct (ffn_construct ffn _) as [y|e]; [|by intros [= <- <-]].
  destruct (add3 (layer_norm_apply ln1 t1) y) as [t2|e] eqn:H2; [|by intros [= <- <-]].
  destruct (item (layer_norm2 self) i) as [ln2|e]; [|by intros [= <- <-]].
  destruct (mul_mask _ mask) as [t3|e] eqn:H3; [|by intros [= <- <-]].
  intros [= <- <-]. split; [done|]. intros acc' [= <-]. simpl.
  apply mul_mask_rows in H3. apply add3_rows in H2. apply add3_rows in H1.
  rewrite H3, layer_norm_apply_rows, H2, layer_norm_apply_rows, H1. done.
Qed.

Lemma stx_foldl_layers_inv (self : XLMModel A) mask attn_mask head_mask ohs oa layers
    (acc : list (list (list A)) * list (list (list (list A)))
           * list (list (list (list (list A))))) cache cache' r :
  stx_foldl (layer_step self mask attn_mask head_mask ohs oa) acc layers cache = (cache', r) →
  counter cache' = counter cache ∧
  ∀ acc', r = Ok acc' → map length acc'.1.1 = map length acc.1.1.
Proof.
  revert acc cache. induction layers as [|i layers IH]; intros acc cache; simpl.
  - intros [= <- <-]. split; [done|]. by intros acc' [= <-].
  - unfold mbind, stx_mbind, stx_bind.
    destruct (layer_step self mask attn_mask head_mask ohs oa acc i cache)
      as [c1 [acc1|e]] eqn:Hstep; apply layer_step_inv in Hstep as [Hc Hrows].
    + intros [Hc' Hrows']%IH. split; [congruence|].
      intros acc' Hr. rewrite (Hrows' acc' Hr). by apply Hrows.
    + intros [= <- <-]. split; [done|]. done.
Qed.
End cache_counter.
Lemma hd_length_of_rows {X Y} (t : list (list X)) (t' : list (list Y)) :
  map length t = map length t' → length (hd [] t) = length (hd [] t').
Proof. destruct t, t'; simpl; congruence. Qed.

Tactic Notation "stx_step" hyp(H) "as" ident(x) ident(Hx) :=
  let s := fresh "st" in
  apply stx_bind_ok in H as (x & s & Hx & H);
  try (apply lift_ok in Hx as [-> Hx]).

(** ** The length counter of the cache *)

Section keeps_counter.
Context {A : Type} `{Runtime A}.
Local Abbreviation St := (option (Cache A)).

Lemma keeps_lift {X} (r : res X) : keeps_counter (lift r : stx St X).
Proof. by intros cache cache' r' [= <- _]. Qed.

Lemma keeps_get : keeps_counter (get : stx St St).
Proof. by intros cache cache' r' [= <- _]. Qed.

Lemma keeps_mret {X} (x : X) : keeps_counter (mret x : stx St X).
Proof. by intros cache cache' r' [= <- _]. Qed.

Lemma keeps_bind {X Y} (m : stx St X) (f : X → stx St Y) :
  keeps_counter m → (∀ x, keeps_counter (f x)) → keeps_counter (m ≫= f).
Proof.
  intros Hm Hf cache cache' r. unfold mbind, stx_mbind, stx_bind.
  destruct (m cache) as [c1 [x|e]] eqn:Hrun; apply Hm in Hrun.
  - intros Hrun'%Hf. congruence.
  - by intros [= <- _].
Qed.

Lemma keeps_layers (self : XLMModel A) mask attn_mask head_mask ohs oa layers acc :
  keeps_counter (stx_foldl (layer_step self mask attn_mask head_mask ohs oa) acc layers).
Proof. intros cache cache' r Hrun. by apply stx_foldl_layers_inv in Hrun as [? _]. Qed.

(** [construct] never gets as far as writing the counter: every outcome
    leaves it as it was. *)
Lemma xlm_construct_keeps_counter (self : XLMModel A) (args : construct_args A) :
  keeps_counter (xlm_construct self args).
Proof.
  unfold xlm_construct.
  apply keeps_bind; [apply keeps_get | intros cache].
  apply keeps_bind; [apply keeps_lift | intros [bs slen]].
  apply keeps_bind; [apply keeps_lift | intros _].
  apply keeps_bind; [apply keeps_lift | intros _].
  apply keeps_bind; [apply keeps_lift | intros [mask attn_mask]].
  apply keeps_bind; [apply keeps_lift | intros pids].
  apply keeps_bind; [apply keeps_lift | intros _].
  apply keeps_bind; [apply keeps_lift | intros [[[[ids' pids'] langs'] mask'] attn_mask']].
  apply keeps_bind; [apply keeps_lift | intros emb].
  apply keeps_bind; [apply keeps_lift | intros tensor0].
  apply keeps_bind; [apply keeps_lift | intros tensor1].
  apply keeps_bind; [apply keeps_lift | intros tensor2].
  apply keeps_bind; [apply keeps_lift | intros tensor3].
  apply keeps_bind; [apply keeps_layers | intros [[tensor hidden_states] all_attentions]].
  apply keeps_bind; [apply keeps_get | intros cache1].
  apply keeps_bind; [| intros _; apply keeps_mret].
  destruct cache1 as [c1|]; [|apply keeps_mret].
  apply keeps_bind; [apply keeps_lift | intros cached].
  (* [tensor.size(1)] raises before the counter is written *)
  intros cache2 cache2' r. unfold call_size, mbind, stx_mbind, stx_bind, lift.
  by intros [= <- _].
Qed.
End keeps_counter.

Section construct_returns.
Context {A : Type} `{Runtime A}.

(** A call of [construct] that returns was given neither a cache nor
    [position_ids] nor [langs]: each of them leads to a call of
    [Tensor.size], at lines 641, 566 and 571. *)
Lemma xlm_construct_returns (self : XLMModel A) (args : construct_args A)
    (cache cache' : option (Cache A)) out :
  xlm_construct self args cache = (cache', Ok out) →
  cache = None ∧ cache' = None ∧
  arg_position_ids args = None ∧ arg_langs args = None.
Proof.
  intros Hrun.
  pose proof (xlm_construct_keeps_counter self args _ _ _ Hrun) as Hcounter.
  unfold xlm_construct in Hrun.
  stx_step Hrun as cache0 Hget. injection Hget as <-.
  stx_step Hrun as dims Hdims. destruct dims as [bs slen].
  stx_step Hrun as u1 Hbs. stx_step Hrun as u2 Hmax.
  stx_step Hrun as masks Hmasks. destruct masks as [mask amask].
  stx_step Hrun as pids Hpids. stx_step Hrun as u3 Hlangs.
  stx_step Hrun as trimmed Htrim.
  destruct trimmed as [[[[ids' pids'] langs'] mask'] amask'].
  stx_step Hrun as emb Hemb. stx_step Hrun as tensor0 Ht0.
  stx_step Hrun as tensor1 Ht1. stx_step Hrun as tensor2 Ht2.
  stx_step Hrun as tensor3 Ht3.
  apply stx_bind_ok in Hrun as ([[tensor hstates] atts] & st & Hfold & Hrun).
  apply keeps_layers in Hfold.
  stx_step Hrun as cache1 Hget. injection Hget as <-.
  apply stx_bind_ok in Hrun as (u4 & st' & Hupd & Hrun).
  apply mret_ok in Hrun as [-> _].
  destruct st as [c1|].
  { apply stx_bind_ok in Hupd as (n & st'' & Hn & Hmod).
    apply stx_bind_ok in Hmod as (added & st3 & Hadded & _).
    by apply lift_ok in Hadded as [_ Hadded]. }
  apply mret_ok in Hupd as [-> _].
  destruct cache as [c|]; [done|].
  do 2 (split; [done|]).
  destruct (arg_position_ids args) as [p|]; [done|].
  destruct (arg_langs args) as [langs|]; [done|]. done.
Qed.
End construct_returns.

(** C9.  On the code the claim fails.  No call of [XLMModel.construct] that
    is given a cache returns, and none advances the counter: every call
    ends with an exception and leaves [cache["slen"]] as it was, although
    the attention layers may have written their keys and values into the
    cache by then.  A call that gets through the layers raises the
    [TypeError] of line 641, [cache["slen"] += tensor.size(1)]: the model
    of width one on [input_ids = [[1, 2]]] with a fresh cache leaves the
    counter at 0 and the keys and values of its layer in the cache. *)
Theorem xlm_construct_cache_counter_never_advanced {A} `{Runtime A} (self : XLMModel A)
    (args : construct_args A) (cache : Cache A) :
  (∃ cache' e, xlm_construct self args (Some cache) = (Some cache', Err e) ∧
               cache_slen cache' = cache_slen cache) ∧
  let run := @xlm_construct Z int_runtime (unit_model true 1) (ids_only [[1; 2]])
               (Some (MkCache (Some 0%nat) ∅)) in
  run.2 = Err TypeError ∧
  counter run.1 = Some (Some 0%nat) ∧
  (c ← run.1; cache_layers c !! 0%nat) = Some ([[[[1]; [3]]]], [[[[1]; [3]]]]).
Proof.
  split; [|by vm_compute].
  destruct (xlm_construct self args (Some cache)) as [cache' r] eqn:Hrun.
  pose proof (xlm_construct_keeps_counter self args _ _ _ Hrun) as Hcounter.
  destruct cache' as [c'|]; [|done]. injection Hcounter as Hcounter.
  destruct r as [out|e].
  - by apply xlm_construct_returns in Hrun as [? _].
  - by exists c', e.
Qed.

(** ** One pass against two passes with a cache *)

(** C3.  On the code the claim fails.  The two-layer causal model on the
    input [[1, 2]] with the split [m = 1], in exact arithmetic: the pass
    over the whole input without a cache returns, with (1, -1) at the last
    position; the pass over the first position with a fresh cache raises
    the [TypeError] of line 641, after both layers have written their keys
    and values, and leaves the counter at 0; the pass over the whole input
    with the cache left behind raises as well.  There is no final hidden
    state of the cached run to compare. *)
Theorem cached_pass_raises :
  let run := @xlm_construct (option Q) exact_runtime two_layer_model in
  let full := run (ids_only [[1; 2]]) None in
  let first := run (ids_only [[1]]) (Some (MkCache (Some 0%nat) ∅)) in
  let second := run (ids_only [[1; 2]]) first.1 in
  full.2 = Ok ([[qvec [1; -1]; qvec [1; -1]]], None, None) ∧
  first.2 = Err TypeError ∧
  counter first.1 = Some (Some 0%nat) ∧
  (c ← first.1; Some (bool_decide (is_Some (cache_layers c !! 0%nat)),
                      bool_decide (is_Some (cache_layers c !! 1%nat))))
  = Some (true, true) ∧
  (∃ e, second.2 = Err e) ∧
  counter second.1 = Some (Some 0%nat).
Proof.
  intros run full first second.
  split; [vm_compute; reflexivity|]. split; [vm_compute; reflexivity|].
  split; [vm_compute; reflexivity|]. split; [vm_compute; reflexivity|].
  split; [|vm_compute; reflexivity].
  exists TensorError. vm_compute. reflexivity.
Qed.
(** ** get_masks: the checks and the padding mask *)

Lemma foldl_max_le (x : Z) (l : list Z) : x ≤ foldl Z.max x l.
Proof.
  revert x. induction l as [|y l IH]; intros x; simpl; [lia|].
  specialize (IH (Z.max x y)). lia.
Qed.

Lemma foldl_max_ge (x : Z) (l : list Z) (y : Z) : y ∈ l → y ≤ foldl Z.max x l.
Proof.
  revert x. induction l as [|z l IH]; intros x Hy; [by apply elem_of_nil in Hy|].
  simpl. apply elem_of_cons in Hy as [->|Hy].
  - pose proof (foldl_max_le (Z.max x z) l). lia.
  - by apply IH.
Qed.

(** X1.  Without a padding mask and for a sequence length of at least
    one, a length that exceeds [slen] makes [get_masks] fail its
    assertion: no mask is returned. *)
Theorem get_masks_rejects_long_length (slen : nat) (lengths : list Z) (causal : bool)
    (len : Z) :
  (0 < slen)%nat →
  len ∈ lengths → Z.of_nat slen < len →
  get_masks slen lengths causal None = Err AssertionError.
Proof.
  intros Hpos Hin Hlong. unfold get_masks. rewrite np_arange_pos by done.
  destruct lengths as [|x lengths]; [by apply elem_of_nil in Hin|].
  simpl. rewrite bool_decide_false; [done|].
  apply elem_of_cons in Hin as [->|Hin].
  - pose proof (foldl_max_le x lengths). lia.
  - pose proof (foldl_max_ge x lengths len Hin). lia.
Qed.

Lemma get_masks_rejects_long_length_witness :
  (0 < 2)%nat ∧ 3 ∈ [1; 3] ∧ Z.of_nat 2 < 3 ∧
  get_masks 2 [1; 3] true None = Err AssertionError.
Proof.
  assert (Hin : 3 ∈ [1; 3]) by (right; left).
  split; [lia|]. split; [exact Hin|]. split; [lia|].
  apply (get_masks_rejects_long_length 2 [1; 3] true 3); [lia | exact Hin | lia].
Defined.

(** X2.  With a padding mask supplied, [get_masks] does not look at the
    entries of [lengths], only at their number: two vectors of lengths
    with as many entries give the same outcome, so that a length beyond
    [slen] goes unnoticed.  A call that returns hands back the padding
    mask as it is, of shape (bs, slen), and as attention mask the padding
    mask itself or, when [causal] holds, the lower-triangular tensor. *)
Theorem get_masks_external_padding_mask (slen : nat) (lengths lengths' : list Z)
    (causal : bool) (padding_mask : list (list Z)) :
  length lengths = length lengths' →
  get_masks slen lengths causal (Some padding_mask)
  = get_masks slen lengths' causal (Some padding_mask) ∧
  ∀ mask attn,
    get_masks slen lengths causal (Some padding_mask) = Ok (mask, attn) →
    mask = padding_mask ∧
    has_shape2 padding_mask (length lengths) slen = true ∧
    attn = if causal then Mask3 (causal_tensor (length lengths) slen)
           else Mask2 padding_mask.
Proof.
  intros Hlen. split; [unfold get_masks; by rewrite Hlen|].
  intros mask attn. unfold get_masks.
  destruct (np_arange slen) as [alen|e] eqn:Halen; [|done]. simpl.
  assert (Hrange : alen = arange slen).
  { unfold np_arange in Halen. case_bool_decide; [done | congruence]. }
  subst alen.
  destruct (has_shape2 padding_mask (length lengths) slen); simpl; [|done].
  destruct causal; simpl.
  - fold (causal_tensor (length lengths) slen). rewrite causal_tensor_shape. simpl.
    by intros [= <- <-].
  - by intros [= <- <-].
Qed.

Lemma get_masks_external_padding_mask_witness :
  length [9; 9] = length [1; 2] ∧
  get_masks 2 [9; 9] true (Some [[1; 0]; [1; 1]])
  = get_masks 2 [1; 2] true (Some [[1; 0]; [1; 1]]) ∧
  get_masks 2 [9; 9] true (Some [[1; 0]; [1; 1]])
  = Ok ([[1; 0]; [1; 1]], Mask3 (causal_tensor 2 2)).
Proof.
  destruct (get_masks_external_padding_mask 2 [9; 9] [1; 2] true [[1; 0]; [1; 1]] eq_refl)
    as [Hsame _].
  split; [reflexivity|]. split; [exact Hsame | reflexivity].
Defined.

Lemma foldr_add_acc (a : Z) (l : list Z) : foldr Z.add a l = a + foldr Z.add 0 l.
Proof. induction l as [|x l IH]; simpl; lia. Qed.

Lemma sum_prefix_indicator (n : nat) (len : Z) :
  foldr Z.add 0 (map (λ t, b2z (t <? len)) (arange n)) = Z.min (Z.max len 0) (Z.of_nat n).
Proof.
  unfold arange. induction n as [|n IH]; [simpl; lia|].
  rewrite seqZ_S, map_app, foldr_app. simpl.
  rewrite foldr_add_acc, IH.
  destruct (Z.ltb_spec (0 + Z.of_nat n) len); simpl; lia.
Qed.

Lemma row_sums_prefix_mask (slen : nat) (lengths : list Z) :
  Forall (λ len, 0 ≤ len ≤ Z.of_nat slen) lengths →
  map (foldr Z.add 0) (map (λ len, map (λ t, b2z (t <? len)) (arange slen)) lengths)
  = lengths.
Proof.
  induction 1 as [|len lengths Hlen _ IH]; [done|].
  cbn [map]. rewrite IH, sum_prefix_indicator. f_equal. lia.
Qed.

(** X3.  The padding mask built from lengths that are not negative gives
    the lengths back: the entries of row [b] sum to [lengths[b]]. *)
Theorem get_masks_row_sums (slen : nat) (lengths : list Z) (causal : bool)
    (mask : list (list Z)) (attn : attn_mask) :
  get_masks slen lengths causal None = Ok (mask, attn) →
  Forall (λ len, 0 ≤ len) lengths →
  map (foldr Z.add 0) mask = lengths.
Proof.
  intros Hrun Hpos.
  destruct slen as [|n]; [by rewrite get_masks_empty_range in Hrun|].
  set (slen := S n) in *.
  destruct lengths as [|x lengths]; [done|].
  destruct (decide (foldl Z.max x lengths ≤ Z.of_nat slen)) as [Hle|Hgt].
  - rewrite (get_masks_no_padding slen (x :: lengths) causal (foldl Z.max x lengths))
      in Hrun by (done || (subst slen; lia)).
    assert (Hmask : mask = map (λ len, map (λ t, b2z (t <? len)) (arange slen))
                               (x :: lengths)) by congruence.
    rewrite Hmask. apply row_sums_prefix_mask.
    rewrite Forall_forall in Hpos. apply Forall_forall. intros len Hin.
    specialize (Hpos len Hin).
    apply elem_of_cons in Hin as [->|Hin].
    + pose proof (foldl_max_le x lengths). lia.
    + pose proof (foldl_max_ge x lengths len Hin). lia.
  - unfold get_masks in Hrun. rewrite np_arange_pos in Hrun by (subst slen; lia).
    simpl in Hrun. rewrite bool_decide_false in Hrun by done.
    done.
Qed.

Lemma get_masks_row_sums_witness :
  get_masks 5 [3; 5] false None
  = Ok ([[1; 1; 1; 0; 0]; [1; 1; 1; 1; 1]], Mask2 [[1; 1; 1; 0; 0]; [1; 1; 1; 1; 1]]) ∧
  Forall (λ len, 0 ≤ len) [3; 5] ∧
  map (foldr Z.add 0) [[1; 1; 1; 0; 0]; [1; 1; 1; 1; 1]] = [3; 5].
Proof.
  assert (Hrun : get_masks 5 [3; 5] false None
    = Ok ([[1; 1; 1; 0; 0]; [1; 1; 1; 1; 1]], Mask2 [[1; 1; 1; 0; 0]; [1; 1; 1; 1; 1]]))
    by reflexivity.
  assert (Hpos : Forall (λ len, 0 ≤ len) [3; 5]) by (repeat constructor; lia).
  split; [exact Hrun|]. split; [exact Hpos|].
  exact (get_masks_row_sums 5 [3; 5] false _ _ Hrun Hpos).
Defined.
(** ** find_pruneable_heads_and_indices: the loop over the heads *)

Lemma zero_rows_lookup (z : list Z) (M : list (list Z)) (rs : list nat) (i : nat) :
  foldl (λ M r, <[r := z]> M) M rs !! i
  = if bool_decide (i ∈ rs) then (λ _, z) <$> M !! i else M !! i.
Proof.
  revert M. induction rs as [|r rs IH]; intros M; simpl; [done|].
  rewrite IH. destruct (decide (i = r)) as [->|Hne].
  - rewrite (bool_decide_true (r ∈ r :: rs)) by left.
    destruct (decide (r < length M)%nat).
    + rewrite list_lookup_insert_eq by done.
      destruct (lookup_lt_is_Some_2 M r) as [x ->]; [done|].
      by destruct (bool_decide (r ∈ rs)).
    + rewrite list_insert_ge by lia. rewrite lookup_ge_None_2 by lia.
      by destruct (bool_decide (r ∈ rs)).
  - rewrite list_lookup_insert_ne by done.
    rewrite (bool_decide_ext (i ∈ r :: rs) (i ∈ rs)); [done|].
    rewrite elem_of_cons. split; [by intros [?|?] | by right].
Qed.

Lemma fold_zero_head_row_err hs pruned e l :
  foldl (λ acc head, mask ← acc; zero_head_row hs pruned mask head) (Err e) l = Err e.
Proof. induction l as [|h l IH]; simpl; [done | exact IH]. Qed.

Lemma fold_zero_head_row_ok hs pruned (M : list (list Z)) l rs :
  Forall2 (λ h r, norm_axis (Z.of_nat (length M)) (shifted pruned h) = Ok r) l rs →
  foldl (λ acc head, mask ← acc; zero_head_row hs pruned mask head) (Ok M) l
  = Ok (foldl (λ M r, <[r := replicate (Z.to_nat hs) 0]> M) M rs).
Proof.
  intros Hall. revert M rs Hall. induction l as [|h l IH]; intros M rs Hall.
  - by inversion Hall.
  - inversion Hall as [|? r ? rs' Hr Hrest]; subst. simpl.
    unfold zero_head_row at 2. fold (shifted pruned h). rewrite Hr. simpl.
    apply IH. by rewrite length_insert.
Qed.

Lemma fold_zero_head_row_fail hs pruned (M : list (list Z)) l h :
  h ∈ l →
  (∀ h', h' ∈ l → norm_axis (Z.of_nat (length M)) (shifted pruned h') = Err IndexError
                  ∨ ∃ r, norm_axis (Z.of_nat (length M)) (shifted pruned h') = Ok r) →
  norm_axis (Z.of_nat (length M)) (shifted pruned h) = Err IndexError →
  foldl (λ acc head, mask ← acc; zero_head_row hs pruned mask head) (Ok M) l
  = Err IndexError.
Proof.
  intros Hin Hall Hfail. revert M Hall Hfail.
  induction l as [|h0 l IH]; intros M Hall Hfail; [by apply elem_of_nil in Hin|].
  simpl. unfold zero_head_row at 2. fold (shifted pruned h0).
  destruct (Hall h0) as [He|[r Hr]]; [left| |].
  - rewrite He. simpl. apply fold_zero_head_row_err.
  - rewrite Hr. simpl.
    apply elem_of_cons in Hin as [->|Hin]; [congruence|].
    apply IH; [done| |]; rewrite length_insert; [|done].
    intros h' Hh'. apply Hall. by right.
Qed.

Lemma norm_axis_all (n : Z) (pruned : gset Z) (l : list Z) :
  (∃ rs, Forall2 (λ h r, norm_axis n (shifted pruned h) = Ok r) l rs)
  ∨ (∃ h, h ∈ l ∧ norm_axis n (shifted pruned h) = Err IndexError).
Proof.
  induction l as [|h l [[rs Hrs]|[h' [Hin Hh']]]].
  - left. exists []. constructor.
  - destruct (norm_axis_cases n (shifted pruned h)) as [Herr|[r Hr]].
    + right. exists h. split; [left | done].
    + left. exists (r :: rs). by constructor.
  - right. exists h'. split; [by right | done].
Qed.

Lemma zero_rows_perm (z : list Z) (M : list (list Z)) (rs rs' : list nat) :
  (∀ r, r ∈ rs ↔ r ∈ rs') →
  foldl (λ M r, <[r := z]> M) M rs = foldl (λ M r, <[r := z]> M) M rs'.
Proof.
  intros Hsame. apply list_eq. intros i. rewrite !zero_rows_lookup.
  by rewrite (bool_decide_ext (i ∈ rs) (i ∈ rs')).
Qed.

Lemma Forall2_slots_elem (n : Z) (pruned : gset Z) (l : list Z) (rs : list nat) :
  Forall2 (λ h r, norm_axis n (shifted pruned h) = Ok r) l rs →
  ∀ r, r ∈ rs ↔ ∃ h, h ∈ l ∧ norm_axis n (shifted pruned h) = Ok r.
Proof.
  induction 1 as [|h r0 l rs Hh _ IH]; intros r.
  - split; [by intros ?%elem_of_nil | by intros (h & ?%elem_of_nil & _)].
  - rewrite elem_of_cons, IH. split.
    + intros [->|(h' & Hin & Hr)]; [exists h; split; [left | done]|].
      exists h'. split; [by right | done].
    + intros (h' & [->|Hin]%elem_of_cons & Hr); [left; congruence|].
      right. by exists h'.
Qed.

(** X5.  The loop over the set of heads leaves the same mask, or raises
    the same exception, whatever the order in which the set is iterated. *)
Theorem zero_head_rows_any_order (head_size : Z) (already_pruned_heads : gset Z)
    (mask : list (list Z)) (order order' : list Z) :
  order ≡ₚ order' →
  foldl (λ acc head, mask ← acc; zero_head_row head_size already_pruned_heads mask head)
        (Ok mask) order
  = foldl (λ acc head, mask ← acc; zero_head_row head_size already_pruned_heads mask head)
          (Ok mask) order'.
Proof.
  intros Hperm.
  destruct (norm_axis_all (Z.of_nat (length mask)) already_pruned_heads order)
    as [[rs Hrs]|[h [Hin Hh]]].
  - destruct (norm_axis_all (Z.of_nat (length mask)) already_pruned_heads order')
      as [[rs' Hrs']|[h [Hin Hh]]].
    + rewrite (fold_zero_head_row_ok _ _ _ _ rs Hrs),
        (fold_zero_head_row_ok _ _ _ _ rs' Hrs').
      f_equal. apply zero_rows_perm. intros r.
      rewrite (Forall2_slots_elem _ _ _ _ Hrs), (Forall2_slots_elem _ _ _ _ Hrs').
      split; intros (h & Hin & Hr); exists h; (split; [|done]).
      * by rewrite <- Hperm.
      * by rewrite Hperm.
    + rewrite <- Hperm in Hin.
      apply list_elem_of_lookup in Hin as [i Hi].
      destruct (Forall2_lookup_l _ _ _ _ _ Hrs Hi) as (r & _ & Hr). congruence.
  - rewrite (fold_zero_head_row_fail _ _ _ _ h Hin); [| |done].
    2:{ intros; apply norm_axis_cases. }
    rewrite (fold_zero_head_row_fail _ _ _ order' h); [done| | |done].
    + by rewrite <- Hperm.
    + intros; apply norm_axis_cases.
Qed.

Lemma zero_head_rows_any_order_witness :
  [2; 0] ≡ₚ [0; 2] ∧
  foldl (λ acc head, mask ← acc; zero_head_row 2 {[1]} mask head)
        (Ok [[1; 1]; [1; 1]; [1; 1]]) [2; 0]
  = foldl (λ acc head, mask ← acc; zero_head_row 2 {[1]} mask head)
          (Ok [[1; 1]; [1; 1]; [1; 1]]) [0; 2].
Proof.
  assert (Hperm : [2; 0] ≡ₚ [0; 2]) by apply perm_swap.
  split; [exact Hperm|].
  exact (zero_head_rows_any_order 2 {[1]} [[1; 1]; [1; 1]; [1; 1]] [2; 0] [0; 2] Hperm).
Defined.

(** ** prune_linear_layer *)

Lemma index_select_out_of_range {X} (l : list X) (index : list nat) (i : nat) :
  i ∈ index → (length l ≤ i)%nat → index_select l index = Err TensorError.
Proof.
  intros Hin Hi. unfold index_select.
  induction index as [|j index IH]; [by apply elem_of_nil in Hin|].
  simpl. destruct (l !! j) as [x|] eqn:Hj; [|done]. simpl.
  apply elem_of_cons in Hin as [->|Hin].
  - apply lookup_lt_Some in Hj. lia.
  - by rewrite IH.
Qed.

(** X9.  [prune_linear_layer] cannot build a pruned layer: whatever the
    layer, the index and the dimension, the call raises.  The selection of
    the kept entries on line 112 is followed by [.clone().detach()], and
    the size of the new layer would be read through [layer.weight.size()]
    on line 118. *)
Theorem prune_linear_layer_never_returns {A} (layer : Dense A) (index : list nat)
    (dim : nat) :
  ∃ e, prune_linear_layer layer index dim = Err e.
Proof.
  unfold prune_linear_layer.
  destruct (match dim with
            | O => index_select (weight layer) index
            | 1%nat => rmap (λ row, index_select row index) (weight layer)
            | _ => Err TensorError
            end) as [W|e]; simpl; eauto.
Qed.

(** X11.  An index entry that is not below the number of rows of the
    weight is refused by the selection along dimension 0, inside the
    gather kernel: [prune_linear_layer] raises from there, before anything
    else is looked at. *)
Theorem prune_linear_layer_index_out_of_range {A} (layer : Dense A) (index : list nat)
    (i : nat) :
  i ∈ index → (length (weight layer) ≤ i)%nat →
  prune_linear_layer layer index 0 = Err TensorError.
Proof.
  intros Hin Hi. unfold prune_linear_layer.
  by rewrite (index_select_out_of_range _ _ i).
Qed.

Lemma prune_linear_layer_index_out_of_range_witness :
  (6 ∈ [0; 6])%nat ∧ (length (weight demo_dense) ≤ 6)%nat ∧
  prune_linear_layer demo_dense [0; 6]%nat 0 = Err TensorError.
Proof.
  assert (Hin : (6 ∈ [0; 6])%nat) by (right; left).
  assert (Hi : (length (weight demo_dense) ≤ 6)%nat) by (simpl; lia).
  split; [exact Hin|]. split; [exact Hi|].
  exact (prune_linear_layer_index_out_of_range demo_dense [0; 6]%nat 6 Hin Hi).
Defined.
(** ** apply_chunking_to_forward: the checks before the chunks *)

(** X12.  A chunk size that is zero or negative turns chunking off: the
    forward function is called once on the tensors as they are, and
    neither their shapes nor [chunk_dim] are looked at. *)
Theorem apply_chunking_disabled {T} `{Chunkable T} (forward_fn : callable T)
    (chunk_size chunk_dim : Z) (input_tensors : list T) :
  input_tensors ≠ [] →
  num_parameters forward_fn = length input_tensors →
  chunk_size ≤ 0 →
  apply_chunking_to_forward forward_fn chunk_size chunk_dim input_tensors
  = call forward_fn input_tensors.
Proof.
  intros Hne Harity Hcs. unfold apply_chunking_to_forward.
  rewrite (bool_decide_true (0 < length input_tensors)%nat)
    by (destruct input_tensors; [done | simpl; lia]).
  cbn [assert mbind res_bind rbind].
  rewrite bool_decide_false by (intros Hx; by apply Hx).
  by rewrite bool_decide_false by lia.
Qed.

Lemma apply_chunking_disabled_witness :
  let forward_fn : callable (list (list (list Z))) :=
    Callable 1 (λ args, Ok (concat args)) in
  [[[[1]; [2]; [3]]]] ≠ ([] : list (list (list (list Z)))) ∧
  num_parameters forward_fn = length [[[[1]; [2]; [3]]]] ∧ -2 ≤ 0 ∧
  apply_chunking_to_forward forward_fn (-2) 7 [[[[1]; [2]; [3]]]]
  = call forward_fn [[[[1]; [2]; [3]]]].
Proof.
  intros forward_fn.
  assert (Hne : [[[[1]; [2]; [3]]]] ≠ ([] : list (list (list (list Z))))) by discriminate.
  assert (Hcs : -2 ≤ 0) by lia.
  split; [exact Hne|]. split; [reflexivity|]. split; [exact Hcs|].
  exact (apply_chunking_disabled forward_fn (-2) 7 [[[[1]; [2]; [3]]]] Hne eq_refl Hcs).
Defined.

(** X13.  With a positive chunk size, a second tensor whose extent along
    [chunk_dim] differs from that of the first makes
    [apply_chunking_to_forward] raise the [ValueError] that names both
    extents; the forward function is not called. *)
Theorem apply_chunking_different_extents {T} `{Chunkable T} (forward_fn : callable T)
    (chunk_size chunk_dim : Z) (first second : T) (rest : list T) (n1 n2 : nat) :
  num_parameters forward_fn = S (S (length rest)) →
  0 < chunk_size →
  dim_size first chunk_dim = Ok n1 →
  dim_size second chunk_dim = Ok n2 →
  n2 ≠ n1 →
  apply_chunking_to_forward forward_fn chunk_size chunk_dim (first :: second :: rest)
  = Err (ValueError (NotSameShape n1 n2)).
Proof.
  intros Harity Hcs H1 H2 Hne. unfold apply_chunking_to_forward.
  cbn [length]. rewrite (bool_decide_true (0 < _)%nat) by lia.
  cbn [assert mbind res_bind rbind].
  rewrite bool_decide_false by (intros Hx; by apply Hx).
  rewrite bool_decide_true by done.
  rewrite H1. cbn [mbind res_bind rbind rmap].
  unfold check_same_shape. rewrite H1, H2. cbn [mbind res_bind rbind].
  rewrite (bool_decide_false (n1 ≠ n1)) by (intros Hx; by apply Hx).
  cbn [mbind res_bind rbind].
  by rewrite (bool_decide_true (n2 ≠ n1)).
Qed.

Lemma apply_chunking_different_extents_witness :
  let forward_fn : callable (list (list (list Z))) := Callable 2 (λ _, Err TensorError) in
  let first : list (list (list Z)) := [[[1]; [2]]] in
  let second : list (list (list Z)) := [[[1]; [2]; [3]; [4]]] in
  num_parameters forward_fn = S (S (length ([] : list (list (list (list Z)))))) ∧
  0 < 2 ∧ dim_size first 1 = Ok 2%nat ∧ dim_size second 1 = Ok 4%nat ∧ 4%nat ≠ 2%nat ∧
  apply_chunking_to_forward forward_fn 2 1 [first; second]
  = Err (ValueError (NotSameShape 2 4)).
Proof.
  intros forward_fn first second.
  assert (Hcs : 0 < 2) by lia.
  assert (Hne : 4%nat ≠ 2%nat) by discriminate.
  split; [reflexivity|]. split; [exact Hcs|]. split; [reflexivity|].
  split; [reflexivity|]. split; [exact Hne|].
  exact (apply_chunking_different_extents forward_fn 2 1 first second [] 2 4
           eq_refl Hcs eq_refl eq_refl Hne).
Defined.

(** X14.  With the chunk size equal to the length of a sequence axis that
    is not empty there is one chunk, and [apply_chunking_to_forward]
    returns what the forward function returns on the whole tensor (the
    tensor or the exception), whether or not the function treats the
    positions independently. *)
Theorem apply_chunking_single_chunk {X} (forward_fn : callable (list (list (list X))))
    (t : list (list (list X))) :
  num_parameters forward_fn = 1%nat →
  (0 < length (hd [] t))%nat →
  uniform_rows t = true →
  apply_chunking_to_forward forward_fn (Z.of_nat (length (hd [] t))) 1 [t]
  = call forward_fn [t].
Proof.
  intros Harity Hpos Huni.
  set (L := length (hd [] t)) in *.
  unfold apply_chunking_to_forward. simpl. rewrite Harity. simpl.
  rewrite bool_decide_true by lia.
  unfold check_same_shape. simpl. fold L.
  rewrite (bool_decide_false (L ≠ L)) by (intros Hne; by apply Hne). simpl.
  rewrite Z.mod_same by lia.
  rewrite bool_decide_false by (intros Hne; by apply Hne).
  rewrite Z.div_same by lia.
  assert (Hchunk : chunk3 t 1 1 = Ok [map (slice 0 L) t]).
  { apply (chunk3_even t 1 L); [lia | done | fold L; lia]. }
  rewrite Hchunk. simpl.
  assert (Hwhole : map (slice 0 L) t = t).
  { rewrite <- (map_id t) at 2. apply map_ext_in. intros row Hrow.
    unfold slice. rewrite drop_0. apply take_ge.
    rewrite (uniform_rows_length t row) by done. fold L. lia. }
  rewrite Hwhole.
  destruct (call forward_fn [t]) as [y|e]; [|done]. simpl.
  unfold cat3. change (norm_axis 3 1) with (Ok (X:=nat) 1%nat). done.
Qed.

Lemma apply_chunking_single_chunk_witness :
  let forward_fn : callable (list (list (list Z))) :=
    Callable 1 (λ args, Ok (map reverse (concat args))) in
  let t : list (list (list Z)) := [[[1; 2]; [3; 4]]; [[5; 6]; [7; 8]]] in
  num_parameters forward_fn = 1%nat ∧ (0 < length (hd [] t))%nat ∧ uniform_rows t = true ∧
  apply_chunking_to_forward forward_fn (Z.of_nat (length (hd [] t))) 1 [t]
  = call forward_fn [t].
Proof.
  intros forward_fn t.
  assert (Hpos : (0 < length (hd [] t))%nat) by (simpl; lia).
  split; [reflexivity|]. split; [exact Hpos|]. split; [reflexivity|].
  exact (apply_chunking_single_chunk forward_fn t eq_refl Hpos eq_refl).
Defined.
(** ** TransformerFFN.construct: one position at a time *)

(** X15.  In evaluation mode the feed-forward sublayer, chunked or not,
    maps every vector of its input on its own: the output at a position
    is [lin2(act(lin1(x)))] of the input at that position, and the batch
    and sequence extents are those of the input. *)
Theorem ffn_construct_position_wise {A} `{Runtime A} (self : TransformerFFN A)
    (input out : list (list (list A))) :
  ffn_training self = false →
  uniform_rows input = true →
  ffn_construct self input = Ok out →
  out = map (map (ff_out self)) input.
Proof.
  intros Heval Huni Hrun.
  assert (Hdirect : ff_chunk self input = Ok out → out = map (map (ff_out self)) input).
  { rewrite (ff_chunk_pointwise self Heval input).
    destruct (forallb _ input); [congruence | done]. }
  destruct (decide (0 < chunk_size_feed_forward self)) as [Hcs|Hcs].
  - destruct (decide (Z.of_nat (length (hd [] input)) `mod` chunk_size_feed_forward self = 0))
      as [Hmod|Hmod].
    + destruct (decide (0 < length (hd [] input))%nat) as [Hpos|Hzero].
      * apply Hdirect. rewrite <- Hrun. symmetry. unfold ffn_construct.
        apply (chunking_pointwise (ff_chunk_fn self) (ff_chunk self) (ff_ok self)
                 (ff_out self) (length (weight (lin2 self)))); try done.
        -- by apply ff_chunk_pointwise.
        -- apply ff_out_length.
      * exfalso. assert (Hlen : length (hd [] input) = 0%nat) by lia.
        unfold ffn_construct, apply_chunking_to_forward in Hrun. simpl in Hrun.
        rewrite bool_decide_true in Hrun by done.
        unfold check_same_shape in Hrun. simpl in Hrun.
        rewrite (bool_decide_false (length (hd [] input) ≠ length (hd [] input))) in Hrun
          by (intros Hne; by apply Hne).
        simpl in Hrun. rewrite bool_decide_false in Hrun by (intros Hne; by apply Hne).
        unfold chunk3 in Hrun. simpl in Hrun.
        rewrite Hlen in Hrun. simpl in Hrun. done.
    + exfalso.
      assert (Hdim : dim_size input seq_len_dim = Ok (length (hd [] input))) by reflexivity.
      destruct (apply_chunking_not_multiple (ff_chunk_fn self) (chunk_size_feed_forward self)
                  seq_len_dim input [] (length (hd [] input)) Hcs Hdim Hmod) as [e He].
      unfold ffn_construct in Hrun. congruence.
  - apply Hdirect. rewrite <- Hrun. unfold ffn_construct, apply_chunking_to_forward.
    simpl. by rewrite bool_decide_false.
Qed.

Lemma ffn_construct_position_wise_witness :
  let self : TransformerFFN Z :=
    MkFFN 0 (MkDense 2 1 [[1; 2]] (Some [5])) (MkDense 1 2 [[1]; [-1]] (Some [0; 0]))
          false 2 false in
  let input : list (list (list Z)) := [[[1; 0]; [0; 1]; [1; 1]; [-9; 0]]] in
  ffn_training self = false ∧ uniform_rows input = true ∧
  @ffn_construct Z int_runtime self input = Ok [[[6; -6]; [7; -7]; [8; -8]; [0; 0]]] ∧
  [[[6; -6]; [7; -7]; [8; -8]; [0; 0]]] = map (map (@ff_out Z int_runtime self)) input.
Proof.
  intros self input.
  assert (Hrun : @ffn_construct Z int_runtime self input
                 = Ok [[[6; -6]; [7; -7]; [8; -8]; [0; 0]]]) by reflexivity.
  split; [reflexivity|]. split; [reflexivity|]. split; [exact Hrun|].
  exact (@ffn_construct_position_wise Z int_runtime self input _ eq_refl eq_refl Hrun).
Defined.
(** ** MultiHeadAttention.__init__ *)

(** X16.  The constructor establishes the invariant that [prune_heads]
    relies on: for a positive number of heads that divides [dim], and
    projections of [dim] inputs and outputs, it returns a layer with the
    next identifier, all its heads, no pruned head and [dim / n_heads]
    units per head, and advances the counter. *)
Theorem mha_init_well_formed {A} (heads width : Z) (attention_dropout : A)
    (q k v out : Dense A) (training : bool) (new_id : nat) :
  0 < heads → 0 ≤ width → width `mod` heads = 0 →
  dense_shape q (Z.to_nat width) (Z.to_nat width) →
  dense_shape k (Z.to_nat width) (Z.to_nat width) →
  dense_shape v (Z.to_nat width) (Z.to_nat width) →
  dense_shape out (Z.to_nat width) (Z.to_nat width) →
  ∃ s, mha_init heads width attention_dropout (q, k, v, out) training new_id
       = (S new_id, Ok s) ∧
       layer_id s = new_id ∧ n_heads s = heads ∧ pruned_heads s = ∅ ∧
       attn_wf (Z.to_nat heads) (Z.to_nat (width `div` heads))
               (Z.to_nat width) (Z.to_nat width) s.
Proof.
  intros Hn Hdim Hmod Hq Hk Hv Hout.
  eexists. split.
  { unfold mha_init, pymod.
    unfold mbind, stx_mbind, stx_bind, get, lift, modify, mret, stx_mret, stx_ret.
    rewrite bool_decide_false by lia. rewrite Hmod. simpl. reflexivity. }
  split; [done|]. split; [done|]. split; [done|].
  assert (Hdiv : 0 ≤ width `div` heads) by (apply Z.div_pos; lia).
  split.
  - split; simpl; [lia| |done..].
    rewrite Z2Nat.id by done. apply Z.div_exact in Hmod; lia.
  - simpl. intros p ?%elem_of_empty. done.
  - cbn [n_heads pruned_heads]. rewrite size_empty. lia.
Qed.

Lemma mha_init_well_formed_witness :
  0 < 3 ∧ 0 ≤ 6 ∧ 6 `mod` 3 = 0 ∧ dense_shape demo_dense (Z.to_nat 6) (Z.to_nat 6) ∧
  ∃ s, mha_init 3 6 0 (demo_dense, demo_dense, demo_dense, demo_dense) false 7%nat
       = (8%nat, Ok s) ∧
       layer_id s = 7%nat ∧ n_heads s = 3 ∧ pruned_heads s = ∅ ∧
       attn_wf (Z.to_nat 3) (Z.to_nat (6 `div` 3)) (Z.to_nat 6) (Z.to_nat 6) s.
Proof.
  assert (H3 : 0 < 3) by lia. assert (H6 : 0 ≤ 6) by lia.
  split; [exact H3|]. split; [exact H6|]. split; [reflexivity|].
  split; [exact demo_dense_shape|].
  exact (mha_init_well_formed 3 6 0 demo_dense demo_dense demo_dense demo_dense false 7
           H3 H6 eq_refl demo_dense_shape demo_dense_shape demo_dense_shape demo_dense_shape).
Defined.

(** X17.  A construction with no heads raises a [ZeroDivisionError], one
    with a number of heads that does not divide [dim] fails the
    assertion; in both cases the identifier was already taken from the
    shared counter. *)
Theorem mha_init_rejects {A} (n_heads dim : Z) (attention_dropout : A)
    (fresh : Dense A * Dense A * Dense A * Dense A) (training : bool) (new_id : nat) :
  (n_heads = 0 →
   mha_init n_heads dim attention_dropout fresh training new_id
   = (S new_id, Err ZeroDivisionError)) ∧
  (n_heads ≠ 0 → dim `mod` n_heads ≠ 0 →
   mha_init n_heads dim attention_dropout fresh training new_id
   = (S new_id, Err AssertionError)).
Proof.
  unfold mha_init, pymod.
  unfold mbind, stx_mbind, stx_bind, get, lift, modify, mret, stx_mret, stx_ret.
  split.
  - intros ->. by rewrite bool_decide_true.
  - intros Hne Hmod. rewrite bool_decide_false by done. simpl.
    by rewrite bool_decide_false.
Qed.

(** X18.  Two layers built one after the other get consecutive
    identifiers, so that their entries in a key/value cache differ. *)
Theorem mha_init_distinct_ids {A} (n_heads1 dim1 n_heads2 dim2 : Z) (p1 p2 : A)
    (fresh1 fresh2 : Dense A * Dense A * Dense A * Dense A) (t1 t2 : bool)
    (new_id new_id' : nat) (s1 s2 : MultiHeadAttention A) :
  (s1 ← mha_init n_heads1 dim1 p1 fresh1 t1;
   s2 ← mha_init n_heads2 dim2 p2 fresh2 t2;
   mret (s1, s2)) new_id = (new_id', Ok (s1, s2)) →
  layer_id s1 = new_id ∧ layer_id s2 = S new_id ∧ new_id' = S (S new_id).
Proof.
  unfold mha_init, pymod.
  unfold mbind, stx_mbind, stx_bind, get, lift, modify, mret, stx_mret, stx_ret.
  destruct fresh1 as [[[q1 k1] v1] o1], fresh2 as [[[q2 k2] v2] o2].
  repeat (case_bool_decide; simpl; try done).
  intros [= <- <- <-]. done.
Qed.

Lemma mha_init_distinct_ids_witness :
  let fresh := (demo_dense, demo_dense, demo_dense, demo_dense) in
  let s1 := MkMHA 4 6 3 0 demo_dense demo_dense demo_dense demo_dense ∅ false in
  let s2 := MkMHA 5 6 2 0 demo_dense demo_dense demo_dense demo_dense ∅ false in
  (s1 ← mha_init 3 6 0 fresh false; s2 ← mha_init 2 6 0 fresh false; mret (s1, s2)) 4%nat
  = (6%nat, Ok (s1, s2)) ∧
  layer_id s1 = 4%nat ∧ layer_id s2 = 5%nat ∧ 6%nat = S (S 4).
Proof.
  intros fresh s1 s2.
  assert (Hrun : (s1 ← mha_init 3 6 0 fresh false; s2 ← mha_init 2 6 0 fresh false;
                  mret (s1, s2)) 4%nat = (6%nat, Ok (s1, s2))) by reflexivity.
  split; [exact Hrun|].
  exact (mha_init_distinct_ids 3 6 2 6 0 0 fresh fresh false false 4 6 s1 s2 Hrun).
Defined.
(** ** XLMModel._prune_heads *)

Section xlm_prune_heads_props.
Context {A : Type}.

Lemma set_attentions_same (s : XLMModel A) : set_attentions (attentions s) s = s.
Proof. by destruct s. Qed.

Lemma set_attentions_twice (l l' : list (MultiHeadAttention A)) (s : XLMModel A) :
  set_attentions l (set_attentions l' s) = set_attentions l s.
Proof. done. Qed.

(** One entry: the model is left as it was, or with the one layer the
    key names replaced by what [prune_heads] left of it. *)
Lemma prune_layer_inv (layer : Z) (heads : list Z) (s s' : XLMModel A) r :
  prune_layer layer heads s = (s', r) →
  (s' = s ∧ r = Err IndexError
   ∧ norm_axis (Z.of_nat (length (attentions s))) layer = Err IndexError)
  ∨ ∃ i attention,
      norm_axis (Z.of_nat (length (attentions s))) layer = Ok i ∧
      attentions s !! i = Some attention ∧
      s' = set_attentions (<[i := (prune_heads heads attention).1]> (attentions s)) s ∧
      r = (prune_heads heads attention).2.
Proof.
  unfold prune_layer.
  unfold mbind, stx_mbind, stx_bind, get, lift, modify, mret, stx_mret, stx_ret.
  destruct (norm_axis_cases (Z.of_nat (length (attentions s))) layer) as [Herr|[i Hi]].
  - rewrite Herr. intros [= <- <-]. by left.
  - rewrite Hi. unfold item.
    destruct (attentions s !! i) as [attention|] eqn:Hatt.
    + destruct (prune_heads heads attention) as [attention' r'] eqn:Hp.
      intros [= <- <-]. right. exists i, attention. by rewrite Hp.
    + apply norm_axis_lt in Hi. apply lookup_ge_None in Hatt. lia.
Qed.

Lemma _prune_heads_inv (heads_to_prune : list (Z * list Z)) (s s' : XLMModel A) r :
  _prune_heads heads_to_prune s = (s', r) →
  length (attentions s') = length (attentions s) ∧
  set_attentions (attentions s) s' = s ∧
  ∀ i, (∀ entry, entry ∈ heads_to_prune →
          norm_axis (Z.of_nat (length (attentions s))) entry.1 ≠ Ok i) →
       attentions s' !! i = attentions s !! i.
Proof.
  unfold _prune_heads. generalize tt at 1.
  revert s. induction heads_to_prune as [|[layer heads] d IH]; intros s u; simpl.
  - intros [= <- <-]. split; [done|]. split; [apply set_attentions_same | done].
  - unfold mbind, stx_mbind, stx_bind.
    destruct (prune_layer layer heads s) as [s1 r1] eqn:Hstep.
    apply prune_layer_inv in Hstep.
    assert (Hs1 : length (attentions s1) = length (attentions s) ∧
                  set_attentions (attentions s) s1 = s ∧
                  ∀ i, norm_axis (Z.of_nat (length (attentions s))) layer ≠ Ok i →
                       attentions s1 !! i = attentions s !! i).
    { destruct Hstep as [(-> & _ & _)|(j & att & Hj & Hatt & -> & _)].
      - split; [done|]. split; [apply set_attentions_same | done].
      - simpl. rewrite length_insert. split; [done|].
        split; [by rewrite set_attentions_twice, set_attentions_same|].
        intros i Hne. apply list_lookup_insert_ne. congruence. }
    destruct Hs1 as (Hlen1 & Hrest1 & Hframe1).
    assert (Hgoal1 : ∀ i,
      (∀ entry, entry ∈ (layer, heads) :: d →
         norm_axis (Z.of_nat (length (attentions s))) entry.1 ≠ Ok i) →
      attentions s1 !! i = attentions s !! i).
    { intros i Hi. apply Hframe1. apply (Hi (layer, heads)). left. }
    destruct r1 as [u1|e].
    + intros (Hlen & Hrest & Hframe)%IH. split; [congruence|]. split.
      * rewrite <- Hrest1 at 2. rewrite <- Hrest. by rewrite !set_attentions_twice.
      * intros i Hi. rewrite Hframe; [by apply Hgoal1|].
        intros entry Hentry. rewrite Hlen1. apply Hi. by right.
    + intros [= <- <-]. done.
Qed.

(** X19.  [_prune_heads] changes attention layers only, and only those
    its dictionary names: the number of layers and every other part of
    the model stay as they were, and so does every layer that no key
    denotes, also when the call raises. *)
Theorem model_prune_heads_other_layers (heads_to_prune : list (Z * list Z))
    (s : XLMModel A) :
  let s' := exec (_prune_heads heads_to_prune) s in
  length (attentions s') = length (attentions s) ∧
  set_attentions (attentions s) s' = s ∧
  ∀ i, (∀ entry, entry ∈ heads_to_prune →
          norm_axis (Z.of_nat (length (attentions s))) entry.1 ≠ Ok i) →
       attentions s' !! i = attentions s !! i.
Proof.
  intros s'. unfold s', exec.
  destruct (_prune_heads heads_to_prune s) as [s1 r] eqn:Hrun.
  by apply _prune_heads_inv in Hrun.
Qed.

(** One entry, on the code: the model is left as it was, whatever the
    outcome, and the entry goes through only with an empty list of heads. *)
Lemma prune_layer_outcome (layer : Z) (heads : list Z) (s s' : XLMModel A) r :
  prune_layer layer heads s = (s', r) →
  s' = s ∧ (r = Ok tt → heads = []).
Proof.
  intros Hrun. apply prune_layer_inv in Hrun
    as [(-> & -> & _)|(i & attention & Hi & Hatt & -> & ->)]; [done|].
  rewrite prune_heads_outcome. cbn [fst snd]. split.
  - by rewrite list_insert_id, set_attentions_same.
  - repeat case_bool_decide; try done. intros _. by apply length_zero_iff_nil.
Qed.

(** X20.  [_prune_heads] prunes nothing: whatever the dictionary and the
    outcome of the call, the model is afterwards what it was before, and
    the call returns only when every entry of the dictionary has an empty
    list of heads.  (An entry with heads to prune ends the call with the
    exception of [prune_heads].) *)
Theorem model_prune_heads_never_prunes (heads_to_prune : list (Z * list Z))
    (s : XLMModel A) :
  exec (_prune_heads heads_to_prune) s = s ∧
  ((_prune_heads heads_to_prune s).2 = Ok tt →
   ∀ entry, entry ∈ heads_to_prune → entry.2 = []).
Proof.
  unfold exec, _prune_heads. generalize tt at 1.
  induction heads_to_prune as [|[layer heads] d IH]; intros u; simpl.
  - split; [done|]. intros _ entry Hin. by apply elem_of_nil in Hin.
  - unfold mbind, stx_mbind, stx_bind.
    destruct (prune_layer layer heads s) as [s1 r1] eqn:Hstep.
    apply prune_layer_outcome in Hstep as [-> Hheads].
    destruct r1 as [[]|e]; [|done].
    destruct (IH tt) as [Hstate Hret]. split; [exact Hstate|].
    intros Hok entry [->|Hin]%elem_of_cons; [by apply Hheads | by apply Hret].
Qed.
End xlm_prune_heads_props.
(** ** MultiHeadAttention.construct and the cache *)

Section attention_cache.
Context {A : Type} `{Runtime A}.

(** What the call does to the cache: nothing, or one assignment to the
    entry of the layer. *)
Lemma construct_scores_cache (self : MultiHeadAttention A) input mask kv cache cache' r :
  construct_scores self input mask kv cache = (cache', r) →
  cache' = cache ∨ ∃ entry, cache' = cache_set_layer (layer_id self) entry cache.
Proof.
  unfold construct_scores.
  unfold mbind, stx_mbind, stx_bind, get, lift, modify, mret, stx_mret, stx_ret.
  destruct (shape3 input) as [[bs qlen] d0].
  repeat (case_match; simplify_eq; try done).
  all: intros; simplify_eq; first [by left | right; eexists; reflexivity].
Qed.

Lemma mha_construct_cache (self : MultiHeadAttention A) input mask kv head_mask oa
    cache cache' r :
  mha_construct self input mask kv head_mask oa cache = (cache', r) →
  cache' = cache ∨ ∃ entry, cache' = cache_set_layer (layer_id self) entry cache.
Proof.
  unfold mha_construct. unfold mbind at 1, stx_mbind, stx_bind at 1.
  destruct (construct_scores self input mask kv cache) as [c1 [[[[scores m] v] d]|e]] eqn:Hs.
  - apply construct_scores_cache in Hs.
    unfold mbind, stx_mbind, stx_bind, lift, mret, stx_mret, stx_ret.
    repeat (case_match; simplify_eq; try done).
    all: intros; by simplify_eq.
  - apply construct_scores_cache in Hs. by intros [= <- _].
Qed.

(** X22.  [construct] writes to the cache entry of its own layer only:
    the length counter and the entries of all other layers are after the
    call what they were before, whether the call returns or raises; and
    without a cache there is none afterwards. *)
Theorem mha_construct_other_entries (self : MultiHeadAttention A)
    (input : list (list (list A))) (mask : attn_mask)
    (kv : option (list (list (list A)))) (head_mask : option (list A))
    (output_attentions : bool) :
  exec (mha_construct self input mask kv head_mask output_attentions) None = None ∧
  ∀ c, ∃ c',
    exec (mha_construct self input mask kv head_mask output_attentions) (Some c) = Some c' ∧
    cache_slen c' = cache_slen c ∧
    ∀ id, id ≠ layer_id self → cache_layers c' !! id = cache_layers c !! id.
Proof.
  unfold exec. split.
  - by destruct (mha_construct_cache self input mask kv head_mask output_attentions None
                   _ _ (surjective_pairing _)) as [->|[entry ->]].
  - intros c.
    destruct (mha_construct_cache self input mask kv head_mask output_attentions (Some c)
                _ _ (surjective_pairing _)) as [->|[entry ->]].
    + by exists c.
    + eexists. split; [done|]. split; [done|].
      intros id Hid. by apply lookup_insert_ne.
Qed.
End attention_cache.
Section attention_cache_grows.
Context {A : Type} `{Runtime A}.

Lemma construct_scores_appends (self : MultiHeadAttention A)
    (input : list (list (list A))) (mask : attn_mask) (c : Cache A)
    (k_ v_ : list (list (list (list A)))) cache' r :
  cache_layers c !! layer_id self = Some (k_, v_) →
  construct_scores self input mask None (Some c) = (cache', Ok r) →
  ∃ dim_per_head k_new v_new k v,
    floordiv (dim self) (n_heads self) = Ok dim_per_head ∧
    dense (k_lin self) input ≫= shape (length input) (n_heads self) dim_per_head = Ok k_new ∧
    dense (v_lin self) input ≫= shape (length input) (n_heads self) dim_per_head = Ok v_new ∧
    cat_axis2 k_ k_new = Ok k ∧ cat_axis2 v_ v_new = Ok v ∧
    cache' = Some (MkCache (cache_slen c) (<[layer_id self := (k, v)]> (cache_layers c))).
Proof.
  intros Hentry Hrun. unfold construct_scores in Hrun.
  destruct (shape3 input) as [[bs qlen] d0] eqn:Hshape.
  assert (Hbs : bs = length input) by (unfold shape3 in Hshape; congruence).
  stx_step Hrun as cache0 Hget. injection Hget as <-.
  stx_step Hrun as klen Hklen.
  stx_step Hrun as dim_per_head Hdph.
  stx_step Hrun as q Hq.
  simpl in Hrun. rewrite Hentry in Hrun.
  stx_step Hrun as kvs Hkv. destruct kvs as [k v].
  apply rbind_ok in Hkv as (k_new & Hk & Hkv).
  apply rbind_ok in Hkv as (v_new & Hv & Hkv).
  apply rbind_ok in Hkv as (k' & Hcatk & Hkv).
  apply rbind_ok in Hkv as (v' & Hcatv & [= <- <-]).
  stx_step Hrun as u Hmod. unfold modify in Hmod. injection Hmod as <-.
  stx_step Hrun as scores Hscores.
  stx_step Hrun as m Hm.
  apply mret_ok in Hrun as [-> _].
  subst bs. exists dim_per_head, k_new, v_new, k', v'. done.
Qed.

(** X23.  Self-attention with a cache that holds keys and values of the
    layer appends: the entry after a call that returns holds the cached
    keys followed, along the length axis, by the keys computed from the
    input, and likewise the values; the counter is left alone. *)
Theorem mha_construct_appends_to_cache (self : MultiHeadAttention A)
    (input : list (list (list A))) (mask : attn_mask) (head_mask : option (list A))
    (output_attentions : bool) (c : Cache A) (k_ v_ : list (list (list (list A))))
    cache' out :
  cache_layers c !! layer_id self = Some (k_, v_) →
  mha_construct self input mask None head_mask output_attentions (Some c)
  = (cache', Ok out) →
  ∃ dim_per_head k_new v_new k v,
    floordiv (dim self) (n_heads self) = Ok dim_per_head ∧
    dense (k_lin self) input ≫= shape (length input) (n_heads self) dim_per_head = Ok k_new ∧
    dense (v_lin self) input ≫= shape (length input) (n_heads self) dim_per_head = Ok v_new ∧
    cat_axis2 k_ k_new = Ok k ∧ cat_axis2 v_ v_new = Ok v ∧
    cache' = Some (MkCache (cache_slen c) (<[layer_id self := (k, v)]> (cache_layers c))).
Proof.
  intros Hentry Hrun. unfold mha_construct in Hrun.
  apply stx_bind_ok in Hrun as ([[[scores m] v] d] & st & Hscores & Hrun).
  pose proof (construct_scores_appends _ _ _ _ _ _ _ _ Hentry Hscores)
    as (dph & k_new & v_new & k & v' & Hd & Hk & Hv & Hck & Hcv & ->).
  stx_step Hrun as weights Hw.
  stx_step Hrun as context Hctx.
  stx_step Hrun as context' Hctx'.
  stx_step Hrun as o Ho.
  apply mret_ok in Hrun as [-> _].
  exists dph, k_new, v_new, k, v'. done.
Qed.
End attention_cache_grows.

Lemma mha_construct_appends_to_cache_witness :
  let self := unit_attention 0 in
  let c : Cache Z := MkCache (Some 1%nat) {[0%nat := ([[[[5]]]], [[[[7]]]])]} in
  let cache' : option (Cache Z) :=
    Some (MkCache (Some 1%nat) {[0%nat := ([[[[5]; [2]]]], [[[[7]; [2]]]])]}) in
  cache_layers c !! layer_id self = Some ([[[[5]]]], [[[[7]]]]) ∧
  @mha_construct Z int_runtime self [[[2]]] (Mask3 [[[1; 1]]]) None None true (Some c)
  = (cache', Ok ([[[78]]], Some [[[[10; 4]]]])) ∧
  ∃ dim_per_head k_new v_new k v,
    floordiv (dim self) (n_heads self) = Ok dim_per_head ∧
    @dense Z int_runtime (k_lin self) [[[2]]]
      ≫= @shape Z (length [[[2]]]) (n_heads self) dim_per_head = Ok k_new ∧
    @dense Z int_runtime (v_lin self) [[[2]]]
      ≫= @shape Z (length [[[2]]]) (n_heads self) dim_per_head = Ok v_new ∧
    cat_axis2 [[[[5]]]] k_new = Ok k ∧ cat_axis2 [[[[7]]]] v_new = Ok v ∧
    cache' = Some (MkCache (cache_slen c) (<[layer_id self := (k, v)]> (cache_layers c))).
Proof.
  intros self c cache'.
  assert (Hentry : cache_layers c !! layer_id self = Some ([[[[5]]]], [[[[7]]]]))
    by (vm_compute; reflexivity).
  assert (Hrun : @mha_construct Z int_runtime self [[[2]]] (Mask3 [[[1; 1]]]) None None true
                   (Some c) = (cache', Ok ([[[78]]], Some [[[[10; 4]]]])))
    by (vm_compute; reflexivity).
  split; [exact Hentry|]. split; [exact Hrun|].
  exact (@mha_construct_appends_to_cache Z int_runtime self [[[2]]] (Mask3 [[[1; 1]]]) None
           true c _ _ cache' _ Hentry Hrun).
Defined.

(** ** The head split of the attention block and its inverse *)

Lemma slice_0_app {X} (l1 l2 : list X) : slice 0 (length l1) (l1 ++ l2) = l1.
Proof. unfold slice. rewrite drop_0. by rewrite take_app_length. Qed.

Lemma group_cons {X} (w : nat) (r : list X) (l : list X) (n : nat) :
  (0 < w)%nat → length r = w → length l = (n * w)%nat →
  group w (r ++ l) = r :: group w l.
Proof.
  intros Hw Hr Hl. unfold group.
  rewrite length_app, Hr, Hl.
  replace (w + n * w)%nat with (S n * w)%nat by lia.
  rewrite !Nat.div_mul by lia. rewrite <- cons_seq. cbn [map].
  f_equal.
  - simpl. rewrite <- Hr. apply slice_0_app.
  - rewrite <- seq_shift, map_map. apply map_ext. intros k.
    rewrite slice_succ. by rewrite <- Hr, drop_app_length.
Qed.

Lemma length_concat_rows {X} (rows : list (list X)) (w : nat) :
  Forall (λ r, length r = w) rows → length (concat rows) = (length rows * w)%nat.
Proof.
  induction 1 as [|r rows Hr _ IH]; simpl; [done|]. rewrite length_app, IH, Hr. lia.
Qed.

Lemma group_concat {X} (w : nat) (rows : list (list X)) :
  (0 < w)%nat → Forall (λ r, length r = w) rows → group w (concat rows) = rows.
Proof.
  intros Hw Hrows. induction Hrows as [|r rows Hr Hrest IH]; simpl.
  - unfold group. simpl. by rewrite Nat.Div0.div_0_l.
  - rewrite (group_cons w r (concat rows) (length rows)); [by rewrite IH | done | done |].
    by apply length_concat_rows.
Qed.

Lemma group_rows {X} (w n : nat) (l : list X) :
  (0 < w)%nat → length l = (n * w)%nat →
  length (group w l) = n ∧ Forall (λ r, length r = w) (group w l) ∧ concat (group w l) = l.
Proof.
  intros Hw. revert l. induction n as [|n IH]; intros l Hl.
  - destruct l; [|simpl in Hl; lia]. unfold group. simpl.
    rewrite Nat.Div0.div_0_l. done.
  - rewrite <- (take_drop w l).
    assert (Ht : length (take w l) = w) by (rewrite length_take; lia).
    assert (Hd : length (drop w l) = (n * w)%nat) by (rewrite length_drop; lia).
    rewrite (group_cons w (take w l) (drop w l) n) by done.
    destruct (IH (drop w l) Hd) as (Hlen & Hall & Hcat).
    simpl. rewrite Hlen, Hcat. split; [done|]. split; [by constructor | done].
Qed.

Lemma slice_concat_uniform {X} (ls : list (list X)) (n b : nat) (l : list X) :
  Forall (λ l, length l = n) ls → ls !! b = Some l → slice (b * n) n (concat ls) = l.
Proof.
  intros Hall. revert b. induction Hall as [|l0 ls Hl0 _ IH]; intros b Hb; [done|].
  destruct b as [|b]; simpl in *.
  - injection Hb as ->. rewrite <- Hl0. apply slice_0_app.
  - unfold slice. rewrite <- drop_drop, drop_app_length' by done. by apply IH.
Qed.

Lemma omap_lookup_defined {X Y} (f : X → option Y) (l : list X) (i : nat) :
  Forall (λ x, is_Some (f x)) l → omap f l !! i = l !! i ≫= f.
Proof.
  intros Hall. revert i. induction Hall as [|x l [y Hy] _ IH]; intros i; [done|].
  cbn [omap list_omap]. rewrite Hy. destruct i as [|i]; simpl; [done | apply IH].
Qed.

Lemma length_omap_defined {X Y} (f : X → option Y) (l : list X) :
  Forall (λ x, is_Some (f x)) l → length (omap f l) = length l.
Proof.
  induction 1 as [|x l [y Hy] _ IH]; [done|]. cbn [omap list_omap]. rewrite Hy. simpl.
  by rewrite IH.
Qed.

(** Heads first, then positions, and back. *)
Lemma transpose_twice {X} (h : nat) (sample : list (list X)) :
  (0 < h)%nat → Forall (λ position, length position = h) sample →
  let heads := map (λ head, omap (λ position, position !! head) sample) (seq 0 h) in
  map (λ l, omap (λ head, head !! l) heads) (seq 0 (length (hd [] heads))) = sample.
Proof.
  intros Hh Hall heads.
  assert (Hdef : ∀ head, (head < h)%nat →
            Forall (λ position : list X, is_Some (position !! head)) sample).
  { intros head Hhead. eapply Forall_impl; [exact Hall|]. simpl. intros p Hp.
    apply lookup_lt_is_Some. lia. }
  assert (Hhd : length (hd [] heads) = length sample).
  { unfold heads. destruct h as [|h']; [lia|]. simpl.
    apply length_omap_defined, Hdef. lia. }
  rewrite Hhd. apply list_eq. intros l.
  rewrite list_lookup_fmap.
  destruct (decide (l < length sample)%nat) as [Hl|Hl].
  - rewrite lookup_seq_lt by done. simpl.
    destruct (lookup_lt_is_Some_2 sample l Hl) as [p Hp]. rewrite Hp. f_equal.
    assert (Hplen : length p = h).
    { rewrite Forall_forall in Hall. apply Hall. by eapply list_elem_of_lookup_2. }
    apply list_eq. intros head.
    assert (Hheads : Forall (λ hd0 : list X, is_Some (hd0 !! l)) heads).
    { unfold heads. apply Forall_forall. intros hd0 (k & -> & Hk%elem_of_seq)%list_elem_of_fmap.
      apply lookup_lt_is_Some. rewrite length_omap_defined by (apply Hdef; lia). done. }
    rewrite (omap_lookup_defined _ _ _ Hheads). unfold heads.
    rewrite list_lookup_fmap.
    destruct (decide (head < h)%nat) as [Hk|Hk].
    + rewrite lookup_seq_lt by done. simpl.
      rewrite (omap_lookup_defined _ _ _ (Hdef head Hk)), Hp. done.
    + rewrite lookup_seq_ge by lia. simpl. symmetry. apply lookup_ge_None. lia.
  - rewrite lookup_seq_ge by lia. simpl. symmetry. apply lookup_ge_None. lia.
Qed.
Lemma has_shape3_spec {X} (t : list (list (list X))) (bs len w : nat) :
  has_shape3 t bs len w = true ↔
  length t = bs ∧ Forall (λ plane, length plane = len ∧ Forall (λ row, length row = w) plane) t.
Proof.
  unfold has_shape3. rewrite andb_true_iff, bool_decide_eq_true, forallb_forall.
  rewrite Forall_forall. split; intros [H1 H2]; (split; [done|]); intros plane Hplane.
  - apply list_elem_of_In, H2, has_shape2_spec in Hplane as [Hl Hr].
    split; [done|]. by apply Forall_forall.
  - apply list_elem_of_In, H2 in Hplane as [Hl Hr]. apply has_shape2_spec.
    split; [done|]. by apply Forall_forall.
Qed.

Lemma concat_concat {X} (t : list (list (list X))) :
  concat (concat t) = concat (map (@concat X) t).
Proof. induction t as [|p t IH]; simpl; [done|]. by rewrite concat_app, IH. Qed.

Lemma map_seq_lookup {X Y} (f : nat → Y) (g : X → Y) (l : list X) :
  (∀ b x, l !! b = Some x → f b = g x) → map f (seq 0 (length l)) = map g l.
Proof.
  intros Hfg. apply list_eq. intros b. rewrite !list_lookup_fmap.
  destruct (decide (b < length l)%nat) as [Hb|Hb].
  - rewrite lookup_seq_lt by done. simpl.
    destruct (lookup_lt_is_Some_2 l b Hb) as [x Hx]. rewrite Hx. simpl. f_equal.
    by apply Hfg.
  - rewrite lookup_seq_ge by lia. by rewrite lookup_ge_None_2 by lia.
Qed.

Section head_split.
Context {A : Type} `{Runtime A}.

(** [shape] on a tensor (bs, len, h * d): every vector is cut into its
    [h] heads and the heads come first. *)
Lemma shape_closed (bs len h d : nat) (x : list (list (list A))) :
  (0 < bs)%nat → (0 < h)%nat → (0 < d)%nat →
  has_shape3 x bs len (h * d) = true →
  shape bs (Z.of_nat h) (Z.of_nat d) x
  = Ok (map (λ plane, map (λ head, omap (λ position : list (list A), position !! head)
                                        (map (group d) plane))
                          (seq 0 h)) x).
Proof.
  intros Hbs Hh Hd [Hlen Hplanes]%has_shape3_spec. subst bs.
  assert (Hw : (0 < h * d)%nat) by nia.
  assert (Hsamples : Forall (λ l : list A, length l = (len * h * d)%nat)
                            (map (@concat A) x)).
  { apply Forall_forall. intros l (plane & -> & Hplane)%list_elem_of_fmap.
    rewrite Forall_forall in Hplanes. destruct (Hplanes plane Hplane) as [Hl Hrows].
    rewrite (length_concat_rows plane (h * d)) by done. nia. }
  assert (Hflat : length (concat (concat x)) = (length x * (len * h * d))%nat).
  { rewrite concat_concat, (length_concat_rows _ (len * h * d)) by done.
    by rewrite length_map. }
  unfold shape.
  rewrite bool_decide_false by lia. rewrite !Nat2Z.id, Hflat.
  rewrite bool_decide_false.
  2:{ intros Hne. apply Hne.
      replace (length x * (len * h * d))%nat with (len * (length x * h * d))%nat by lia.
      apply Nat.Div0.mod_mul. }
  replace (Nat.div (length x * (len * h * d)) (length x * h * d)) with len.
  2:{ replace (length x * (len * h * d))%nat with (len * (length x * h * d))%nat by lia.
      symmetry. apply Nat.div_mul. nia. }
  f_equal.
  rewrite (map_seq_lookup _ (map (group d)) x); [by rewrite map_map|].
  intros b plane Hb. f_equal.
  rewrite concat_concat, (slice_concat_uniform _ _ b (concat plane));
    [|done|by rewrite list_lookup_fmap, Hb].
  apply group_concat; [done|].
  rewrite Forall_forall in Hplanes. eapply Hplanes, list_elem_of_lookup_2, Hb.
Qed.

(** X24.  The split into heads loses nothing: on a tensor
    (bs, len, h * d), [unshape] undoes [shape]. *)
Theorem shape_unshape_round_trip (bs len h d : nat) (x : list (list (list A))) :
  (0 < bs)%nat → (0 < h)%nat → (0 < d)%nat →
  has_shape3 x bs len (h * d) = true →
  shape bs (Z.of_nat h) (Z.of_nat d) x ≫= unshape bs (Z.of_nat h) (Z.of_nat d) = Ok x.
Proof.
  intros Hbs Hh Hd Hx. rewrite (shape_closed bs len h d x) by done.
  apply has_shape3_spec in Hx as [Hlen Hplanes]. subst bs.
  assert (Hw : (0 < h * d)%nat) by nia.
  cbn [mbind res_bind rbind]. unfold unshape. rewrite map_map.
  (* transposing back gives the vectors cut into heads *)
  assert (Hback : map (λ plane : list (list A),
                    map (λ l, omap (λ head : list (list A), head !! l)
                                (map (λ head, omap (λ position : list (list A),
                                                      position !! head)
                                                   (map (group d) plane))
                                     (seq 0 h)))
                        (seq 0 (length (hd []
                           (map (λ head, omap (λ position : list (list A),
                                                 position !! head)
                                              (map (group d) plane))
                                (seq 0 h)))))) x
                  = map (map (group d)) x).
  { apply map_ext_in. intros plane Hplane%list_elem_of_In.
    apply (transpose_twice h (map (group d) plane)); [done|].
    apply Forall_forall. intros position (row & -> & Hrow)%list_elem_of_fmap.
    rewrite Forall_forall in Hplanes. destruct (Hplanes plane Hplane) as [_ Hrows].
    rewrite Forall_forall in Hrows.
    apply (group_rows d h row); [done|]. rewrite (Hrows row Hrow). lia. }
  rewrite Hback.
  (* flattened, they are the flattened input *)
  assert (Hflat' : concat (concat (concat (map (map (group d)) x))) = concat (concat x)).
  { rewrite (concat_concat (concat _)). f_equal.
    clear -Hplanes Hd. induction Hplanes as [|plane x [_ Hrows] _ IH]; [done|].
    simpl. rewrite map_app, IH. f_equal.
    rewrite map_map. rewrite <- (map_id plane) at 2. apply map_ext_in.
    intros row Hrow%list_elem_of_In. rewrite Forall_forall in Hrows.
    apply (group_rows d h row); [done|]. rewrite (Hrows row Hrow). lia. }
  assert (Hsamples : Forall (λ l : list A, length l = (len * (h * d))%nat)
                            (map (@concat A) x)).
  { apply Forall_forall. intros l (plane & -> & Hplane)%list_elem_of_fmap.
    rewrite Forall_forall in Hplanes. destruct (Hplanes plane Hplane) as [Hl Hrows].
    rewrite (length_concat_rows plane (h * d)) by done. nia. }
  assert (Hflat : length (concat (concat x)) = (length x * (len * (h * d)))%nat).
  { rewrite concat_concat, (length_concat_rows _ (len * (h * d))) by done.
    by rewrite length_map. }
  rewrite Hflat', Hflat.
  rewrite bool_decide_false by nia.
  replace (Z.to_nat (Z.of_nat h * Z.of_nat d)) with (h * d)%nat by lia.
  rewrite bool_decide_false.
  2:{ intros Hne. apply Hne.
      replace (length x * (len * (h * d)))%nat with (len * (length x * (h * d)))%nat by lia.
      apply Nat.Div0.mod_mul. }
  replace (Nat.div (length x * (len * (h * d))) (length x * (h * d))) with len.
  2:{ replace (length x * (len * (h * d)))%nat with (len * (length x * (h * d)))%nat by lia.
      symmetry. apply Nat.div_mul. nia. }
  f_equal. rewrite <- (map_id x) at 2.
  apply map_seq_lookup. intros b plane Hb.
  rewrite concat_concat, (slice_concat_uniform _ _ b (concat plane));
    [|done|by rewrite list_lookup_fmap, Hb].
  apply group_concat; [done|].
  rewrite Forall_forall in Hplanes. eapply Hplanes, list_elem_of_lookup_2, Hb.
Qed.
End head_split.

Lemma shape_unshape_round_trip_witness :
  let x : list (list (list Z)) := [[[1; 2; 3; 4]; [5; 6; 7; 8]]] in
  (0 < 1)%nat ∧ (0 < 2)%nat ∧ has_shape3 x 1 2 (2 * 2) = true ∧
  shape 1 (Z.of_nat 2) (Z.of_nat 2) x = Ok [[[[1; 2]; [5; 6]]; [[3; 4]; [7; 8]]]] ∧
  shape 1 (Z.of_nat 2) (Z.of_nat 2) x ≫= unshape 1 (Z.of_nat 2) (Z.of_nat 2) = Ok x.
Proof.
  intros x.
  assert (H1 : (0 < 1)%nat) by lia. assert (H2 : (0 < 2)%nat) by lia.
  split; [exact H1|]. split; [exact H2|]. split; [reflexivity|].
  split; [vm_compute; reflexivity|].
  exact (shape_unshape_round_trip 1 2 2 2 x H1 H2 H2 eq_refl).
Defined.

(** ** MultiHeadAttention.construct: the shape of the output *)

Lemma zip_strict_Forall2 {X Y W} (f : X → Y → res W) l1 l2 ws :
  zip_strict f l1 l2 = Ok ws → Forall2 (λ a w, ∃ b, f a b = Ok w) l1 ws.
Proof.
  intros [Hlen Hall]%zip_strict_ok.
  revert l2 ws Hlen Hall. induction l1 as [|a l1 IH]; intros [|b l2] ws Hlen Hall;
    simpl in *; try lia.
  - inversion Hall. constructor.
  - inversion Hall as [|? w ? ws' Hw Hrest]; subst. constructor; [by exists b|].
    apply (IH l2); [lia | done].
Qed.

Lemma has_shape3_Forall2 {X Y} (t : list (list (list X))) (t' : list (list (list Y)))
    (bs h len : nat) :
  has_shape3 t bs h len = true →
  Forall2 (Forall2 (λ a b, length b = length a)) t t' →
  has_shape3 t' bs h len = true.
Proof.
  intros [Hlen Hall]%has_shape3_spec Hrel. apply has_shape3_spec.
  split; [by rewrite <- (Forall2_length _ _ _ Hrel)|].
  clear Hlen. induction Hrel as [|s s' t t' Hs _ IH]; [constructor|].
  apply Forall_cons in Hall as [[Hh Hrows] Hall]. constructor; [|by apply IH].
  split; [by rewrite <- (Forall2_length _ _ _ Hs)|].
  clear Hh. induction Hs as [|a b s s' Hab _ IHs]; [constructor|].
  apply Forall_cons in Hrows as [Ha Hrows]. constructor; [congruence | by apply IHs].
Qed.

(** What [zip_broadcast] returns: as many entries as the longer operand
    has, each computed from an entry of either operand. *)
Lemma zip_broadcast_ok {X Y W} (f : X → Y → res W) (P : W → Prop) l1 l2 ws :
  (∀ a b w, a ∈ l1 → b ∈ l2 → f a b = Ok w → P w) →
  zip_broadcast f l1 l2 = Ok ws →
  Forall P ws ∧
  length ws = if bool_decide (length l1 = 1%nat) then length l2 else length l1.
Proof.
  intros Hf. unfold zip_broadcast. case_bool_decide as Hlen.
  - intros Hr%rmap_Forall2. split.
    + apply Forall_forall. intros w Hw. apply list_elem_of_lookup in Hw as [i Hi].
      destruct (Forall2_lookup_r _ _ _ _ _ Hr Hi) as ([a b] & Hab & Hw).
      apply list_elem_of_lookup_2 in Hab.
      apply (Hf a b); [by eapply elem_of_zip_l | by eapply elem_of_zip_r | done].
    + apply Forall2_length in Hr. rewrite length_zip in Hr.
      case_bool_decide; lia.
  - destruct l1 as [|x [|x' l1]], l2 as [|y [|y' l2]]; cbv beta iota; try done.
    all: intros Hr; pose proof (rmap_length _ _ _ Hr) as Hl;
      apply rmap_Forall2 in Hr;
      (split; [|rewrite Hl; case_bool_decide; simpl in *; lia]).
    all: apply Forall_forall; intros w Hw; apply list_elem_of_lookup in Hw as [i Hi];
      destruct (Forall2_lookup_r _ _ _ _ _ Hr Hi) as (c & Hc & Hw);
      apply list_elem_of_lookup_2 in Hc.
    all: first [ apply (Hf x c); [left | done | done]
               | apply (Hf c y); [done | left | done] ].
Qed.

Section attention_shape.
Context {A : Type} `{Runtime A}.

Lemma dense_has_shape3 (layer : Dense A) (t y : list (list (list A))) (bs len : nat) :
  dense layer t = Ok y →
  length t = bs → Forall (λ plane, length plane = len) t →
  has_shape3 y bs len (length (weight layer)) = true.
Proof.
  rewrite dense_closed. destruct (forallb _ t) eqn:Hok; [|done]. intros [= <-] Hbs Hlen.
  apply has_shape3_spec. split; [by rewrite length_map|].
  apply Forall_forall. intros plane' (plane & -> & Hplane)%list_elem_of_fmap.
  rewrite Forall_forall in Hlen. rewrite length_map. split; [by apply Hlen|].
  apply Forall_forall. intros v' (v & -> & Hv)%list_elem_of_fmap.
  apply dense_out_length.
  rewrite forallb_forall in Hok. apply list_elem_of_In, Hok in Hplane.
  rewrite forallb_forall in Hplane. by apply Hplane, list_elem_of_In.
Qed.

Lemma shape_has_shape3 (bs len h d : nat) (x : list (list (list A))) q :
  (0 < h)%nat → (0 < d)%nat →
  has_shape3 x bs len (h * d) = true →
  shape bs (Z.of_nat h) (Z.of_nat d) x = Ok q →
  has_shape3 q bs h len = true.
Proof.
  intros Hh Hd Hx Hq.
  assert (Hbs : (0 < bs)%nat).
  { unfold shape in Hq. case_bool_decide; [done | lia]. }
  rewrite (shape_closed bs len h d x) in Hq by done. injection Hq as <-.
  apply has_shape3_spec in Hx as [Hlen Hplanes].
  apply has_shape3_spec. split; [by rewrite length_map|].
  apply Forall_forall. intros sample (plane & -> & Hplane)%list_elem_of_fmap.
  rewrite length_map, length_seq. split; [done|].
  apply Forall_forall. intros head (k & -> & Hk%elem_of_seq)%list_elem_of_fmap.
  rewrite Forall_forall in Hplanes. destruct (Hplanes plane Hplane) as [Hl Hrows].
  rewrite length_omap_defined; [by rewrite length_map|].
  apply Forall_forall. intros position (row & -> & Hrow)%list_elem_of_fmap.
  apply lookup_lt_is_Some. rewrite Forall_forall in Hrows.
  destruct (group_rows d h row) as (-> & _ & _); [done| |lia].
  rewrite (Hrows row Hrow). lia.
Qed.

Lemma scaled_scores_rows (q k scores : list (list (list (list A)))) (d : Z) :
  scaled_scores q k d = Ok scores →
  Forall2 (Forall2 (λ a b, length b = length a)) q scores.
Proof.
  intros Hs%zip_strict_Forall2. eapply Forall2_impl; [exact Hs|]. simpl.
  intros qs ss [ks Hss%zip_strict_Forall2]. eapply Forall2_impl; [exact Hss|]. simpl.
  intros qh sh [kh Hsh]. by apply rmap_length in Hsh.
Qed.

Lemma has_shape3_map {X Y} (f : X → Y) (t : list (list (list X))) (bs h len : nat) :
  has_shape3 t bs h len = true → has_shape3 (map (map (map f)) t) bs h len = true.
Proof.
  intros Ht. apply (has_shape3_Forall2 t); [done|].
  apply Forall2_fmap_r, Forall_Forall2_diag, Forall_forall. intros s _.
  apply Forall2_fmap_r, Forall_Forall2_diag, Forall_forall. intros hd _.
  apply length_map.
Qed.

Lemma head_mask_shape (weights weights' : list (list (list (list A))))
    (head_mask : list A) (bs h qlen : nat) :
  has_shape3 weights bs h qlen = true →
  rmap (λ ws, zip_broadcast (λ wh m, Ok (map (map (λ w, fmul w m)) wh)) ws head_mask)
       weights = Ok weights' →
  has_shape3 weights' bs (if bool_decide (h = 1%nat) then length head_mask else h) qlen
  = true.
Proof.
  intros [Hlen Hall]%has_shape3_spec Hr%rmap_Forall2. apply has_shape3_spec.
  split; [by rewrite <- (Forall2_length _ _ _ Hr)|].
  apply Forall_forall. intros ws' Hws'. apply list_elem_of_lookup in Hws' as [i Hi].
  destruct (Forall2_lookup_r _ _ _ _ _ Hr Hi) as (ws & Hws & Hzip).
  rewrite Forall_forall in Hall.
  destruct (Hall ws) as [Hh Hrows]; [by eapply list_elem_of_lookup_2|].
  apply (zip_broadcast_ok _ (λ wh', length wh' = qlen)) in Hzip as [HP Hl].
  - split; [by rewrite Hl, Hh | done].
  - intros wh m wh' Hwh _ [= <-]. rewrite length_map.
    rewrite Forall_forall in Hrows. by apply Hrows.
Qed.

(** The context: one head per head of the weights, which carry [h']
    heads against the [h] heads of the values. *)
Lemma weighted_values_shape (weights v context : list (list (list (list A)))) (d : Z)
    (bs h' h qlen : nat) :
  has_shape3 weights bs h' qlen = true →
  Forall (λ vs : list (list (list A)), length vs = h) v →
  (h' = 1%nat → h = 1%nat) →
  weighted_values weights v d = Ok context →
  has_shape3 context bs h' qlen = true ∧
  Forall (Forall (Forall (λ vec : list A, length vec = Z.to_nat d))) context.
Proof.
  intros [Hlen Hall]%has_shape3_spec Hv Hone [Hlv Hc]%zip_strict_ok.
  assert (Hsamples : Forall (λ cs : list (list (list A)),
            (length cs = h' ∧ Forall (λ ch, length ch = qlen) cs) ∧
            Forall (Forall (λ vec : list A, length vec = Z.to_nat d)) cs) context).
  { apply Forall_forall. intros cs Hcs. apply list_elem_of_lookup in Hcs as [i Hi].
    destruct (Forall2_lookup_r _ _ _ _ _ Hc Hi) as ([ws vs] & Hp & Hzip).
    apply list_elem_of_lookup_2 in Hp.
    pose proof (elem_of_zip_l _ _ _ _ Hp) as Hws.
    pose proof (elem_of_zip_r _ _ _ _ Hp) as Hvs.
    rewrite Forall_forall in Hall, Hv.
    destruct (Hall ws Hws) as [Hh Hrows]. specialize (Hv vs Hvs). simpl in Hzip.
    apply (zip_broadcast_ok _ (λ ch, length ch = qlen ∧
             Forall (λ vec : list A, length vec = Z.to_nat d) ch)) in Hzip as [HP Hl].
    - split; [split|].
      + rewrite Hl, Hh, Hv. destruct (decide (h' = 1%nat)) as [Hc1|Hc1].
        * rewrite bool_decide_true by done. rewrite (Hone Hc1). by rewrite Hc1.
        * by rewrite bool_decide_false.
      + eapply Forall_impl; [exact HP|]. by intros ch [? _].
      + eapply Forall_impl; [exact HP|]. by intros ch [_ ?].
    - intros wh vh ch Hwh _ Hch. split.
      + rewrite (rmap_length _ _ _ Hch). rewrite Forall_forall in Hrows. by apply Hrows.
      + apply rmap_Forall2 in Hch. apply Forall_forall. intros vec Hvec.
        apply list_elem_of_lookup in Hvec as [j Hj].
        destruct (Forall2_lookup_r _ _ _ _ _ Hch Hj) as (w & _ & Hw).
        case_bool_decide; [done|]. injection Hw as <-.
        by rewrite length_map, length_seq. }
  split.
  - apply has_shape3_spec. split.
    + apply Forall2_length in Hc. rewrite length_zip in Hc. lia.
    + eapply Forall_impl; [exact Hsamples|]. by intros cs [? _].
  - eapply Forall_impl; [exact Hsamples|]. by intros cs [_ ?].
Qed.

(** [unshape] on a tensor (bs, h', len, d), viewed with the width of [h]
    heads: the [len * h'] vectors of a sample are laid out, [h] to a row,
    in [len'] rows. *)
Lemma unshape_has_shape3 (bs h h' len len' d : nat) (x : list (list (list (list A)))) y :
  (0 < h)%nat → (0 < h')%nat → (0 < d)%nat →
  (len * h' = len' * h)%nat →
  has_shape3 x bs h' len = true →
  Forall (Forall (Forall (λ vec : list A, length vec = d))) x →
  unshape bs (Z.of_nat h) (Z.of_nat d) x = Ok y →
  has_shape3 y bs len' (h * d) = true.
Proof.
  intros Hh Hh' Hd Hrows' [Hlen Hsamples]%has_shape3_spec Hvecs Hy. subst bs.
  unfold unshape in Hy.
  set (transposed := map (λ sample : list (list (list A)),
                            map (λ l, omap (λ head : list (list A), head !! l) sample)
                                (seq 0 (length (hd [] sample)))) x) in Hy.
  (* every sample, transposed and flattened, has len * (h * d) entries *)
  assert (Hflat : Forall (λ l : list A, length l = (len' * (h * d))%nat)
                         (map (λ tb : list (list (list A)), concat (concat tb)) transposed)).
  { replace (len' * (h * d))%nat with (len * (h' * d))%nat by nia.
    unfold transposed. rewrite map_map. apply Forall_forall.
    intros l (sample & -> & Hsample)%list_elem_of_fmap.
    rewrite Forall_forall in Hsamples. destruct (Hsamples sample Hsample) as [Hheads Hrows].
    rewrite Forall_forall in Hvecs. pose proof (Hvecs sample Hsample) as Hv.
    assert (Hhd : length (hd [] sample) = len).
    { destruct sample as [|head0 sample']; [simpl in Hheads; lia|].
      by apply Forall_cons in Hrows as [? _]. }
    rewrite Hhd.
    rewrite (length_concat_rows _ d).
    - rewrite (length_concat_rows _ h'); [by rewrite length_map, length_seq; lia|].
      apply Forall_forall. intros row (l & -> & Hl%elem_of_seq)%list_elem_of_fmap.
      rewrite length_omap_defined; [done|].
      eapply Forall_impl; [exact Hrows|]. simpl. intros head Hhead.
      apply lookup_lt_is_Some. lia.
    - apply Forall_forall. intros vec Hvec.
      apply list_elem_of_In, in_concat in Hvec as (row & Hrow & Hvec).
      apply list_elem_of_In in Hrow, Hvec.
      apply list_elem_of_fmap in Hrow as (l & -> & _).
      apply list_elem_of_omap in Hvec as (head & Hhead & Hl).
      rewrite Forall_forall in Hv. pose proof (Hv head Hhead) as Hvh.
      rewrite Forall_forall in Hvh. eapply Hvh, list_elem_of_lookup_2, Hl. }
  assert (Hall : concat (concat (concat transposed))
                 = concat (map (λ tb : list (list (list A)), concat (concat tb)) transposed)).
  { rewrite (concat_concat (concat transposed)), concat_map, concat_concat, map_map.
    f_equal. apply map_ext. intros tb. symmetry. apply concat_concat. }
  rewrite Hall in Hy.
  rewrite (length_concat_rows _ (len' * (h * d))) in Hy by done.
  rewrite !length_map in Hy.
  assert (Htl : length transposed = length x) by (unfold transposed; apply length_map).
  rewrite Htl in Hy.
  replace (Z.to_nat (Z.of_nat h * Z.of_nat d)) with (h * d)%nat in Hy by lia.
  case_bool_decide as Hpos; [done|].
  case_bool_decide as Hmod; [done|].
  assert (Hbs : (0 < length x)%nat) by lia.
  replace (Nat.div (length x * (len' * (h * d))) (length x * (h * d))) with len' in Hy.
  2:{ replace (length x * (len' * (h * d)))%nat with (len' * (length x * (h * d)))%nat
        by lia.
      symmetry. apply Nat.div_mul. nia. }
  injection Hy as <-. apply has_shape3_spec. rewrite length_map, length_seq.
  split; [done|]. apply Forall_forall.
  intros plane (b & -> & Hb%elem_of_seq)%list_elem_of_fmap.
  assert (Hlt : (b < length (map (λ tb : list (list (list A)), concat (concat tb))
                                 transposed))%nat).
  { unfold transposed. rewrite !length_map. lia. }
  destruct (lookup_lt_is_Some_2 _ _ Hlt) as [l Hl].
  rewrite (slice_concat_uniform _ _ b l Hflat Hl).
  rewrite Forall_forall in Hflat.
  destruct (group_rows (h * d) len' l) as (Hg1 & Hg2 & _); [nia| |done].
  eapply Hflat, list_elem_of_lookup_2, Hl.
Qed.

Lemma has_shape3_planes {X} (t : list (list (list X))) (bs len w : nat) :
  has_shape3 t bs len w = true →
  length t = bs ∧ Forall (λ plane, length plane = len) t.
Proof.
  intros [Hlen Hall]%has_shape3_spec. split; [done|].
  eapply Forall_impl; [exact Hall|]. by intros plane [? _].
Qed.

Lemma dense_shape_weight (layer : Dense A) (din dout : nat) :
  dense_shape layer din dout → length (weight layer) = dout.
Proof. by intros (_ & _ & [? _]%has_shape2_spec & _). Qed.

Lemma construct_scores_shape (hs din dout bs qlen : nat) (self : MultiHeadAttention A)
    (input : list (list (list A))) (mask : attn_mask) kv cache cache' scores m v
    dim_per_head :
  attn_shapes hs din dout self →
  has_shape3 input bs qlen din = true →
  construct_scores self input mask kv cache = (cache', Ok (scores, m, v, dim_per_head)) →
  dim_per_head = Z.of_nat hs ∧ (0 < hs)%nat ∧ 0 < n_heads self ∧
  has_shape3 scores bs (Z.to_nat (n_heads self)) qlen = true ∧
  Forall (λ vs : list (list (list A)), length vs = Z.to_nat (n_heads self)) v.
Proof.
  intros Hs Hinput Hrun. pose proof Hs as [Hn Hdim Hq Hk Hv Hout].
  apply has_shape3_planes in Hinput as [Hbs Hplanes].
  unfold construct_scores in Hrun.
  destruct (shape3 input) as [[bs0 qlen0] d0] eqn:Hshape.
  assert (Hbs0 : bs0 = bs) by (unfold shape3 in Hshape; congruence). subst bs0.
  stx_step Hrun as cache0 Hget. injection Hget as <-.
  stx_step Hrun as klen Hklen.
  stx_step Hrun as dph Hdph.
  assert (Hne : n_heads self ≠ 0).
  { intros H0. unfold floordiv in Hdph. by rewrite bool_decide_true in Hdph. }
  rewrite (attention_head_size_eq hs din dout) in Hdph by done. injection Hdph as <-.
  stx_step Hrun as q Hqs.
  apply rbind_ok in Hqs as (xq & Hxq & Hshq).
  pose proof (dense_has_shape3 _ _ _ bs qlen Hxq Hbs Hplanes) as Hxq3.
  rewrite (dense_shape_weight _ _ _ Hq) in Hxq3.
  assert (Hpos : 0 < n_heads self ∧ (0 < hs)%nat).
  { unfold shape in Hshq. case_bool_decide as Hc; [done | lia]. }
  destruct Hpos as [Hnpos Hhs].
  assert (Hwidth : Z.to_nat (dim self) = (Z.to_nat (n_heads self) * hs)%nat)
    by (rewrite Hdim; nia).
  stx_step Hrun as kvs Hkv. destruct kvs as [k v'].
  stx_step Hrun as u Hmod.
  stx_step Hrun as scores' Hscores.
  stx_step Hrun as mask' Hm.
  apply mret_ok in Hrun as [_ Heq]. injection Heq as <- _ <- <-.
  split; [done|]. split; [done|]. split; [done|]. split.
  - apply (has_shape3_Forall2 q); [|by eapply scaled_scores_rows].
    apply (shape_has_shape3 bs qlen (Z.to_nat (n_heads self)) hs xq); [lia | done | |].
    + by rewrite <- Hwidth.
    + by rewrite Z2Nat.id by lia.
  - (* the values: projected from the input, after the cached ones if any *)
    destruct kv as [kv|]; [done|].
    assert (Hnew : ∀ v_new,
      dense (v_lin self) input ≫= shape bs (n_heads self) (Z.of_nat hs) = Ok v_new →
      Forall (λ vs : list (list (list A)), length vs = Z.to_nat (n_heads self)) v_new).
    { intros v_new (xv & Hxv & Hshv)%rbind_ok.
      pose proof (dense_has_shape3 _ _ _ bs qlen Hxv Hbs Hplanes) as Hxv3.
      rewrite (dense_shape_weight _ _ _ Hv), Hwidth in Hxv3.
      rewrite <- (Z2Nat.id (n_heads self)) in Hshv by lia.
      apply (shape_has_shape3 bs qlen (Z.to_nat (n_heads self)) hs xv) in Hshv;
        [|lia|done..].
      apply has_shape3_spec in Hshv as [_ Hshv].
      eapply Forall_impl; [exact Hshv|]. by intros vs [? _]. }
    destruct (cache ≫= λ c, cache_layers c !! layer_id self) as [[k_ v_]|].
    + apply rbind_ok in Hkv as (k_new & _ & Hkv).
      apply rbind_ok in Hkv as (v_new & Hv_new%Hnew & Hkv).
      apply rbind_ok in Hkv as (k1 & _ & Hkv).
      apply rbind_ok in Hkv as (v1 & Hcat & [= _ <-]).
      apply zip_strict_ok in Hcat as [_ Hcat].
      apply Forall_forall. intros vs Hvs. apply list_elem_of_lookup in Hvs as [i Hi].
      destruct (Forall2_lookup_r _ _ _ _ _ Hcat Hi) as ([sa sb] & Hp & Hzip).
      apply list_elem_of_lookup_2, elem_of_zip_r in Hp.
      rewrite Forall_forall in Hv_new. specialize (Hv_new sb Hp).
      simpl in Hzip. pose proof (zip_strict_length _ _ _ _ Hzip) as Hl.
      apply zip_strict_ok in Hzip as [Hab _]. lia.
    + apply rbind_ok in Hkv as (k_new & _ & Hkv).
      by apply rbind_ok in Hkv as (v_new & Hv_new%Hnew & [= _ <-]).
Qed.

(** X25.  On a layer whose shapes fit, a call of [construct] that returns
    gives a tensor with the batch extent of the input and as many
    features as the output projection has outputs, whatever the mask and
    the cache.  Its sequence extent is that of the input when there is no
    head mask or the layer has several heads; a layer with a single head
    and a head mask of [n] factors returns every position [n] times (the
    product [weights * head_mask] broadcasts the one head).  The head
    mask is taken with at least one factor. *)
Theorem mha_construct_output_shape (hs din dout bs qlen : nat)
    (self : MultiHeadAttention A) (input : list (list (list A))) (mask : attn_mask)
    (kv : option (list (list (list A)))) (head_mask : option (list A))
    (output_attentions : bool) (cache cache' : option (Cache A)) out :
  attn_shapes hs din dout self →
  has_shape3 input bs qlen din = true →
  head_mask ≠ Some [] →
  mha_construct self input mask kv head_mask output_attentions cache = (cache', Ok out) →
  has_shape3 out.1 bs (qlen * head_copies self head_mask) dout = true.
Proof.
  intros Hs Hinput Hfactors Hrun. pose proof Hs as [Hn Hdim Hq Hk Hv Hout].
  pose proof (has_shape3_planes _ _ _ _ Hinput) as [Hbs _].
  unfold mha_construct in Hrun.
  apply stx_bind_ok in Hrun as ([[[scores m] v] d] & st & Hscores & Hrun).
  apply (construct_scores_shape hs din dout bs qlen) in Hscores
    as (-> & Hhs & Hnpos & Hsc & Hvheads); [|done..].
  stx_step Hrun as weights Hw.
  stx_step Hrun as context4 Hctx.
  stx_step Hrun as context Hctx'.
  stx_step Hrun as o Ho.
  apply mret_ok in Hrun as [_ Heq]. subst out. simpl.
  set (h := Z.to_nat (n_heads self)) in *.
  set (copies := head_copies self head_mask).
  assert (Hcopies : (0 < copies)%nat ∧ (h ≠ 1%nat → copies = 1%nat)).
  { unfold copies, head_copies. destruct head_mask as [[|m0 hm]|]; [done| |lia].
    case_bool_decide; simpl; lia. }
  destruct Hcopies as [Hcpos Hcone].
  (* the weights: [h * copies] heads *)
  assert (Hweights : has_shape3 weights bs (h * copies) qlen = true).
  { assert (H0 : has_shape3
                   (if mha_training self
                    then map (map (map (ops_dropout (mha_dropout self))))
                             (map (map (map ops_softmax)) scores)
                    else map (map (map ops_softmax)) scores) bs h qlen = true).
    { destruct (mha_training self); repeat apply has_shape3_map; done. }
    destruct head_mask as [hm|].
    - apply (head_mask_shape _ _ _ bs h qlen H0) in Hw.
      replace (h * copies)%nat
        with (if bool_decide (h = 1%nat) then length hm else h); [done|].
      unfold copies, head_copies.
      destruct (decide (h = 1%nat)) as [Hone|Hmany].
      + rewrite bool_decide_true by done. rewrite bool_decide_true by lia. lia.
      + rewrite bool_decide_false by done. rewrite bool_decide_false by lia. lia.
    - injection Hw as <-. unfold copies, head_copies. by rewrite Nat.mul_1_r. }
  (* the context *)
  apply (weighted_values_shape _ _ _ _ bs (h * copies) h qlen Hweights Hvheads)
    in Hctx as [Hc3 Hvecs]; [|nia].
  rewrite Nat2Z.id in Hvecs.
  rewrite Hbs in Hctx'.
  rewrite <- (Z2Nat.id (n_heads self)) in Hctx' by lia. fold h in Hctx'.
  apply (unshape_has_shape3 bs h (h * copies) qlen (qlen * copies) hs) in Hctx';
    [|lia|nia|done|nia|done..].
  apply has_shape3_planes in Hctx' as [Hcb Hcp].
  pose proof (dense_has_shape3 _ _ _ bs (qlen * copies) Ho Hcb Hcp) as Hout3.
  by rewrite (dense_shape_weight _ _ _ Hout) in Hout3.
Qed.
End attention_shape.

Lemma unit_attention_shapes : attn_shapes 1 1 1 (unit_attention 0).
Proof.
  assert (Hd : dense_shape unit_dense 1 1).
  { split; [reflexivity|]. split; [reflexivity|]. split; [reflexivity|].
    intros b [= <-]. reflexivity. }
  split; [simpl; lia | reflexivity | exact Hd ..].
Defined.

Lemma mha_construct_output_shape_witness :
  let input : list (list (list Z)) := [[[1]; [2]]] in
  let head_mask : option (list Z) := Some [1; 10] in
  let out : list (list (list Z)) * option (list (list (list (list Z)))) :=
    ([[[5]; [50]; [10]; [100]]], None) in
  attn_shapes 1 1 1 (unit_attention 0) ∧ has_shape3 input 1 2 1 = true ∧
  head_mask ≠ Some [] ∧
  @mha_construct Z int_runtime (unit_attention 0) input (Mask3 (causal_tensor 1 2)) None
     head_mask false None = (None, Ok out) ∧
  head_copies (unit_attention 0) head_mask = 2%nat ∧
  has_shape3 out.1 1 (2 * 2) 1 = true.
Proof.
  intros input head_mask out.
  assert (Hfactors : head_mask ≠ Some []) by discriminate.
  assert (Hrun : @mha_construct Z int_runtime (unit_attention 0) input
                   (Mask3 (causal_tensor 1 2)) None head_mask false None = (None, Ok out))
    by (vm_compute; reflexivity).
  split; [exact unit_attention_shapes|]. split; [reflexivity|]. split; [exact Hfactors|].
  split; [exact Hrun|]. split; [reflexivity|].
  exact (@mha_construct_output_shape Z int_runtime 1 1 1 1 2 (unit_attention 0) input
           (Mask3 (causal_tensor 1 2)) None head_mask false None None out
           unit_attention_shapes eq_refl Hfactors Hrun).
Defined.
(** ** XLMModel.construct: the checks on the arguments *)

Section xlm_construct_checks.
Context {A : Type} `{Runtime A}.

(** X26.  [construct] rejects a call before it touches the cache: with
    neither [input_ids] nor [inputs_embeds] it raises an
    [AttributeError]; with [lengths] for another batch size, or with a
    length beyond the sequence length, it fails an assertion. *)
Theorem xlm_construct_rejects_arguments (self : XLMModel A) (args : construct_args A)
    (cache : option (Cache A)) :
  (arg_input_ids args = None → arg_inputs_embeds args = None →
   xlm_construct self args cache = (cache, Err AttributeError)) ∧
  (∀ ids lengths, arg_input_ids args = Some ids → arg_lengths args = Some lengths →
     length lengths ≠ length ids →
     xlm_construct self args cache = (cache, Err AssertionError)) ∧
  (∀ ids lengths len, arg_input_ids args = Some ids → arg_lengths args = Some lengths →
     length lengths = length ids → len ∈ lengths → Z.of_nat (length (hd [] ids)) < len →
     xlm_construct self args cache = (cache, Err AssertionError)).
Proof.
  unfold xlm_construct.
  unfold mbind, stx_mbind, stx_bind, get, lift, modify, mret, stx_mret, stx_ret.
  split; [|split].
  - by intros -> ->.
  - intros ids lengths -> -> Hne. cbn [mbind res_bind rbind assert].
    by rewrite bool_decide_false.
  - intros ids lengths len -> -> Heq Hin Hlong. cbn [mbind res_bind rbind assert].
    rewrite bool_decide_true by done.
    destruct lengths as [|x lengths]; [by apply elem_of_nil in Hin|].
    cbn [tensor_max mbind res_bind rbind assert].
    rewrite bool_decide_false; [done|].
    apply elem_of_cons in Hin as [->|Hin].
    + pose proof (foldl_max_le x lengths). lia.
    + pose proof (foldl_max_ge x lengths len Hin). lia.
Qed.
End xlm_construct_checks.
(** ** XLMModel.construct: the hidden states and attentions it returns *)

Section xlm_construct_outputs.
Context {A : Type} `{Runtime A}.

Lemma mha_construct_weights (self : MultiHeadAttention A) input mask kv head_mask
    (oa : bool) cache cache' out w :
  mha_construct self input mask kv head_mask oa cache = (cache', Ok (out, w)) →
  if oa then is_Some w else w = None.
Proof.
  unfold mha_construct. intros Hrun.
  apply stx_bind_ok in Hrun as ([[[scores m] v] d] & st & _ & Hrun).
  stx_step Hrun as weights Hw.
  stx_step Hrun as context Hctx.
  stx_step Hrun as context' Hctx'.
  stx_step Hrun as o Ho.
  apply mret_ok in Hrun as [_ Heq]. injection Heq as _ Hweights. subst w.
  by destruct oa.
Qed.

Lemma layer_step_counts (self : XLMModel A) mask attn_mask head_mask (ohs oa : bool)
    (acc acc' : list (list (list A)) * list (list (list (list A)))
                * list (list (list (list (list A))))) i cache cache' :
  layer_step self mask attn_mask head_mask ohs oa acc i cache = (cache', Ok acc') →
  length acc'.1.2 = (length acc.1.2 + if ohs then 1 else 0)%nat ∧
  length acc'.2 = (length acc.2 + if oa then 1 else 0)%nat.
Proof.
  unfold layer_step. destruct acc as [[tensor hs] atts]. intros Hrun.
  stx_step Hrun as att Hatt.
  stx_step Hrun as hm Hhm.
  apply stx_bind_ok in Hrun as ([out w] & st & Hmha & Hrun).
  apply mha_construct_weights in Hmha.
  stx_step Hrun as t1 Ht1. stx_step Hrun as ln1 Hln1. stx_step Hrun as ffn Hffn.
  stx_step Hrun as y Hy. stx_step Hrun as t2 Ht2. stx_step Hrun as ln2 Hln2.
  stx_step Hrun as t3 Ht3.
  apply mret_ok in Hrun as [_ Heq]. subst acc'. simpl. split.
  - destruct ohs; [rewrite length_app; simpl; lia | lia].
  - destruct oa.
    + destruct Hmha as [ws ->]. rewrite length_app. simpl. lia.
    + rewrite Hmha. lia.
Qed.

Lemma stx_foldl_layers_counts (self : XLMModel A) mask attn_mask head_mask (ohs oa : bool)
    layers
    (acc acc' : list (list (list A)) * list (list (list (list A)))
                * list (list (list (list (list A))))) cache cache' :
  stx_foldl (layer_step self mask attn_mask head_mask ohs oa) acc layers cache
  = (cache', Ok acc') →
  length acc'.1.2 = (length acc.1.2 + if ohs then length layers else 0)%nat ∧
  length acc'.2 = (length acc.2 + if oa then length layers else 0)%nat.
Proof.
  revert acc cache. induction layers as [|i layers IH]; intros acc cache; simpl.
  - intros [= <- <-]. destruct ohs, oa; lia.
  - intros Hrun. apply stx_bind_ok in Hrun as (acc1 & st & Hstep & Hrun).
    apply layer_step_counts in Hstep as [Hh Ha].
    apply IH in Hrun as [Hh' Ha']. rewrite Hh', Ha', Hh, Ha.
    destruct ohs, oa; lia.
Qed.

(** X27.  A call that returns gives the hidden states exactly when they
    are asked for, one per layer and the final one (which is the tensor
    returned) at the end, and the attention weights exactly when they are
    asked for, one per layer. *)
Theorem xlm_construct_output_counts (self : XLMModel A) (args : construct_args A)
    (cache cache' : option (Cache A)) (tensor : list (list (list A)))
    (hidden_states : option (list (list (list (list A)))))
    (all_attentions : option (list (list (list (list (list A)))))) :
  xlm_construct self args cache = (cache', Ok (tensor, hidden_states, all_attentions)) →
  (if default (config_output_hidden_states self) (arg_output_hidden_states args)
   then ∃ l, hidden_states = Some l ∧ length l = S (n_layers self) ∧ last l = Some tensor
   else hidden_states = None) ∧
  (if default (config_output_attentions self) (arg_output_attentions args)
   then ∃ l, all_attentions = Some l ∧ length l = n_layers self
   else all_attentions = None).
Proof.
  intros Hrun. unfold xlm_construct in Hrun.
  stx_step Hrun as cache0 Hget. injection Hget as <-.
  stx_step Hrun as dims Hdims. destruct dims as [bs slen].
  stx_step Hrun as u1 Hbs. stx_step Hrun as u2 Hmax.
  stx_step Hrun as masks Hmasks. destruct masks as [mask amask].
  stx_step Hrun as pids Hpids. stx_step Hrun as u3 Hlangs.
  stx_step Hrun as trimmed Htrim.
  destruct trimmed as [[[[ids' pids'] langs'] mask'] amask'].
  stx_step Hrun as emb Hemb. stx_step Hrun as tensor0 Ht0.
  stx_step Hrun as tensor1 Ht1. stx_step Hrun as tensor2 Ht2.
  stx_step Hrun as tensor3 Ht3.
  apply stx_bind_ok in Hrun as ([[tensor' hstates] atts] & st & Hfold & Hrun).
  apply stx_foldl_layers_counts in Hfold as [Hh Ha]. simpl in Hh, Ha.
  rewrite length_seq in Hh, Ha.
  stx_step Hrun as cache1 Hget. injection Hget as <-.
  apply stx_bind_ok in Hrun as (u4 & st' & _ & Hrun).
  apply mret_ok in Hrun as [_ Heq]. injection Heq as Et Eh Ea.
  subst tensor hidden_states all_attentions.
  split.
  - destruct (default _ (arg_output_hidden_states args)); [|done].
    eexists. split; [done|]. rewrite length_app, Hh. simpl. split; [lia|].
    apply last_snoc.
  - destruct (default _ (arg_output_attentions args)); [|done].
    eexists. split; [done|]. by rewrite Ha.
Qed.
End xlm_construct_outputs.

Lemma xlm_construct_output_counts_witness :
  let self := unit_model true 1 in
  let args : construct_args Z :=
    MkArgs (Some [[1; 2]]) None None None None None None None (Some true) (Some true) in
  let hidden_states := Some [[[[1]; [3]]]; [[[22]; [66]]]] in
  let all_attentions := Some [[[[[1; 3]; [3; 9]]]]] in
  @xlm_construct Z int_runtime self args None
  = (None, Ok ([[[22]; [66]]], hidden_states, all_attentions)) ∧
  (if default (config_output_hidden_states self) (arg_output_hidden_states args)
   then ∃ l, hidden_states = Some l ∧ length l = S (n_layers self)
             ∧ last l = Some [[[22]; [66]]]
   else hidden_states = None) ∧
  (if default (config_output_attentions self) (arg_output_attentions args)
   then ∃ l, all_attentions = Some l ∧ length l = n_layers self
   else all_attentions = None).
Proof.
  intros self args hidden_states all_attentions.
  assert (Hrun : @xlm_construct Z int_runtime self args None
                 = (None, Ok ([[[22]; [66]]], hidden_states, all_attentions)))
    by (vm_compute; reflexivity).
  split; [exact Hrun|].
  exact (@xlm_construct_output_counts Z int_runtime self args None None _ _ _ Hrun).
Defined.

(** ** XLMModel.construct: the stages of a call that returns *)

Section xlm_construct_stages.
Context {A : Type} `{Runtime A}.

(** The lengths [construct] works with: those given, else the number of
    tokens other than the padding in every row, else the full length. *)
Lemma xlm_construct_stages (self : XLMModel A) (args : construct_args A)
    (cache cache' : option (Cache A)) out :
  xlm_construct self args cache = (cache', Ok out) →
  ∃ bs slen lengths mask amask (ids' : option (list (list Z))) (pids' : list (list Z))
    (langs' : option (list (list Z))) mask' amask' emb pre tensor3 acc st,
    match arg_input_ids args, arg_inputs_embeds args with
    | Some ids, _ => Ok (length ids, length (hd [] ids))
    | None, Some e => Ok (length e, length (hd [] e))
    | None, None => Err AttributeError
    end = Ok (bs, slen) ∧
    lengths = match arg_lengths args, arg_input_ids args with
              | Some lengths, _ => lengths
              | None, Some ids =>
                  map (λ row, Z.of_nat (length (filter (λ x, x ≠ pad_index self) row))) ids
              | None, None => replicate bs (Z.of_nat slen)
              end ∧
    length lengths = bs ∧
    (∃ mx, tensor_max lengths = Ok mx ∧ mx ≤ Z.of_nat slen) ∧
    get_masks slen lengths (causal self) (arg_attention_mask args) = Ok (mask, amask) ∧
    (∃ pids : list (list Z), match cache, arg_input_ids args with
     | Some c, Some ids =>
         cached ← cache_get_slen c;
         let _slen := Z.of_nat slen - Z.of_nat cached in
         Ok (Some (map (slice_from (- _slen)) ids),
             map (slice_from (- _slen)) pids,
             (λ l, map (slice_from (- _slen)) l) <$> arg_langs args,
             map (slice_from (- _slen)) mask,
             mask_slice_from (- _slen) amask)
     | _, _ => Ok (arg_input_ids args, pids, arg_langs args, mask, amask)
     end = Ok (ids', pids', langs', mask', amask')) ∧
    match arg_inputs_embeds args, ids' with
    | Some e, _ => Ok e
    | None, Some ids => embedding (embeddings self) ids
    | None, None => Err AttributeError
    end = Ok emb ∧
    map length tensor3 = map length emb ∧
    mul_mask pre mask' = Ok tensor3 ∧
    stx_foldl (layer_step self mask' amask' (get_head_mask (arg_head_mask args) (n_layers self))
                 (default (config_output_hidden_states self) (arg_output_hidden_states args))
                 (default (config_output_attentions self) (arg_output_attentions args)))
              (tensor3, [], []) (seq 0 (n_layers self)) cache = (st, Ok acc) ∧
    out.1.1 = acc.1.1.
Proof.
  intros Hrun. unfold xlm_construct in Hrun.
  stx_step Hrun as cache0 Hget. injection Hget as <-.
  stx_step Hrun as dims Hdims. destruct dims as [bs slen].
  stx_step Hrun as u1 Hbs. stx_step Hrun as u2 Hmax.
  stx_step Hrun as masks Hmasks. destruct masks as [mask amask].
  stx_step Hrun as pids Hpids. stx_step Hrun as u3 Hlangs.
  stx_step Hrun as trimmed Htrim.
  destruct trimmed as [[[[ids' pids'] langs'] mask'] amask'].
  stx_step Hrun as emb Hemb. stx_step Hrun as tensor0 Ht0.
  stx_step Hrun as tensor1 Ht1. stx_step Hrun as tensor2 Ht2.
  stx_step Hrun as tensor3 Ht3.
  apply stx_bind_ok in Hrun as ([[tensor hstates] atts] & st & Hfold & Hrun).
  stx_step Hrun as cache1 Hget. injection Hget as <-.
  apply stx_bind_ok in Hrun as (u4 & st' & _ & Hrun).
  apply mret_ok in Hrun as [_ Hout].
  apply rbind_ok in Ht0 as (p & _ & (p' & _ & Ht0%add3_rows)%rbind_ok).
  assert (H1 : map length tensor1 = map length tensor0).
  { destruct langs' as [langs|]; simpl in Ht1; [|by injection Ht1 as <-].
    destruct (use_lang_emb self && bool_decide (1 < n_langs self));
      [|by injection Ht1 as <-].
    destruct (lang_embeddings self); [|done].
    by apply rbind_ok in Ht1 as (e & _ & ?%add3_rows). }
  assert (H2 : map length tensor2 = map length tensor1).
  { destruct (arg_token_type_ids args) as [tt|]; [|by injection Ht2 as <-].
    by apply rbind_ok in Ht2 as (e & _ & ?%add3_rows). }
  pose proof (mul_mask_rows _ _ _ Ht3) as Hrows3.
  assert (H3 : map length tensor3 = map length tensor2).
  { rewrite Hrows3. destruct (xlm_training self).
    - by rewrite map_map_rows, layer_norm_apply_rows.
    - by rewrite layer_norm_apply_rows. }
  apply rbind_ok in Hmax as (mx & Hmx & Hle).
  unfold assert in Hbs, Hle.
  destruct (bool_decide (length _ = bs)) eqn:Hbs'; [|done].
  destruct (bool_decide (mx ≤ Z.of_nat slen)) eqn:Hle'; [|done].
  apply bool_decide_eq_true in Hbs', Hle'.
  eexists bs, slen, _, mask, amask, ids', pids', langs', mask', amask', emb, _, tensor3,
    (tensor, hstates, atts), st.
  split; [exact Hdims|]. split; [reflexivity|]. split; [exact Hbs'|].
  split; [by exists mx|]. split; [exact Hmasks|].
  split; [exists pids; exact Htrim|]. split; [exact Hemb|].
  split; [congruence|]. split; [exact Ht3|]. split; [exact Hfold|].
  by subst out.
Qed.
End xlm_construct_stages.
(** ** XLMModel.construct: what the padding mask does to the output *)

Section xlm_construct_padding.
Context {A : Type} `{Runtime A}.




End xlm_construct_padding.


(** ** XLMModel.construct: the cache and a model that is not causal *)

Lemma get_masks_non_causal (slen : nat) (lengths : list Z)
    (padding_mask : option (list (list Z))) mask amask :
  get_masks slen lengths false padding_mask = Ok (mask, amask) →
  amask = Mask2 mask ∧ has_shape2 mask (length lengths) slen = true.
Proof.
  unfold get_masks. intros Hrun.
  apply rbind_ok in Hrun as (alen & _ & Hrun).
  apply rbind_ok in Hrun as (m & _ & Hrun). simpl in Hrun.
  apply rbind_ok in Hrun as (u & Hshape & Hrun).
  injection Hrun as <- <-. split; [done|].
  unfold assert in Hshape. by destruct (has_shape2 m (length lengths) slen).
Qed.

Lemma length_concat_uniform {X} (m : list (list X)) (w : nat) :
  (∀ row, row ∈ m → length row = w) → length (concat m) = (length m * w)%nat.
Proof.
  induction m as [|row m IH]; intros Hrows; simpl; [done|].
  rewrite length_app, IH, (Hrows row) by (intros; (left || (apply Hrows; right)); done).
  lia.
Qed.

Section xlm_construct_non_causal.
Context {A : Type} `{Runtime A}.

(** The attention block asks for a mask with one entry per key position. *)
Lemma construct_scores_mask2_size (self : MultiHeadAttention A)
    (input : list (list (list A))) (m : list (list Z)) (c : Cache A) (cached : nat)
    cache' r :
  cache_slen c = Some cached →
  construct_scores self input (Mask2 m) None (Some c) = (cache', Ok r) →
  length (concat m) = (length input * 1 * (cached + length (hd [] input)))%nat.
Proof.
  intros Hcached Hrun. unfold construct_scores in Hrun.
  destruct (shape3 input) as [[bs qlen] d0] eqn:Hshape.
  assert (Hbs : bs = length input ∧ qlen = length (hd [] input))
    by (unfold shape3 in Hshape; split; congruence).
  destruct Hbs as [-> ->].
  stx_step Hrun as cache0 Hget. injection Hget as <-.
  stx_step Hrun as klen Hklen.
  unfold cache_get_slen in Hklen. rewrite Hcached in Hklen. simpl in Hklen.
  injection Hklen as <-.
  stx_step Hrun as dim_per_head Hdph.
  stx_step Hrun as q Hq.
  stx_step Hrun as kvs Hkv. destruct kvs as [k v].
  stx_step Hrun as u Hmod.
  stx_step Hrun as scores Hscores.
  stx_step Hrun as mask Hm.
  apply rbind_ok in Hm as (viewed & Hview & _).
  unfold view_mask in Hview. simpl in Hview.
  case_bool_decide as Hsize; [done|].
  rewrite length_map in Hsize.
  destruct (decide (length (concat m)
                    = (length input * 1 * (cached + length (hd [] input)))%nat));
    [done | by destruct Hsize].
Qed.

(** X29.  A model that is not causal cannot be called with a cache whose
    counter is positive: with [input_ids] (and no [inputs_embeds]) and at
    least one layer, every such call raises, since the padding mask,
    trimmed to the new positions, does not have one entry per key
    position. *)
Theorem xlm_construct_non_causal_cache_raises (self : XLMModel A)
    (args : construct_args A) (ids : list (list Z)) (c : Cache A) (cached : nat) :
  causal self = false → (0 < n_layers self)%nat →
  arg_input_ids args = Some ids → arg_inputs_embeds args = None →
  cache_slen c = Some cached → (0 < cached)%nat →
  ∃ e, (xlm_construct self args (Some c)).2 = Err e.
Proof.
  intros Hcausal Hlayers Hids Hnoemb Hcached Hpos.
  destruct (xlm_construct self args (Some c)) as [cache' [out|e]] eqn:Hrun; [|by exists e].
  exfalso.
  apply xlm_construct_stages in Hrun
    as (bs & slen & lengths & mask & amask & ids' & pids' & langs' & mask' & amask' & emb
        & pre & tensor3 & acc & st & Hdims & Hl & Hbs & (mx & Hmx & Hle) & Hmasks
        & (pids & Htrim) & Hembed & Hrows & Hmul & Hfold & Hout).
  rewrite Hids in Hdims, Htrim. injection Hdims as <- <-.
  rewrite Hcausal in Hmasks.
  apply get_masks_non_causal in Hmasks as [-> [Hmlen Hmrows]%has_shape2_spec].
  unfold cache_get_slen in Htrim. rewrite Hcached in Htrim. simpl in Htrim.
  injection Htrim as <- <- <- <- <-.
  rewrite Hnoemb in Hembed. apply embedding_rows in Hembed.
  (* the batch is not empty *)
  destruct ids as [|row0 ids]; [simpl in Hbs; by destruct lengths|].
  set (start := - (Z.of_nat (length (hd [] (row0 :: ids))) - Z.of_nat cached)) in *.
  (* the first layer *)
  destruct (n_layers self) as [|n]; [lia|]. simpl in Hfold.
  apply stx_bind_ok in Hfold as (acc1 & st1 & Hstep & _).
  unfold layer_step in Hstep.
  stx_step Hstep as att Hatt. stx_step Hstep as hm Hhm.
  apply stx_bind_ok in Hstep as ([o w] & st2 & Hmha & _).
  unfold mha_construct in Hmha.
  apply stx_bind_ok in Hmha as (r & st3 & Hscores & _).
  apply (construct_scores_mask2_size _ _ _ _ cached) in Hscores; [|done].
  (* both sides count the positions that are left after the trimming *)
  assert (Hlen3 : length tensor3 = S (length ids)).
  { rewrite <- (length_map length tensor3), Hrows, Hembed, !length_map. done. }
  assert (Hq : length (hd [] tensor3) = length (slice_from start row0)).
  { rewrite (hd_length_of_rows tensor3 (map (slice_from start) (row0 :: ids)))
      by congruence. done. }
  rewrite (length_concat_uniform _ (length (slice_from start row0))) in Hscores.
  - rewrite length_map, Hmlen, Hbs, Hlen3, Hq in Hscores. simpl in Hscores. nia.
  - intros row (r0 & -> & Hr0)%list_elem_of_fmap.
    specialize (Hmrows r0 Hr0). unfold slice_from. simpl in Hmrows.
    case_bool_decide; rewrite !length_drop, Hmrows; done.
Qed.
End xlm_construct_non_causal.

Lemma xlm_construct_non_causal_cache_raises_witness :
  let self := unit_model false 1 in
  let c : Cache Z := MkCache (Some 2%nat) ∅ in
  causal self = false ∧ (0 < n_layers self)%nat ∧ cache_slen c = Some 2%nat ∧ (0 < 2)%nat ∧
  (@xlm_construct Z int_runtime self (ids_only [[1; 2; 3]]) (Some c)).2 = Err TensorError ∧
  ∃ e, (@xlm_construct Z int_runtime self (ids_only [[1; 2; 3]]) (Some c)).2 = Err e.
Proof.
  intros self c.
  assert (Hlayers : (0 < n_layers self)%nat) by (simpl; lia).
  assert (Hpos : (0 < 2)%nat) by lia.
  split; [reflexivity|]. split; [exact Hlayers|]. split; [reflexivity|].
  split; [exact Hpos|]. split; [vm_compute; reflexivity|].
  exact (@xlm_construct_non_causal_cache_raises Z int_runtime self (ids_only [[1; 2; 3]])
           [[1; 2; 3]] c 2 eq_refl Hlayers eq_refl eq_refl eq_refl Hpos).
Defined.

(** ** XLMModel.construct: arguments that no call survives *)



Section xlm_construct_refused.
Context {A : Type} `{Runtime A}.

End xlm_construct_refused.


Section xlm_construct_empty.
Context {A : Type} `{Runtime A}.

End xlm_construct_empty.

(** ** XLMPredLayer.construct: labels and scores *)

(** X30.  Labels add the loss in front of the scores and leave the scores
    as they are: they are the scores the same call returns without
    labels. *)
Theorem pred_construct_labels_keep_scores {A} `{Runtime A} (self : XLMPredLayer A)
    (x : list (list (list A))) (y : list (list Z)) (outputs : list (pred_output A)) :
  pred_construct self x (Some y) = Ok outputs →
  ∃ loss scores, outputs = [Loss loss; Scores scores] ∧
                 pred_construct self x None = Ok [Scores scores].
Proof.
  unfold pred_construct. destruct (asm self); simpl; [by destruct (proj self)|].
  destruct (proj self) as [p|]; [|done].
  destruct (dense p x) as [scores|e]; simpl; [|done].
  case_bool_decide; [done|]. case_bool_decide; [done|].
  intros [= <-]. eauto.
Qed.

Lemma pred_construct_labels_keep_scores_witness :
  let self : XLMPredLayer Z :=
    pred_layer_init (MkXLMConfig false 2 0 1) (MkDense 1 2 [[1]; [2]] (Some [0; 0])) in
  @pred_construct Z int_runtime self [[[3]; [4]]] (Some [[1; 0]])
  = Ok [Loss 0; Scores [[[3; 6]; [4; 8]]]] ∧
  ∃ loss scores, [Loss 0; Scores [[[3; 6]; [4; 8]]]] = [Loss loss; Scores scores] ∧
                 @pred_construct Z int_runtime self [[[3]; [4]]] None = Ok [Scores scores].
Proof.
  intros self.
  assert (Hrun : @pred_construct Z int_runtime self [[[3]; [4]]] (Some [[1; 0]])
                 = Ok [Loss 0; Scores [[[3; 6]; [4; 8]]]]) by reflexivity.
  split; [exact Hrun|].
  exact (@pred_construct_labels_keep_scores Z int_runtime self _ _ _ Hrun).
Defined.
